(** * npm-console: the backend registry and the aggregation services

    A shallow embedding of the Go packages [internal/core],
    [internal/managers] (the manager factory) and [internal/services]
    (cache, package, configuration and project services), and the
    properties of the aggregation layer proved over it.

    Conventions of the embedding.
    - Go strings are [string]; the Go operator [<] on strings is the
      bytewise lexicographic order [String.ltb].
    - [int64] and [int] values are [Z]; additions wrap around at 64 bits.
    - A Go map is a [gmap]; a slice is a [list] (value semantics).
    - A Go function returning [(T, error)] returns [result T]; a function
      returning only [error] returns [option error] ([None] is [nil]).
    - The [core.PackageManager] interface is a record of functions over a
      type [W] of worlds: everything outside the process (the installed
      tools, their caches and configuration, the file system).
    - Service methods run in a state monad over the world, the trace of
      backend calls and the log output.
    - Every order Go leaves open (the iteration order of [range] over a
      map, the order in which the goroutines of a fan-out finish) is
      chosen by a [Schedule]; theorems hold for every schedule. *)

From Stdlib Require Import ZArith Lia Sorted DecimalString.
From stdpp Require Import base tactics option list sorting strings gmap fin_maps.

#[local] Set Warnings "-register-all".

Open Scope string_scope.
Open Scope list_scope.
Open Scope Z_scope.

(** ** Errors ([internal/core/errors.go]) *)

(** The package-level error variables created with [errors.New].  Each is
    a distinct pointer: two of them are equal only when they are the same
    variable. *)
Inductive Sentinel :=
| ErrManagerNotFound
| ErrManagerNotAvailable
| ErrInvalidPath
| ErrInvalidConfig
| ErrCacheNotFound
| ErrProjectNotFound
| ErrPackageNotFound
| ErrPermissionDenied
| ErrNetworkError
| ErrInvalidRegistry
| ErrInvalidProxy.

Definition Sentinel_message (e : Sentinel) : string :=
  match e with
  | ErrManagerNotFound => "package manager not found"
  | ErrManagerNotAvailable => "package manager not available"
  | ErrInvalidPath => "invalid path"
  | ErrInvalidConfig => "invalid configuration"
  | ErrCacheNotFound => "cache not found"
  | ErrProjectNotFound => "project not found"
  | ErrPackageNotFound => "package not found"
  | ErrPermissionDenied => "permission denied"
  | ErrNetworkError => "network error"
  | ErrInvalidRegistry => "invalid registry URL"
  | ErrInvalidProxy => "invalid proxy configuration"
  end.

(** Go error values.
    - [Predefined e]: one of the variables above.
    - [ManagerError m op err]: [core.NewManagerError(m, op, err)].
    - [ValidationError f v msg]: [core.NewValidationError(f, v, msg)].
    - [Errorf msg]: [fmt.Errorf] with [%s] verbs only (wraps nothing).
    - [ErrorfW prefix name err]: [fmt.Errorf(prefix + "%s: %w", name, err)].
    - [ErrorfV prefix errs]: [fmt.Errorf(prefix + "%v", errs)] for a slice
      of errors.
    - [External msg]: an error made outside this repository (the
      operating system, [encoding/json], a backend's own failure). *)
Inductive error :=
| Predefined (e : Sentinel)
| ManagerError (Manager Op : string) (Err : error)
| ValidationError (Field Value Message : string)
| Errorf (msg : string)
| ErrorfW (prefix name : string) (err : error)
| ErrorfV (prefix : string) (errs : list error)
| External (msg : string).

Definition join_with (sep : string) (l : list string) : string :=
  match l with
  | [] => ""
  | x :: xs => fold_left (fun acc y => acc +:+ sep +:+ y) xs x
  end.

(** The [Error()] method. *)
Fixpoint Error (e : error) : string :=
  match e with
  | Predefined s => Sentinel_message s
  | ManagerError m op err => m +:+ " " +:+ op +:+ ": " +:+ Error err
  | ValidationError f v msg =>
      "validation error for field '" +:+ f +:+ "' with value '" +:+ v
        +:+ "': " +:+ msg
  | Errorf msg => msg
  | ErrorfW prefix name err => prefix +:+ name +:+ ": " +:+ Error err
  | ErrorfV prefix errs =>
      prefix +:+ "[" +:+ join_with " " (map Error errs) +:+ "]"
  | External msg => msg
  end.

(** The Go comparison [err == core.ErrProjectNotFound]. *)
Definition is_sentinel (s : Sentinel) (e : error) : bool :=
  match e with
  | Predefined s' =>
      match s, s' with
      | ErrManagerNotFound, ErrManagerNotFound
      | ErrManagerNotAvailable, ErrManagerNotAvailable
      | ErrInvalidPath, ErrInvalidPath
      | ErrInvalidConfig, ErrInvalidConfig
      | ErrCacheNotFound, ErrCacheNotFound
      | ErrProjectNotFound, ErrProjectNotFound
      | ErrPackageNotFound, ErrPackageNotFound
      | ErrPermissionDenied, ErrPermissionDenied
      | ErrNetworkError, ErrNetworkError
      | ErrInvalidRegistry, ErrInvalidRegistry
      | ErrInvalidProxy, ErrInvalidProxy => true
      | _, _ => false
      end
  | _ => false
  end.

(** [core.IsValidationError]: [errors.As] follows [Unwrap] chains. *)
Fixpoint IsValidationError (e : error) : bool :=
  match e with
  | ValidationError _ _ _ => true
  | ManagerError _ _ err => IsValidationError err
  | ErrorfW _ _ err => IsValidationError err
  | _ => false
  end.

Inductive result (A : Type) :=
| Ok (a : A)
| Err (e : error).
Arguments Ok {A} a.
Arguments Err {A} e.

(** The [Unwrap] method, where an error has one: of a [ManagerError], and
    of the result of [fmt.Errorf] with a [%w] verb. *)
Definition Unwrap (e : error) : option error :=
  match e with
  | ManagerError _ _ err => Some err
  | ErrorfW _ _ err => Some err
  | _ => None
  end.

(** [errors.Is(err, target)] for a predefined [target]: the chain of
    [Unwrap] is searched for the variable itself. *)
Fixpoint errors_Is (target : Sentinel) (e : error) : bool :=
  match e with
  | Predefined _ => is_sentinel target e
  | ManagerError _ _ err => errors_Is target err
  | ErrorfW _ _ err => errors_Is target err
  | _ => false
  end.

(** [core.IsManagerError]. *)
Fixpoint IsManagerError (e : error) : bool :=
  match e with
  | ManagerError _ _ _ => true
  | ErrorfW _ _ err => IsManagerError err
  | _ => false
  end.

(** ** Records ([internal/core/models.go])

    One module per Go struct; [time.Time] is a number of nanoseconds. *)

Definition wrap64 (z : Z) : Z := (z + 2 ^ 63) mod 2 ^ 64 - 2 ^ 63.

Module CacheInfo.
Record t := {
    Manager : string;
    Path : string;
    Size : Z;
    FileCount : Z;
    LastUpdated : Z
  }.
End CacheInfo.

Module Package.
Record t := {
    Name : string;
    Version : string;
    Description : string;
    Manager : string;
    IsGlobal : bool;
    Path : string;
    Size : Z;
    Dependencies : gmap string string;
    DevDependencies : gmap string string
  }.
End Package.

Module Config.
Record t := {
    Manager : string;
    Registry : string;
    Proxy : string;
    Settings : gmap string string
  }.
End Config.

(** [Project.Managers] is a slice, a view of a backing array, and
    [mergeProjects] appends to such slices.  [Managers] holds the
    elements of the slice.  [ManagersArray] is [None] when no other slice
    in the program views the backing array, as for a slice written as a
    literal or built by [append] from nil; otherwise it names the array,
    the offset of the slice in it and the capacity of the slice,
    [cap(s)], which counts from that offset. *)
Module Backing.
Record t := { Array : nat; Offset : nat; Capacity : nat }.
End Backing.

Module Project.
Record t := {
    Name : string;
    Path : string;
    Managers : list string;
    ManagersArray : option Backing.t;
    PackageFile : string;
    LockFile : string;
    NodeModules : string
  }.
End Project.

Module DependencyTree.
Inductive t := {
    Name : string;
    Version : string;
    Dependencies : list t;
    DevDependency : bool;
    Depth : Z
  }.
End DependencyTree.

Module Vulnerability.
Record t := {
  Package : string;
  Version : string;
  Severity : string;
  Title : string;
  Description : string;
  FixedIn : string
}.
End Vulnerability.

Module ProjectAnalysis.
Record t := {
  Project : Project.t;
  PackageCount : Z;
  DevPackageCount : Z;
  TotalSize : Z;
  OutdatedPackages : list Package.t;
  Vulnerabilities : list Vulnerability.t;
  Scripts : gmap string string
}.
End ProjectAnalysis.

Module PackageDetail.
Record t := {
  Package : Package.t;
  Author : string;
  License : string;
  Homepage : string;
  Repository : string;
  Keywords : list string;
  Scripts : gmap string string;
  Engines : gmap string string;
  PeerDependencies : gmap string string
}.
End PackageDetail.

Module ManagerType.
Definition NPM : string := "npm".
Definition PNPM : string := "pnpm".
Definition YARN : string := "yarn".
Definition BUN : string := "bun".

Definition IsValid (m : string) : bool :=
  if String.eqb m NPM then true
  else if String.eqb m PNPM then true
  else if String.eqb m YARN then true
  else if String.eqb m BUN then true
  else false.
End ManagerType.

(** ** [sort.Slice]

    [sort.Slice(s, less)] belongs to Go's standard library, here that of
    Go 1.21, which the Dockerfile builds with.  On a slice of at most 12
    elements it runs the insertion sort below: one element
    after the other, from the left, is swapped towards the front for as
    long as it is [less] than its left neighbour, so that elements none of
    which is [less] than the other keep the order of the input.  On a
    longer slice the library sorts as well, but in an order among such
    elements that it leaves open; the properties below use only that the
    outcome is a permutation of the input in which no element is [less]
    than an earlier one. *)
Section Sort.
Context {A : Type} (less : A -> A -> bool).

(** The inner loop: [x] is [data[i]] and [sorted] the sorted part
    [data[a..i)] read from its right end, [data[i-1]] first. *)
Fixpoint sort_insert (x : A) (sorted : list A) : list A :=
    match sorted with
    | [] => [x]
    | y :: sorted' =>
        if less x y then y :: sort_insert x sorted' else x :: y :: sorted'
    end.

Definition sort_Slice (l : list A) : list A :=
    reverse (fold_left (fun sorted x => sort_insert x sorted) l []).
End Sort.


(** ** The world outside the process

    The functions of the operating system and of Go's standard library
    that the services reach: [os.Stat], [os.UserHomeDir], [os.ReadFile],
    [filepath.Join], [json.Unmarshal] into a [PackageJsonInfo], and
    [url.Parse] (of which only [Scheme] and [Host] are read). *)

Inductive StatResult :=
| StatOk (isDir : bool)
| StatNotExist
| StatFailed.

Module URL.
Record t := { Scheme : string; Host : string }.
End URL.

(** [PackageJsonInfo] of [internal/services/projects.go]. *)
Module PackageJsonInfo.
Record t := {
  Name : string;
  Version : string;
  Description : string;
  Dependencies : gmap string string;
  DevDependencies : gmap string string;
  Scripts : gmap string string
}.
End PackageJsonInfo.

Class Platform (W : Type) := {
  os_Stat : W -> string -> StatResult;
  os_UserHomeDir : W -> result string;
  os_ReadFile : W -> string -> result string;
  filepath_Join : string -> string -> string;
  json_Unmarshal : string -> result PackageJsonInfo.t;
  url_Parse : string -> result URL.t
}.

(** Further functions of Go's standard library, reached by the package
    search, the package installation and the project analysis:
    [strings.ToLower], [strings.TrimSpace], the method [Output] of
    [exec.CommandContext(ctx, name, args...)], and [filepath.Walk], given
    as the visits it makes while the callback returns nil (file
    information, or the error met at that path). *)
Inductive ExecOutcome :=
| ExecDone (stdout : string)
| ExecExit (stdout : string) (err : error) (stderr : string) (exitCode : Z)
| ExecFailed (stdout : string) (err : error).

Module FileInfo.
Record t := { IsDir : bool; Size : Z }.
End FileInfo.

Class Runtime (W : Type) := {
  strings_ToLower : string -> string;
  strings_TrimSpace : string -> string;
  exec_Output : W -> string -> list string -> ExecOutcome * W;
  filepath_Walk : W -> string -> list (result FileInfo.t)
}.

(** [strings.Contains]. *)
Fixpoint strings_Contains (s substr : string) : bool :=
  String.prefix substr s
  || match s with
     | EmptyString => false
     | String _ s' => strings_Contains s' substr
     end.

(** ** Running commands ([pkg/utils/command.go]) *)
Module command.

Module CommandResult.
Record t := {
  Stdout : string;
  Stderr : string;
  ExitCode : Z;
  Error : option error
}.
End CommandResult.

Section command.
Context {W : Type} `{!Runtime W}.

Definition ExecuteCommand (w : W) (name : string) (args : list string)
    : CommandResult.t * W :=
  let '(outcome, w') := exec_Output w name args in
  (match outcome with
   | ExecDone stdout =>
       {| CommandResult.Stdout := strings_TrimSpace stdout;
          CommandResult.Stderr := "";
          CommandResult.ExitCode := 0;
          CommandResult.Error := None |}
   | ExecExit stdout err stderr exitCode =>
       {| CommandResult.Stdout := strings_TrimSpace stdout;
          CommandResult.Stderr := strings_TrimSpace stderr;
          CommandResult.ExitCode := exitCode;
          CommandResult.Error := Some err |}
   | ExecFailed stdout err =>
       {| CommandResult.Stdout := strings_TrimSpace stdout;
          CommandResult.Stderr := "";
          CommandResult.ExitCode := 0;
          CommandResult.Error := Some err |}
   end, w').
End command.
End command.

(** ** [core.PackageManager] ([internal/core/interfaces.go])

    The context argument of every method is part of the world.  The
    reading methods leave the world as it is; [ClearCache], [SetRegistry]
    and [SetProxy] return the world they leave behind. *)
Module PackageManager.
Record t (W : Type) := {
  Name : string;
  IsAvailable : W -> bool;
  GetCacheInfo : W -> result CacheInfo.t;
  ClearCache : W -> option error * W;
  GetInstalledPackages : W -> string -> result (list Package.t);
  GetGlobalPackages : W -> result (list Package.t);
  GetConfig : W -> result Config.t;
  SetRegistry : W -> string -> option error * W;
  SetProxy : W -> string -> option error * W;
  GetProjects : W -> string -> result (list Project.t)
}.
Arguments Name {W} _.
Arguments IsAvailable {W} _ _.
Arguments GetCacheInfo {W} _ _.
Arguments ClearCache {W} _ _.
Arguments GetInstalledPackages {W} _ _ _.
Arguments GetGlobalPackages {W} _ _.
Arguments GetConfig {W} _ _.
Arguments SetRegistry {W} _ _ _.
Arguments SetProxy {W} _ _ _.
Arguments GetProjects {W} _ _ _.
End PackageManager.

(** ** Execution state: world, trace of backend calls, log *)

Inductive Op :=
| OpIsAvailable
| OpGetCacheInfo
| OpClearCache
| OpGetInstalledPackages (projectPath : string)
| OpGetGlobalPackages
| OpGetConfig
| OpSetRegistry (url : string)
| OpSetProxy (proxy : string)
| OpGetProjects (rootPath : string).

(** A call of method [op] on the backend registered under [name]. *)
Definition Call : Type := string * Op.

Inductive Level := LevelDebug | LevelInfo | LevelWarn | LevelError.

Inductive LogValue :=
| LStr (s : string)
| LInt (z : Z)
| LErr (e : error).

(** One record written through [pkg/logger]: the level, the message and
    the fields added with [WithField]/[WithError]. *)
Record LogEntry := {
  level : Level;
  message : string;
  fields : list (string * LogValue)
}.

Record State (W : Type) := {
  world : W;
  calls : list Call;
  logs : list LogEntry
}.
Arguments world {W} _.
Arguments calls {W} _.
Arguments logs {W} _.
Arguments Build_State {W} _ _ _.

(** The order of every [range] over a map and of every fan-out, by the
    place ([nat]) in the program where it happens. *)
Record Schedule := {
  order : nat -> forall A : Type, list A -> list A;
  order_perm : forall n A (l : list A), order n A l ≡ₚ l
}.
Arguments order _ _ {A} _.

Section Monad.
Context {W : Type}.

Definition M (A : Type) : Type := State W -> A * State W.

Definition ret {A} (a : A) : M A := fun st => (a, st).

Definition bind {A B} (c : M A) (k : A -> M B) : M B :=
  fun st => let '(a, st') := c st in k a st'.

(** A logger call. *)
Definition log (lvl : Level) (msg : string)
    (fs : list (string * LogValue)) : M unit :=
  fun st =>
    (tt, Build_State (world st) (calls st)
           (logs st ++ [{| level := lvl; message := msg; fields := fs |}])).

(** A call of a reading backend method. *)
Definition call_read {A} (name : string) (op : Op) (method : W -> A) : M A :=
  fun st =>
    (method (world st),
     Build_State (world st) (calls st ++ [(name, op)]) (logs st)).

(** A call of a backend method that changes the world. *)
Definition call_write (name : string) (op : Op)
    (method : W -> option error * W) : M (option error) :=
  fun st =>
    let '(r, w') := method (world st) in
    (r, Build_State w' (calls st ++ [(name, op)]) (logs st)).

(** Reading the world without calling a backend (file-system helpers). *)
Definition read_world {A} (f : W -> A) : M A :=
  fun st => (f (world st), st).

(** A loop over a list threading an accumulator: the body of a
    [for ... range] loop, or the tasks of a fan-out joined by
    [wg.Wait()], each run to its end in the order given. *)
Fixpoint for_each {X Acc} (body : X -> Acc -> M Acc) (l : list X)
    (acc : Acc) : M Acc :=
  match l with
  | [] => ret acc
  | x :: l' => bind (body x acc) (for_each body l')
  end.
End Monad.

Notation "'do' x <- c ; k" := (bind c (fun x => k))
  (at level 10, x pattern, c at level 100, k at level 200).
Notation "c ;; k" := (bind c (fun _ => k))
  (at level 100, k at level 200, right associativity).

(** Places where an order is chosen. *)
Definition at_GetAvailableManagers : nat := 0.
Definition at_GetAvailableManagerNames : nat := 1.
Definition at_fan_out : nat := 2.
Definition at_mergeProjects : nat := 3.
Definition at_Dependencies : nat := 4.
Definition at_DevDependencies : nat := 5.
Definition at_GetManagerNames : nat := 6.
Definition at_GetAvailableManagerCount : nat := 7.
Definition at_GetManagerInfo : nat := 8.

(** ** [ManagerFactory] ([internal/managers])

    The factory's map of registered managers; its mutex and logger play
    no part in what the methods return. *)
Module ManagerFactory.
Section ManagerFactory.
Context {W : Type}.

Record t := { managers : gmap string (PackageManager.t W) }.

Definition GetManager (f : t) (name : string) : result (PackageManager.t W) :=
  match managers f !! name with
  | None => Err (Errorf ("package manager '" +:+ name +:+ "' not found"))
  | Some manager => Ok manager
  end.

Definition GetAllManagers (f : t) : gmap string (PackageManager.t W) :=
  managers f.

Definition GetAvailableManagers (σ : Schedule) (f : t)
    : M (gmap string (PackageManager.t W)) :=
  for_each
    (fun '(name, manager) result =>
       do available <- call_read name OpIsAvailable
                         (PackageManager.IsAvailable manager);
       if available : bool
       then ret (<[name := manager]> result)
       else ret result)
    (order σ at_GetAvailableManagers (map_to_list (managers f)))
    ∅.

Definition GetAvailableManagerNames (σ : Schedule) (f : t)
    : M (list string) :=
  for_each
    (fun '(name, manager) names =>
       do available <- call_read name OpIsAvailable
                         (PackageManager.IsAvailable manager);
       if available : bool
       then ret (names ++ [name])
       else ret names)
    (order σ at_GetAvailableManagerNames (map_to_list (managers f)))
    [].

Definition RegisterManager (f : t) (name : string)
    (manager : PackageManager.t W) : option error * t :=
  match managers f !! name with
  | Some _ =>
      (Some (Errorf ("package manager '" +:+ name +:+ "' already registered")),
       f)
  | None => (None, {| managers := <[name := manager]> (managers f) |})
  end.

Definition UnregisterManager (f : t) (name : string) : option error * t :=
  match managers f !! name with
  | None => (Some (Errorf ("package manager '" +:+ name +:+ "' not found")), f)
  | Some _ => (None, {| managers := delete name (managers f) |})
  end.

Definition GetManagerNames (σ : Schedule) (f : t) : list string :=
  map fst (order σ at_GetManagerNames (map_to_list (managers f))).

Definition IsManagerAvailable (f : t) (name : string) : M bool :=
  match managers f !! name with
  | None => ret false
  | Some manager =>
      call_read name OpIsAvailable (PackageManager.IsAvailable manager)
  end.

Definition GetManagerCount (f : t) : Z := Z.of_nat (size (managers f)).

Definition GetAvailableManagerCount (σ : Schedule) (f : t) : M Z :=
  for_each
    (fun '(name, manager) count =>
       do available <- call_read name OpIsAvailable
                         (PackageManager.IsAvailable manager);
       if available : bool
       then ret (wrap64 (count + 1))
       else ret count)
    (order σ at_GetAvailableManagerCount (map_to_list (managers f)))
    0.

Definition ValidateManager (f : t) (name : string) : option error :=
  match managers f !! name with
  | None => Some (ValidationError "manager" name "unknown package manager")
  | Some _ => None
  end.

Record ManagerInfo := { Name : string; Available : bool }.

Definition GetManagerInfo (σ : Schedule) (f : t) : M (list ManagerInfo) :=
  for_each
    (fun '(name, manager) info =>
       do available <- call_read name OpIsAvailable
                         (PackageManager.IsAvailable manager);
       ret (info ++ [{| Name := name; Available := available |}]))
    (order σ at_GetManagerInfo (map_to_list (managers f)))
    [].

(** [registerManagers] and [NewManagerFactory]; the four managers are
    what [NewNPMManager()], [NewPNPMManager()], [NewYarnManager()] and
    [NewBunManager()] return. *)
Definition registerManagers (npm pnpm yarn bun : PackageManager.t W) (f : t)
    : t :=
  {| managers :=
       <["bun" := bun]>
         (<["yarn" := yarn]>
            (<["pnpm" := pnpm]> (<["npm" := npm]> (managers f)))) |}.

Definition NewManagerFactory (npm pnpm yarn bun : PackageManager.t W) : t :=
  registerManagers npm pnpm yarn bun {| managers := ∅ |}.
End ManagerFactory.
Arguments t W : clear implicits.
End ManagerFactory.

(** ** [CacheService] ([internal/services/cache.go]) *)
Module CacheService.

Record CacheManagerStats := {
  Size : Z;
  FileCount : Z;
  Path : string;
  LastUpdated : Z
}.

Record CacheStats := {
  TotalSize : Z;
  TotalFiles : Z;
  ManagerCount : Z;
  LargestCache : CacheManagerStats;
  LargestCacheManager : string;
  Managers : gmap string CacheManagerStats
}.

Module CacheSummary.
Record t := {
  TotalSize : Z;
  TotalFiles : Z;
  ManagerCount : Z;
  LargestCacheManager : string;
  LargestCacheSize : Z;
  AvailableManagers : list string
}.
End CacheSummary.

Section CacheService.
Context {W : Type}.

(** The goroutine started for one manager in [GetAllCacheInfo], on the
    pair of the slices [cacheInfos] and [errors]. *)
Definition GetAllCacheInfo_task
    (nm : string * PackageManager.t W)
    (acc : list CacheInfo.t * list error)
    : M (list CacheInfo.t * list error) :=
  let '(name, mgr) := nm in
  let '(cacheInfos, errors) := acc in
  do r <- call_read name OpGetCacheInfo (PackageManager.GetCacheInfo mgr);
  match r with
  | Err err =>
      log LevelWarn "Failed to get cache info"
        [("service", LStr "cache"); ("error", LErr err);
         ("manager", LStr name)] ;;
      ret (cacheInfos,
           errors ++ [ErrorfW "failed to get cache info for " name err])
  | Ok cacheInfo => ret (cacheInfos ++ [cacheInfo], errors)
  end.

Definition GetAllCacheInfo (σ : Schedule) (f : ManagerFactory.t W)
    : M (result (list CacheInfo.t)) :=
  do availableManagers <- ManagerFactory.GetAvailableManagers σ f;
  do (cacheInfos, errors) <-
    for_each GetAllCacheInfo_task
      (order σ at_fan_out (map_to_list availableManagers)) ([], []);
  let cacheInfos :=
    sort_Slice
      (fun a b => String.ltb (CacheInfo.Manager a) (CacheInfo.Manager b))
      cacheInfos in
  for_each
    (fun err (_ : unit) =>
       log LevelWarn "Cache info retrieval error"
         [("service", LStr "cache"); ("error", LErr err)])
    errors tt ;;
  ret (Ok cacheInfos).

Definition GetCacheInfo (f : ManagerFactory.t W) (managerName : string)
    : M (result CacheInfo.t) :=
  match ManagerFactory.GetManager f managerName with
  | Err err => ret (Err err)
  | Ok manager =>
      do available <- call_read managerName OpIsAvailable
                        (PackageManager.IsAvailable manager);
      if negb available
      then ret (Err (ManagerError managerName "get cache info"
                       (Predefined ErrManagerNotAvailable)))
      else call_read managerName OpGetCacheInfo
             (PackageManager.GetCacheInfo manager)
  end.

(** The goroutine started for one manager in [ClearAllCaches], on the
    pair of [errors] and [clearedCount]. *)
Definition ClearAllCaches_task
    (nm : string * PackageManager.t W) (acc : list error * Z)
    : M (list error * Z) :=
  let '(name, mgr) := nm in
  let '(errors, clearedCount) := acc in
  do r <- call_write name OpClearCache (PackageManager.ClearCache mgr);
  match r with
  | Some err =>
      log LevelError "Failed to clear cache"
        [("service", LStr "cache"); ("error", LErr err);
         ("manager", LStr name)] ;;
      ret (errors ++ [ErrorfW "failed to clear cache for " name err],
           clearedCount)
  | None =>
      log LevelInfo "Cache cleared successfully"
        [("service", LStr "cache"); ("manager", LStr name)] ;;
      ret (errors, wrap64 (clearedCount + 1))
  end.

Definition ClearAllCaches (σ : Schedule) (f : ManagerFactory.t W)
    : M (option error) :=
  do availableManagers <- ManagerFactory.GetAvailableManagers σ f;
  do (errors, clearedCount) <-
    for_each ClearAllCaches_task
      (order σ at_fan_out (map_to_list availableManagers)) ([], 0);
  log LevelInfo "Cache clearing completed"
    [("service", LStr "cache"); ("cleared_count", LInt clearedCount);
     ("total_managers", LInt (Z.of_nat (size availableManagers)))] ;;
  if decide (0 < length errors)%nat
  then ret (Some (ErrorfV "failed to clear some caches: " errors))
  else ret None.

Definition ClearCache (f : ManagerFactory.t W) (managerName : string)
    : M (option error) :=
  match ManagerFactory.GetManager f managerName with
  | Err err => ret (Some err)
  | Ok manager =>
      do available <- call_read managerName OpIsAvailable
                        (PackageManager.IsAvailable manager);
      if negb available
      then ret (Some (ManagerError managerName "clear cache"
                        (Predefined ErrManagerNotAvailable)))
      else call_write managerName OpClearCache
             (PackageManager.ClearCache manager)
  end.

Definition zero_CacheManagerStats : CacheManagerStats :=
  {| Size := 0; FileCount := 0; Path := ""; LastUpdated := 0 |}.

Definition stats_of (info : CacheInfo.t) : CacheManagerStats :=
  {| Size := CacheInfo.Size info;
     FileCount := CacheInfo.FileCount info;
     Path := CacheInfo.Path info;
     LastUpdated := CacheInfo.LastUpdated info |}.

(** The body of the loop of [GetCacheStats]. *)
Definition GetCacheStats_step (stats : CacheStats) (info : CacheInfo.t)
    : CacheStats :=
  let larger := Z.ltb (Size (LargestCache stats)) (CacheInfo.Size info) in
  {| TotalSize := wrap64 (TotalSize stats + CacheInfo.Size info);
     TotalFiles := wrap64 (TotalFiles stats + CacheInfo.FileCount info);
     ManagerCount := wrap64 (ManagerCount stats + 1);
     LargestCache := if larger then stats_of info else LargestCache stats;
     LargestCacheManager :=
       if larger then CacheInfo.Manager info else LargestCacheManager stats;
     Managers := <[CacheInfo.Manager info := stats_of info]> (Managers stats)
  |}.

Definition GetCacheStats (σ : Schedule) (f : ManagerFactory.t W)
    : M (result CacheStats) :=
  do r <- GetAllCacheInfo σ f;
  match r with
  | Err err => ret (Err err)
  | Ok cacheInfos =>
      ret (Ok (fold_left GetCacheStats_step cacheInfos
                 {| TotalSize := 0; TotalFiles := 0; ManagerCount := 0;
                    LargestCache := zero_CacheManagerStats;
                    LargestCacheManager := "";
                    Managers := ∅ |}))
  end.

Definition GetCacheSummary (σ : Schedule) (f : ManagerFactory.t W)
    : M (result CacheSummary.t) :=
  do r <- GetCacheStats σ f;
  match r with
  | Err err => ret (Err err)
  | Ok stats =>
      do names <- ManagerFactory.GetAvailableManagerNames σ f;
      ret (Ok {| CacheSummary.TotalSize := TotalSize stats;
                 CacheSummary.TotalFiles := TotalFiles stats;
                 CacheSummary.ManagerCount := ManagerCount stats;
                 CacheSummary.LargestCacheManager := LargestCacheManager stats;
                 CacheSummary.LargestCacheSize := Size (LargestCache stats);
                 CacheSummary.AvailableManagers := names |})
  end.

Definition GetTotalCacheSize (σ : Schedule) (f : ManagerFactory.t W)
    : M (result Z) :=
  do r <- GetAllCacheInfo σ f;
  match r with
  | Err err => ret (Err err)
  | Ok cacheInfos =>
      ret (Ok (fold_left
                 (fun totalSize info => wrap64 (totalSize + CacheInfo.Size info))
                 cacheInfos 0))
  end.

Definition ValidateManagerName (f : ManagerFactory.t W)
    (managerName : string) : M (option error) :=
  match ManagerFactory.ValidateManager f managerName with
  | Some err => ret (Some err)
  | None =>
      do available <- ManagerFactory.IsManagerAvailable f managerName;
      if negb available
      then ret (Some (ManagerError managerName "validate"
                        (Predefined ErrManagerNotAvailable)))
      else ret None
  end.

End CacheService.
End CacheService.

(** ** [PackageService] ([internal/services/packages.go]) *)
Module PackageService.

(** [fmt.Sprintf("%s@%s:%s", pkg.Name, pkg.Version, pkg.Manager)] *)
Definition package_key (pkg : Package.t) : string :=
  Package.Name pkg +:+ "@" +:+ Package.Version pkg +:+ ":"
    +:+ Package.Manager pkg.

(** The body of the loop of [removeDuplicatePackages], on the pair of the
    map [seen] and the slice [unique]; a key missing from [seen] reads as
    [false]. *)
Definition removeDuplicatePackages_step
    (st : gmap string bool * list Package.t) (pkg : Package.t)
    : gmap string bool * list Package.t :=
  let '(seen, unique) := st in
  let key := package_key pkg in
  if negb (default false (seen !! key))
  then (<[key := true]> seen, unique ++ [pkg])
  else (seen, unique).

Definition removeDuplicatePackages (packages : list Package.t)
    : list Package.t :=
  snd (fold_left removeDuplicatePackages_step packages (∅, [])).

Definition by_Name (a b : Package.t) : bool :=
  String.ltb (Package.Name a) (Package.Name b).

Section PackageService.
Context {W : Type}.

(** The goroutine started for one manager in [GetAllPackages], on the
    pair of the slices [allPackages] and [errors]. *)
Definition GetAllPackages_task (projectPath : string)
    (nm : string * PackageManager.t W)
    (acc : list Package.t * list error)
    : M (list Package.t * list error) :=
  let '(name, mgr) := nm in
  let '(allPackages, errors) := acc in
  do r <- call_read name (OpGetInstalledPackages projectPath)
            (fun w => PackageManager.GetInstalledPackages mgr w projectPath);
  match r with
  | Err err =>
      if is_sentinel ErrProjectNotFound err
      then
        log LevelDebug "No project found for this manager"
          [("service", LStr "packages"); ("manager", LStr name)] ;;
        ret (allPackages, errors)
      else
        log LevelWarn "Failed to get packages"
          [("service", LStr "packages"); ("error", LErr err);
           ("manager", LStr name)] ;;
        ret (allPackages,
             errors ++ [ErrorfW "failed to get packages from " name err])
  | Ok packages => ret (allPackages ++ packages, errors)
  end.

Definition GetAllPackages (σ : Schedule) (f : ManagerFactory.t W)
    (projectPath : string) : M (result (list Package.t)) :=
  if decide (projectPath = "")
  then ret (Err (ValidationError "projectPath" projectPath
                   "project path cannot be empty"))
  else
    do availableManagers <- ManagerFactory.GetAvailableManagers σ f;
    do (allPackages, errors) <-
      for_each (GetAllPackages_task projectPath)
        (order σ at_fan_out (map_to_list availableManagers)) ([], []);
    let uniquePackages :=
      sort_Slice by_Name (removeDuplicatePackages allPackages) in
    for_each
      (fun err (_ : unit) =>
         log LevelWarn "Package retrieval error"
           [("service", LStr "packages"); ("error", LErr err)])
      errors tt ;;
    ret (Ok uniquePackages).

(** The goroutine started for one manager in [GetGlobalPackages]. *)
Definition GetGlobalPackages_task
    (nm : string * PackageManager.t W)
    (acc : list Package.t * list error)
    : M (list Package.t * list error) :=
  let '(name, mgr) := nm in
  let '(allPackages, errors) := acc in
  do r <- call_read name OpGetGlobalPackages
            (PackageManager.GetGlobalPackages mgr);
  match r with
  | Err err =>
      log LevelWarn "Failed to get global packages"
        [("service", LStr "packages"); ("error", LErr err);
         ("manager", LStr name)] ;;
      ret (allPackages,
           errors ++ [ErrorfW "failed to get global packages from " name err])
  | Ok packages => ret (allPackages ++ packages, errors)
  end.

Definition GetGlobalPackages (σ : Schedule) (f : ManagerFactory.t W)
    : M (result (list Package.t)) :=
  do availableManagers <- ManagerFactory.GetAvailableManagers σ f;
  do (allPackages, errors) <-
    for_each GetGlobalPackages_task
      (order σ at_fan_out (map_to_list availableManagers)) ([], []);
  let uniquePackages :=
    sort_Slice by_Name (removeDuplicatePackages allPackages) in
  for_each
    (fun err (_ : unit) =>
       log LevelWarn "Global package retrieval error"
         [("service", LStr "packages"); ("error", LErr err)])
    errors tt ;;
  ret (Ok uniquePackages).

Definition GetPackagesByManager (f : ManagerFactory.t W)
    (managerName projectPath : string) : M (result (list Package.t)) :=
  match ManagerFactory.GetManager f managerName with
  | Err err => ret (Err err)
  | Ok manager =>
      do available <- call_read managerName OpIsAvailable
                        (PackageManager.IsAvailable manager);
      if negb available
      then ret (Err (ManagerError managerName "get packages"
                       (Predefined ErrManagerNotAvailable)))
      else call_read managerName (OpGetInstalledPackages projectPath)
             (fun w => PackageManager.GetInstalledPackages manager w
                         projectPath)
  end.

Definition GetGlobalPackagesByManager (f : ManagerFactory.t W)
    (managerName : string) : M (result (list Package.t)) :=
  match ManagerFactory.GetManager f managerName with
  | Err err => ret (Err err)
  | Ok manager =>
      do available <- call_read managerName OpIsAvailable
                        (PackageManager.IsAvailable manager);
      if negb available
      then ret (Err (ManagerError managerName "get global packages"
                       (Predefined ErrManagerNotAvailable)))
      else call_read managerName OpGetGlobalPackages
             (PackageManager.GetGlobalPackages manager)
  end.

Definition GetPackageInfo (σ : Schedule) (f : ManagerFactory.t W)
    (packageName : string) : M (result PackageDetail.t) :=
  if decide (packageName = "")
  then ret (Err (ValidationError "packageName" packageName
                   "package name cannot be empty"))
  else
    do r <- GetGlobalPackages σ f;
    match r with
    | Err err => ret (Err err)
    | Ok globalPackages =>
        match find (fun pkg => String.eqb (Package.Name pkg) packageName)
                globalPackages with
        | Some pkg =>
            ret (Ok {| PackageDetail.Package := pkg;
                       PackageDetail.Author := "";
                       PackageDetail.License := "";
                       PackageDetail.Homepage := "";
                       PackageDetail.Repository := "";
                       PackageDetail.Keywords := [];
                       PackageDetail.Scripts := ∅;
                       PackageDetail.Engines := ∅;
                       PackageDetail.PeerDependencies := ∅ |})
        | None => ret (Err (Predefined ErrPackageNotFound))
        end
    end.

Record PackageStats := {
  TotalPackages : Z;
  LocalPackages : Z;
  GlobalPackages : Z;
  ByManager : gmap string Z
}.

(** [m[key]++] on a map of counters. *)
Definition incr (key : string) (m : gmap string Z) : gmap string Z :=
  <[key := wrap64 (default 0 (m !! key) + 1)]> m.

Definition zero_PackageStats : PackageStats :=
  {| TotalPackages := 0; LocalPackages := 0; GlobalPackages := 0;
     ByManager := ∅ |}.

(** The body of the loop of [GetPackageStats]. *)
Definition GetPackageStats_step (stats : PackageStats) (pkg : Package.t)
    : PackageStats :=
  {| TotalPackages := wrap64 (TotalPackages stats + 1);
     LocalPackages :=
       if Package.IsGlobal pkg then LocalPackages stats
       else wrap64 (LocalPackages stats + 1);
     GlobalPackages :=
       if Package.IsGlobal pkg then wrap64 (GlobalPackages stats + 1)
       else GlobalPackages stats;
     ByManager := incr (Package.Manager pkg) (ByManager stats) |}.

Definition GetPackageStats (σ : Schedule) (f : ManagerFactory.t W)
    (projectPath : string) : M (result PackageStats) :=
  do r <- GetAllPackages σ f projectPath;
  match r with
  | Err err => ret (Err err)
  | Ok packages =>
      ret (Ok (fold_left GetPackageStats_step packages zero_PackageStats))
  end.

(** The body of the loop of [GetGlobalPackageStats]. *)
Definition GetGlobalPackageStats_step (stats : PackageStats)
    (pkg : Package.t) : PackageStats :=
  {| TotalPackages := wrap64 (TotalPackages stats + 1);
     LocalPackages := LocalPackages stats;
     GlobalPackages := wrap64 (GlobalPackages stats + 1);
     ByManager := incr (Package.Manager pkg) (ByManager stats) |}.

Definition GetGlobalPackageStats (σ : Schedule) (f : ManagerFactory.t W)
    : M (result PackageStats) :=
  do r <- GetGlobalPackages σ f;
  match r with
  | Err err => ret (Err err)
  | Ok packages =>
      ret (Ok (fold_left GetGlobalPackageStats_step packages
                 zero_PackageStats))
  end.

Definition ValidateManagerName (f : ManagerFactory.t W)
    (managerName : string) : M (option error) :=
  match ManagerFactory.ValidateManager f managerName with
  | Some err => ret (Some err)
  | None =>
      do available <- ManagerFactory.IsManagerAvailable f managerName;
      if negb available
      then ret (Some (ManagerError managerName "validate"
                        (Predefined ErrManagerNotAvailable)))
      else ret None
  end.

End PackageService.

Section PackageServiceCommands.
Context {W : Type} `{!Runtime W}.

Definition SearchPackages (σ : Schedule) (f : ManagerFactory.t W)
    (query : string) : M (result (list Package.t)) :=
  if decide (query = "")
  then ret (Err (ValidationError "query" query
                   "search query cannot be empty"))
  else
    do r <- GetGlobalPackages σ f;
    match r with
    | Err err => ret (Err err)
    | Ok globalPackages =>
        let query := strings_ToLower query in
        ret (Ok (fold_left
                   (fun matchingPackages pkg =>
                      if strings_Contains
                           (strings_ToLower (Package.Name pkg)) query
                         || strings_Contains
                              (strings_ToLower (Package.Description pkg))
                              query
                      then matchingPackages ++ [pkg]
                      else matchingPackages)
                   globalPackages []))
    end.

(** The command line chosen by the [switch] of [InstallPackage]. *)
Definition install_command (managerName packageName : string)
    (global : bool) : option (list string) :=
  if String.eqb managerName "npm"
  then Some (if global then ["npm"; "install"; "-g"; packageName]
             else ["npm"; "install"; packageName])
  else if String.eqb managerName "pnpm"
  then Some (if global then ["pnpm"; "add"; "-g"; packageName]
             else ["pnpm"; "add"; packageName])
  else if String.eqb managerName "yarn"
  then Some (if global then ["yarn"; "global"; "add"; packageName]
             else ["yarn"; "add"; packageName])
  else if String.eqb managerName "bun"
  then Some (if global then ["bun"; "add"; "-g"; packageName]
             else ["bun"; "add"; packageName])
  else None.

(** The command line chosen by the [switch] of [UninstallPackage]. *)
Definition uninstall_command (managerName packageName : string)
    (global : bool) : option (list string) :=
  if String.eqb managerName "npm"
  then Some (if global then ["npm"; "uninstall"; "-g"; packageName]
             else ["npm"; "uninstall"; packageName])
  else if String.eqb managerName "pnpm"
  then Some (if global then ["pnpm"; "remove"; "-g"; packageName]
             else ["pnpm"; "remove"; packageName])
  else if String.eqb managerName "yarn"
  then Some (if global then ["yarn"; "global"; "remove"; packageName]
             else ["yarn"; "remove"; packageName])
  else if String.eqb managerName "bun"
  then Some (if global then ["bun"; "remove"; "-g"; packageName]
             else ["bun"; "remove"; packageName])
  else None.

(** [utils.ExecuteCommand(ctx, cmd[0], cmd[1:]...)] in the monad. *)
Definition run_command (cmd : list string) : M command.CommandResult.t :=
  fun st =>
    let '(result, w') :=
      command.ExecuteCommand (world st) (hd "" cmd) (tl cmd) in
    (result, Build_State w' (calls st) (logs st)).

(** [%d] of an [int]. *)
Definition itoa (z : Z) : string :=
  NilZero.string_of_int (Z.to_int z).

(** [%v] of a [bool]. *)
Definition btoa (b : bool) : string := if b then "true" else "false".

(** The part [InstallPackage] and [UninstallPackage] share, by the
    operation name ([install], [uninstall]), the word of the log line and
    the table of command lines. *)
Definition change_package (op doing : string)
    (table : string -> string -> bool -> option (list string))
    (f : ManagerFactory.t W) (packageName managerName : string)
    (global : bool) : M (option error) :=
  if decide (packageName = "")
  then ret (Some (ValidationError "packageName" packageName
                    "package name cannot be empty"))
  else if decide (managerName = "")
  then ret (Some (ValidationError "managerName" managerName
                    "manager name cannot be empty"))
  else
    match ManagerFactory.GetManager f managerName with
    | Err err => ret (Some err)
    | Ok manager =>
        do available <- call_read managerName OpIsAvailable
                          (PackageManager.IsAvailable manager);
        if negb available
        then ret (Some (ManagerError managerName op
                          (Predefined ErrManagerNotAvailable)))
        else
          log LevelInfo
            (doing +:+ " package " +:+ packageName +:+ " with "
               +:+ managerName +:+ " (global: " +:+ btoa global +:+ ")")
            [("service", LStr "packages")] ;;
          match table managerName packageName global with
          | None =>
              ret (Some (Errorf ("unsupported package manager: "
                                   +:+ managerName)))
          | Some cmd =>
              do result <- run_command cmd;
              match command.CommandResult.Error result with
              | Some err => ret (Some (ManagerError managerName op err))
              | None =>
                  if negb (Z.eqb (command.CommandResult.ExitCode result) 0)
                  then ret (Some (ManagerError managerName op
                                    (Errorf
                                       ("command failed with exit code "
                                          +:+ itoa (command.CommandResult.ExitCode result)
                                          +:+ ": "
                                          +:+ command.CommandResult.Stderr result))))
                  else ret None
              end
          end
    end.

Definition InstallPackage (f : ManagerFactory.t W)
    (packageName managerName : string) (global : bool) : M (option error) :=
  change_package "install" "Installing" install_command f packageName
    managerName global.

Definition UninstallPackage (f : ManagerFactory.t W)
    (packageName managerName : string) (global : bool) : M (option error) :=
  change_package "uninstall" "Uninstalling" uninstall_command f packageName
    managerName global.

End PackageServiceCommands.
End PackageService.

(** ** [ConfigService] ([internal/services/packages.go], second part) *)
Module ConfigService.
Section ConfigService.
Context {W : Type} `{!Platform W}.

Definition ValidateRegistryURL (registryURL : string) : option error :=
  if decide (registryURL = "")
  then Some (ValidationError "registry" registryURL
               "registry URL cannot be empty")
  else
    match url_Parse registryURL with
    | Err _ =>
        Some (ValidationError "registry" registryURL "invalid URL format")
    | Ok parsedURL =>
        if negb (String.eqb (URL.Scheme parsedURL) "http")
           && negb (String.eqb (URL.Scheme parsedURL) "https")
        then Some (ValidationError "registry" registryURL
                     "registry URL must use http or https scheme")
        else if String.eqb (URL.Host parsedURL) ""
        then Some (ValidationError "registry" registryURL
                     "registry URL must have a host")
        else None
    end.

Definition ValidateProxyURL (proxyURL : string) : option error :=
  if decide (proxyURL = "")
  then None
  else
    match url_Parse proxyURL with
    | Err _ => Some (ValidationError "proxy" proxyURL "invalid URL format")
    | Ok parsedURL =>
        if negb (String.eqb (URL.Scheme parsedURL) "http")
           && negb (String.eqb (URL.Scheme parsedURL) "https")
        then Some (ValidationError "proxy" proxyURL
                     "proxy URL must use http or https scheme")
        else if String.eqb (URL.Host parsedURL) ""
        then Some (ValidationError "proxy" proxyURL
                     "proxy URL must have a host")
        else None
    end.

(** The goroutine started for one manager in [GetAllConfigs]. *)
Definition GetAllConfigs_task
    (nm : string * PackageManager.t W)
    (acc : list Config.t * list error)
    : M (list Config.t * list error) :=
  let '(name, mgr) := nm in
  let '(configs, errors) := acc in
  do r <- call_read name OpGetConfig (PackageManager.GetConfig mgr);
  match r with
  | Err err =>
      log LevelWarn "Failed to get config"
        [("service", LStr "config"); ("error", LErr err);
         ("manager", LStr name)] ;;
      ret (configs, errors ++ [ErrorfW "failed to get config for " name err])
  | Ok config => ret (configs ++ [config], errors)
  end.

Definition GetAllConfigs (σ : Schedule) (f : ManagerFactory.t W)
    : M (result (list Config.t)) :=
  do availableManagers <- ManagerFactory.GetAvailableManagers σ f;
  do (configs, errors) <-
    for_each GetAllConfigs_task
      (order σ at_fan_out (map_to_list availableManagers)) ([], []);
  let configs :=
    sort_Slice
      (fun a b => String.ltb (Config.Manager a) (Config.Manager b))
      configs in
  for_each
    (fun err (_ : unit) =>
       log LevelWarn "Config retrieval error"
         [("service", LStr "config"); ("error", LErr err)])
    errors tt ;;
  ret (Ok configs).

Definition SetRegistry (f : ManagerFactory.t W)
    (managerName registryURL : string) : M (option error) :=
  match ValidateRegistryURL registryURL with
  | Some err => ret (Some err)
  | None =>
      match ManagerFactory.GetManager f managerName with
      | Err err => ret (Some err)
      | Ok manager =>
          do available <- call_read managerName OpIsAvailable
                            (PackageManager.IsAvailable manager);
          if negb available
          then ret (Some (ManagerError managerName "set registry"
                            (Predefined ErrManagerNotAvailable)))
          else
            do err <- call_write managerName (OpSetRegistry registryURL)
                        (fun w => PackageManager.SetRegistry manager w
                                    registryURL);
            match err with
            | Some err => ret (Some err)
            | None =>
                log LevelInfo "Registry updated"
                  [("service", LStr "config"); ("manager", LStr managerName);
                   ("registry", LStr registryURL)] ;;
                ret None
            end
      end
  end.

(** The goroutine started for one manager in [SetRegistryForAll], on the
    pair of [errors] and [successCount]. *)
Definition SetRegistryForAll_task (registryURL : string)
    (nm : string * PackageManager.t W) (acc : list error * Z)
    : M (list error * Z) :=
  let '(name, mgr) := nm in
  let '(errors, successCount) := acc in
  do r <- call_write name (OpSetRegistry registryURL)
            (fun w => PackageManager.SetRegistry mgr w registryURL);
  match r with
  | Some err =>
      log LevelError "Failed to set registry"
        [("service", LStr "config"); ("error", LErr err);
         ("manager", LStr name)] ;;
      ret (errors ++ [ErrorfW "failed to set registry for " name err],
           successCount)
  | None =>
      log LevelInfo "Registry updated"
        [("service", LStr "config"); ("manager", LStr name);
         ("registry", LStr registryURL)] ;;
      ret (errors, wrap64 (successCount + 1))
  end.

Definition SetRegistryForAll (σ : Schedule) (f : ManagerFactory.t W)
    (registryURL : string) : M (option error) :=
  match ValidateRegistryURL registryURL with
  | Some err => ret (Some err)
  | None =>
      do availableManagers <- ManagerFactory.GetAvailableManagers σ f;
      do (errors, successCount) <-
        for_each (SetRegistryForAll_task registryURL)
          (order σ at_fan_out (map_to_list availableManagers)) ([], 0);
      log LevelInfo "Registry update completed"
        [("service", LStr "config"); ("success_count", LInt successCount);
         ("total_managers", LInt (Z.of_nat (size availableManagers)))] ;;
      if decide (0 < length errors)%nat
      then ret (Some (ErrorfV "failed to set registry for some managers: "
                        errors))
      else ret None
  end.

(** The validation block shared by [SetProxy] and [SetProxyForAll]:
    [if proxyURL != "" { if err := s.ValidateProxyURL(proxyURL); ... }]. *)
Definition check_proxy (proxyURL : string) : option error :=
  if negb (String.eqb proxyURL "")
  then ValidateProxyURL proxyURL
  else None.

Definition log_proxy_change (name proxyURL : string) : @M W unit :=
  if String.eqb proxyURL ""
  then log LevelInfo "Proxy removed"
         [("service", LStr "config"); ("manager", LStr name)]
  else log LevelInfo "Proxy updated"
         [("service", LStr "config"); ("manager", LStr name);
          ("proxy", LStr proxyURL)].

Definition SetProxy (f : ManagerFactory.t W)
    (managerName proxyURL : string) : M (option error) :=
  match check_proxy proxyURL with
  | Some err => ret (Some err)
  | None =>
      match ManagerFactory.GetManager f managerName with
      | Err err => ret (Some err)
      | Ok manager =>
          do available <- call_read managerName OpIsAvailable
                            (PackageManager.IsAvailable manager);
          if negb available
          then ret (Some (ManagerError managerName "set proxy"
                            (Predefined ErrManagerNotAvailable)))
          else
            do err <- call_write managerName (OpSetProxy proxyURL)
                        (fun w => PackageManager.SetProxy manager w proxyURL);
            match err with
            | Some err => ret (Some err)
            | None => log_proxy_change managerName proxyURL ;; ret None
            end
      end
  end.

(** The goroutine started for one manager in [SetProxyForAll]. *)
Definition SetProxyForAll_task (proxyURL : string)
    (nm : string * PackageManager.t W) (acc : list error * Z)
    : M (list error * Z) :=
  let '(name, mgr) := nm in
  let '(errors, successCount) := acc in
  do r <- call_write name (OpSetProxy proxyURL)
            (fun w => PackageManager.SetProxy mgr w proxyURL);
  match r with
  | Some err =>
      log LevelError "Failed to set proxy"
        [("service", LStr "config"); ("error", LErr err);
         ("manager", LStr name)] ;;
      ret (errors ++ [ErrorfW "failed to set proxy for " name err],
           successCount)
  | None =>
      log_proxy_change name proxyURL ;;
      ret (errors, wrap64 (successCount + 1))
  end.

Definition SetProxyForAll (σ : Schedule) (f : ManagerFactory.t W)
    (proxyURL : string) : M (option error) :=
  match check_proxy proxyURL with
  | Some err => ret (Some err)
  | None =>
      do availableManagers <- ManagerFactory.GetAvailableManagers σ f;
      do (errors, successCount) <-
        for_each (SetProxyForAll_task proxyURL)
          (order σ at_fan_out (map_to_list availableManagers)) ([], 0);
      log LevelInfo "Proxy update completed"
        [("service", LStr "config"); ("success_count", LInt successCount);
         ("total_managers", LInt (Z.of_nat (size availableManagers)))] ;;
      if decide (0 < length errors)%nat
      then ret (Some (ErrorfV "failed to set proxy for some managers: "
                        errors))
      else ret None
  end.

Definition GetConfig (f : ManagerFactory.t W) (managerName : string)
    : M (result Config.t) :=
  match ManagerFactory.GetManager f managerName with
  | Err err => ret (Err err)
  | Ok manager =>
      do available <- call_read managerName OpIsAvailable
                        (PackageManager.IsAvailable manager);
      if negb available
      then ret (Err (ManagerError managerName "get config"
                       (Predefined ErrManagerNotAvailable)))
      else call_read managerName OpGetConfig
             (PackageManager.GetConfig manager)
  end.

Definition TestRegistry (managerName registryURL : string)
    : @M W (option error) :=
  match ValidateRegistryURL registryURL with
  | Some err => ret (Some err)
  | None =>
      log LevelInfo "Registry test passed (URL validation)"
        [("service", LStr "config"); ("manager", LStr managerName);
         ("registry", LStr registryURL)] ;;
      ret None
  end.

Definition TestProxy (managerName proxyURL : string)
    : @M W (option error) :=
  match ValidateProxyURL proxyURL with
  | Some err => ret (Some err)
  | None =>
      log LevelInfo "Proxy test passed (URL validation)"
        [("service", LStr "config"); ("manager", LStr managerName);
         ("proxy", LStr proxyURL)] ;;
      ret None
  end.

Record ConfigManagerSummary := {
  Registry : string;
  Proxy : string;
  Settings : Z
}.

Record ConfigSummary := {
  ManagerCount : Z;
  Managers : gmap string ConfigManagerSummary;
  Registries : gmap string (list string);
  Proxies : gmap string (list string)
}.

(** [m[key] = append(m[key], name)]. *)
Definition group_under (key name : string) (m : gmap string (list string))
    : gmap string (list string) :=
  <[key := default [] (m !! key) ++ [name]]> m.

(** The body of the loop of [GetConfigSummary]. *)
Definition GetConfigSummary_step (summary : ConfigSummary)
    (config : Config.t) : ConfigSummary :=
  {| ManagerCount := wrap64 (ManagerCount summary + 1);
     Managers :=
       <[Config.Manager config :=
           {| Registry := Config.Registry config;
              Proxy := Config.Proxy config;
              Settings := Z.of_nat (size (Config.Settings config)) |}]>
         (Managers summary);
     Registries :=
       if negb (String.eqb (Config.Registry config) "")
       then group_under (Config.Registry config) (Config.Manager config)
              (Registries summary)
       else Registries summary;
     Proxies :=
       if negb (String.eqb (Config.Proxy config) "")
       then group_under (Config.Proxy config) (Config.Manager config)
              (Proxies summary)
       else Proxies summary |}.

Definition GetConfigSummary (σ : Schedule) (f : ManagerFactory.t W)
    : M (result ConfigSummary) :=
  do r <- GetAllConfigs σ f;
  match r with
  | Err err => ret (Err err)
  | Ok configs =>
      ret (Ok (fold_left GetConfigSummary_step configs
                 {| ManagerCount := 0; Managers := ∅; Registries := ∅;
                    Proxies := ∅ |}))
  end.

Definition ValidateManagerName (f : ManagerFactory.t W)
    (managerName : string) : M (option error) :=
  match ManagerFactory.ValidateManager f managerName with
  | Some err => ret (Some err)
  | None =>
      do available <- ManagerFactory.IsManagerAvailable f managerName;
      if negb available
      then ret (Some (ManagerError managerName "validate"
                        (Predefined ErrManagerNotAvailable)))
      else ret None
  end.

End ConfigService.
End ConfigService.

(** ** Path helpers ([pkg/utils]) *)
Module utils.
Section utils.
Context {W : Type} `{!Platform W}.

Definition PathExists (w : W) (path : string) : bool :=
  match os_Stat w path with
  | StatNotExist => false
  | _ => true
  end.

Definition IsDir (w : W) (path : string) : bool :=
  match os_Stat w path with
  | StatOk isDir => isDir
  | _ => false
  end.

Definition IsFile (w : W) (path : string) : bool :=
  match os_Stat w path with
  | StatOk isDir => negb isDir
  | _ => false
  end.

Definition ExpandPath (w : W) (path : string) : result string :=
  if negb (String.prefix "~" path)
  then Ok path
  else
    match os_UserHomeDir w with
    | Err err => Err err
    | Ok home =>
        if String.eqb path "~"
        then Ok home
        else if String.prefix "~/" path
        then Ok (filepath_Join home
                   (String.substring 2 (String.length path - 2) path))
        else Ok path
    end.
End utils.

Section walk.
Context {W : Type} `{!Runtime W}.

(** [GetDirSize]: the callback adds the size of every file and stops the
    walk at the first error, which [filepath.Walk] then returns. *)
Fixpoint GetDirSize_walk (visits : list (result FileInfo.t)) (size : Z)
    : Z * option error :=
  match visits with
  | [] => (size, None)
  | Err err :: _ => (size, Some err)
  | Ok info :: visits' =>
      GetDirSize_walk visits'
        (if negb (FileInfo.IsDir info)
         then wrap64 (size + FileInfo.Size info)
         else size)
  end.

Definition GetDirSize (w : W) (path : string) : Z * option error :=
  GetDirSize_walk (filepath_Walk w path) 0.
End walk.
End utils.

(** ** [ProjectService] ([internal/services/projects.go]) *)
Module ProjectService.

(** The cells of the backing arrays that several slices view, by array
    and index. *)
Definition Memory : Type := gmap (nat * nat) string.

Definition with_Managers (project : Project.t) (managers : list string)
    (array : option Backing.t) : Project.t :=
  {| Project.Name := Project.Name project;
     Project.Path := Project.Path project;
     Project.Managers := managers;
     Project.ManagersArray := array;
     Project.PackageFile := Project.PackageFile project;
     Project.LockFile := Project.LockFile project;
     Project.NodeModules := Project.NodeModules project |}.

Definition with_LockFile (project : Project.t) (lockFile : string)
    : Project.t :=
  {| Project.Name := Project.Name project;
     Project.Path := Project.Path project;
     Project.Managers := Project.Managers project;
     Project.ManagersArray := Project.ManagersArray project;
     Project.PackageFile := Project.PackageFile project;
     Project.LockFile := lockFile;
     Project.NodeModules := Project.NodeModules project |}.

(** The elements of [project.Managers] as the memory holds them: for a
    slice of a shared array, [len(project.Managers)] cells from its
    offset on. *)
Definition elements (memory : Memory) (project : Project.t) : list string :=
  match Project.ManagersArray project with
  | None => Project.Managers project
  | Some b =>
      map (fun i =>
             default "" (memory !! (Backing.Array b, Backing.Offset b + i)%nat))
        (seq 0 (length (Project.Managers project)))
  end.

(** Writing [items] into an array from [index] on. *)
Fixpoint store (array index : nat) (items : list string) (memory : Memory)
    : Memory :=
  match items with
  | [] => memory
  | item :: items' =>
      store array (S index) items' (<[(array, index) := item]> memory)
  end.

(** The memory in which the records handed to [mergeProjects] live: the
    elements of every slice of a shared array stand in its cells. *)
Definition lay_out (projects : list Project.t) : Memory :=
  fold_left
    (fun memory project =>
       match Project.ManagersArray project with
       | None => memory
       | Some b =>
           store (Backing.Array b) (Backing.Offset b)
             (Project.Managers project) memory
       end)
    projects ∅.

(** [existing.Managers = append(existing.Managers, manager)]: with room
    left, [append] writes into the backing array, behind the slice, and
    the slice grows by that cell; without, it copies the elements to an
    array of its own. *)
Definition append_manager (existing : Project.t) (manager : string)
    (memory : Memory) : Project.t * Memory :=
  match Project.ManagersArray existing with
  | Some b =>
      if (length (Project.Managers existing) <? Backing.Capacity b)%nat
      then
        (with_Managers existing (elements memory existing ++ [manager])
           (Some b),
         <[(Backing.Array b,
            (Backing.Offset b + length (Project.Managers existing))%nat)
           := manager]> memory)
      else
        (with_Managers existing (elements memory existing ++ [manager]) None,
         memory)
  | None =>
      (with_Managers existing (Project.Managers existing ++ [manager]) None,
       memory)
  end.

(** The loop over [project.Managers] in [mergeProjects]: the [i]-th
    element is read when its turn comes, and appended to
    [existing.Managers] unless it is found there. *)
Definition merge_managers (project existing : Project.t) (memory : Memory)
    : Project.t * Memory :=
  fold_left
    (fun '(existing, memory) i =>
       let manager := nth i (elements memory project) "" in
       if existsb (fun existingManager => String.eqb existingManager manager)
            (elements memory existing)
       then (existing, memory)
       else append_manager existing manager memory)
    (seq 0 (length (Project.Managers project)))
    (existing, memory).

(** The branch of [mergeProjects] taken when the path is in the map;
    [existing] points to the entry of the map. *)
Definition merge_into (existing project : Project.t) (memory : Memory)
    : Project.t * Memory :=
  let '(existing, memory) := merge_managers project existing memory in
  (if String.eqb (Project.LockFile existing) ""
      && negb (String.eqb (Project.LockFile project) "")
   then with_LockFile existing (Project.LockFile project)
   else existing,
   memory).

(** The body of the first loop of [mergeProjects], on [projectMap] and
    the memory; [projectCopy := project] copies the record, and with it
    the slice, not its backing array. *)
Definition mergeProjects_step
    (state : gmap string Project.t * Memory) (project : Project.t)
    : gmap string Project.t * Memory :=
  let '(projectMap, memory) := state in
  match projectMap !! Project.Path project with
  | Some existing =>
      let '(existing, memory) := merge_into existing project memory in
      (<[Project.Path project := existing]> projectMap, memory)
  | None => (<[Project.Path project := project]> projectMap, memory)
  end.

(** A record as its reader finds it, the elements of its slice taken
    from the memory. *)
Definition observed (memory : Memory) (project : Project.t) : Project.t :=
  with_Managers project (elements memory project)
    (Project.ManagersArray project).

Definition mergeProjects (σ : Schedule) (projects : list Project.t)
    : list Project.t :=
  let '(projectMap, memory) :=
    fold_left mergeProjects_step projects (∅, lay_out projects) in
  map (fun entry => observed memory entry.2)
    (order σ at_mergeProjects (map_to_list projectMap)).

Definition by_Path (a b : Project.t) : bool :=
  String.ltb (Project.Path a) (Project.Path b).

Section ProjectService.
Context {W : Type} `{!Platform W}.

(** The goroutine started for one manager in [ScanProjects]. *)
Definition ScanProjects_task (expandedPath : string)
    (nm : string * PackageManager.t W)
    (acc : list Project.t * list error)
    : M (list Project.t * list error) :=
  let '(name, mgr) := nm in
  let '(allProjects, errors) := acc in
  do r <- call_read name (OpGetProjects expandedPath)
            (fun w => PackageManager.GetProjects mgr w expandedPath);
  match r with
  | Err err =>
      log LevelWarn "Failed to scan projects"
        [("service", LStr "projects"); ("error", LErr err);
         ("manager", LStr name)] ;;
      ret (allProjects,
           errors ++ [ErrorfW "failed to scan projects with " name err])
  | Ok projects => ret (allProjects ++ projects, errors)
  end.

Definition ScanProjects (σ : Schedule) (f : ManagerFactory.t W)
    (rootPath : string) : M (result (list Project.t)) :=
  if decide (rootPath = "")
  then ret (Err (ValidationError "rootPath" rootPath
                   "root path cannot be empty"))
  else
    do expanded <- read_world (fun w => utils.ExpandPath w rootPath);
    match expanded with
    | Err err => ret (Err (ErrorfW "failed to expand path" "" err))
    | Ok expandedPath =>
        do exists_ <- read_world (fun w => utils.PathExists w expandedPath);
        if negb exists_
        then ret (Err (ValidationError "rootPath" rootPath
                         "path does not exist"))
        else
          do isDir <- read_world (fun w => utils.IsDir w expandedPath);
          if negb isDir
          then ret (Err (ValidationError "rootPath" rootPath
                           "path is not a directory"))
          else
            do availableManagers <- ManagerFactory.GetAvailableManagers σ f;
            do (allProjects, errors) <-
              for_each (ScanProjects_task expandedPath)
                (order σ at_fan_out (map_to_list availableManagers))
                ([], []);
            let mergedProjects :=
              sort_Slice by_Path (mergeProjects σ allProjects) in
            for_each
              (fun err (_ : unit) =>
                 log LevelWarn "Project scanning error"
                   [("service", LStr "projects"); ("error", LErr err)])
              errors tt ;;
            log LevelInfo "Project scan completed"
              [("service", LStr "projects");
               ("project_count",
                LInt (Z.of_nat (length mergedProjects)));
               ("scan_path", LStr expandedPath)] ;;
            ret (Ok mergedProjects)
    end.

Definition readPackageJson (w : W) (packageJsonPath : string)
    : result PackageJsonInfo.t :=
  match os_ReadFile w packageJsonPath with
  | Err err => Err err
  | Ok data => json_Unmarshal data
  end.

(** The node appended for one entry of a dependency map. *)
Definition dependency_node (dev : bool) (entry : string * string)
    : DependencyTree.t :=
  {| DependencyTree.Name := fst entry;
     DependencyTree.Version := snd entry;
     DependencyTree.Dependencies := [];
     DependencyTree.DevDependency := dev;
     DependencyTree.Depth := 1 |}.

Definition GetProjectDependencies (σ : Schedule) (projectPath : string)
    : M (result DependencyTree.t) :=
  if decide (projectPath = "")
  then ret (Err (ValidationError "projectPath" projectPath
                   "project path cannot be empty"))
  else
    let packageJsonPath := filepath_Join projectPath "package.json" in
    do isFile <- read_world (fun w => utils.IsFile w packageJsonPath);
    if negb isFile
    then ret (Err (Predefined ErrProjectNotFound))
    else
      do r <- read_world (fun w => readPackageJson w packageJsonPath);
      match r with
      | Err err => ret (Err (ErrorfW "failed to read package.json" "" err))
      | Ok packageJson =>
          let dependencies :=
            map (dependency_node false)
              (order σ at_Dependencies
                 (map_to_list (PackageJsonInfo.Dependencies packageJson))) in
          let devDependencies :=
            map (dependency_node true)
              (order σ at_DevDependencies
                 (map_to_list
                    (PackageJsonInfo.DevDependencies packageJson))) in
          ret (Ok {| DependencyTree.Name := PackageJsonInfo.Name packageJson;
                     DependencyTree.Version :=
                       PackageJsonInfo.Version packageJson;
                     DependencyTree.Dependencies :=
                       dependencies ++ devDependencies;
                     DependencyTree.DevDependency := false;
                     DependencyTree.Depth := 0 |})
      end.

Definition detectProjectManagers (w : W) (projectPath : string)
    : list string :=
  let managers := [] in
  let managers :=
    if utils.IsFile w (filepath_Join projectPath "package-lock.json")
    then managers ++ ["npm"] else managers in
  let managers :=
    if utils.IsFile w (filepath_Join projectPath "pnpm-lock.yaml")
    then managers ++ ["pnpm"] else managers in
  let managers :=
    if utils.IsFile w (filepath_Join projectPath "yarn.lock")
    then managers ++ ["yarn"] else managers in
  let managers :=
    if utils.IsFile w (filepath_Join projectPath "bun.lockb")
    then managers ++ ["bun"] else managers in
  if (length managers =? 0)%nat
     && utils.IsFile w (filepath_Join projectPath "package.json")
  then managers ++ ["npm"]
  else managers.

(** The lock file name tried for a manager by the [switch] of
    [AnalyzeProject]. *)
Definition lock_file_name (manager : string) : option string :=
  if String.eqb manager "npm" then Some "package-lock.json"
  else if String.eqb manager "pnpm" then Some "pnpm-lock.yaml"
  else if String.eqb manager "yarn" then Some "yarn.lock"
  else if String.eqb manager "bun" then Some "bun.lockb"
  else None.

(** The body of the last loop of [AnalyzeProject], on [analysis.LockFile]:
    the [break] of each case leaves the [switch], not the loop. *)
Definition set_lock_file (w : W) (expandedPath : string)
    (current manager : string) : string :=
  match lock_file_name manager with
  | Some name =>
      let lockFile := filepath_Join expandedPath name in
      if utils.IsFile w lockFile then lockFile else current
  | None => current
  end.

Record ProjectStats := {
  TotalProjects : Z;
  MultiManagerProjects : Z;
  ByManager : gmap string Z
}.

(** The body of the loop of [GetProjectStats]. *)
Definition GetProjectStats_step (stats : ProjectStats) (project : Project.t)
    : ProjectStats :=
  {| TotalProjects := wrap64 (TotalProjects stats + 1);
     MultiManagerProjects :=
       if (1 <? length (Project.Managers project))%nat
       then wrap64 (MultiManagerProjects stats + 1)
       else MultiManagerProjects stats;
     ByManager :=
       fold_left (fun m manager => PackageService.incr manager m)
         (Project.Managers project) (ByManager stats) |}.

Definition GetProjectStats (σ : Schedule) (f : ManagerFactory.t W)
    (rootPath : string) : M (result ProjectStats) :=
  do r <- ScanProjects σ f rootPath;
  match r with
  | Err err => ret (Err err)
  | Ok projects =>
      ret (Ok (fold_left GetProjectStats_step projects
                 {| TotalProjects := 0; MultiManagerProjects := 0;
                    ByManager := ∅ |}))
  end.

End ProjectService.

Section ProjectAnalysis.
Context {W : Type} `{!Platform W} `{!Runtime W}.

(** [AnalyzeProject]; [NewPackageService()] takes the factory of
    [managers.GetGlobalFactory()], the one of the project service. *)
Definition AnalyzeProject (σ : Schedule) (f : ManagerFactory.t W)
    (projectPath : string) : M (result ProjectAnalysis.t) :=
  if decide (projectPath = "")
  then ret (Err (ValidationError "projectPath" projectPath
                   "project path cannot be empty"))
  else
    do expanded <- read_world (fun w => utils.ExpandPath w projectPath);
    match expanded with
    | Err err => ret (Err (ErrorfW "failed to expand path" "" err))
    | Ok expandedPath =>
        do exists_ <- read_world (fun w => utils.PathExists w expandedPath);
        if negb exists_
        then ret (Err (ValidationError "projectPath" projectPath
                         "path does not exist"))
        else
          let packageJsonPath := filepath_Join expandedPath "package.json" in
          do isFile <- read_world (fun w => utils.IsFile w packageJsonPath);
          if negb isFile
          then ret (Err (Predefined ErrProjectNotFound))
          else
            do r <- read_world (fun w => readPackageJson w packageJsonPath);
            match r with
            | Err err =>
                ret (Err (ErrorfW "failed to read package.json" "" err))
            | Ok packageJson =>
                do managers <-
                  read_world (fun w => detectProjectManagers w expandedPath);
                do r <- PackageService.GetAllPackages σ f expandedPath;
                do packages <-
                  match r with
                  | Err err =>
                      log LevelWarn
                        "Failed to get packages for project analysis"
                        [("service", LStr "projects"); ("error", LErr err)] ;;
                      ret []
                  | Ok packages => ret packages
                  end;
                let totalSize :=
                  fold_left
                    (fun totalSize pkg =>
                       if (0 <? Package.Size pkg)
                       then wrap64 (totalSize + Package.Size pkg)
                       else totalSize)
                    packages 0 in
                let nodeModulesPath :=
                  filepath_Join expandedPath "node_modules" in
                do isDir <-
                  read_world (fun w => utils.IsDir w nodeModulesPath);
                do totalSize <-
                  (if isDir : bool
                   then
                     do sized <-
                       read_world (fun w => utils.GetDirSize w nodeModulesPath);
                     match sized with
                     | (nodeModulesSize, None) => ret nodeModulesSize
                     | (_, Some _) => ret totalSize
                     end
                   else ret totalSize);
                do lockFile <-
                  read_world
                    (fun w =>
                       fold_left (set_lock_file w expandedPath) managers "");
                ret (Ok {| ProjectAnalysis.Project :=
                             {| Project.Name :=
                                  PackageJsonInfo.Name packageJson;
                                Project.Path := expandedPath;
                                Project.Managers := managers;
                                Project.ManagersArray := None;
                                Project.PackageFile := packageJsonPath;
                                Project.LockFile := lockFile;
                                Project.NodeModules := nodeModulesPath |};
                           ProjectAnalysis.PackageCount :=
                             Z.of_nat (length packages);
                           ProjectAnalysis.DevPackageCount := 0;
                           ProjectAnalysis.TotalSize := totalSize;
                           ProjectAnalysis.OutdatedPackages := [];
                           ProjectAnalysis.Vulnerabilities := [];
                           ProjectAnalysis.Scripts :=
                             PackageJsonInfo.Scripts packageJson |})
            end
    end.
End ProjectAnalysis.
End ProjectService.

(** * Vocabulary of the statements *)

(** A list is sorted by a string key when every element's key is at most
    the key of every later element. *)
Definition sorted_by {A : Type} (key : A -> string) (l : list A) : Prop :=
  StronglySorted (fun a b => (key a ≤ key b)%string) l.

Section Vocabulary.
Context {W : Type}.

(** The managers of the factory that answer the availability probe in
    world [w]: what [GetAvailableManagers] returns. *)
Definition available_in (w : W) (f : ManagerFactory.t W)
    : gmap string (PackageManager.t W) :=
  filter (fun nm => PackageManager.IsAvailable nm.2 w = true)
    (ManagerFactory.managers f).

(** The probes [GetAvailableManagers] makes, in the order it makes them. *)
Definition probe_calls (σ : Schedule) (f : ManagerFactory.t W) : list Call :=
  map (fun nm => (nm.1, OpIsAvailable))
    (order σ at_GetAvailableManagers
       (map_to_list (ManagerFactory.managers f))).

(** The available managers in the order in which the tasks of a fan-out
    finish. *)
Definition finish_order (σ : Schedule) (f : ManagerFactory.t W) (w : W)
    : list (string * PackageManager.t W) :=
  order σ at_fan_out (map_to_list (available_in w f)).

(** What a reading backend call contributes to a merged list: its records
    when it succeeds, nothing when it fails. *)
Definition records_of {A} (r : result (list A)) : list A :=
  match r with
  | Ok l => l
  | Err _ => []
  end.

Definition record_of {A} (r : result A) : list A :=
  match r with
  | Ok a => [a]
  | Err _ => []
  end.

Definition log_entry (lvl : Level) (msg : string)
    (fs : list (string * LogValue)) : LogEntry :=
  {| level := lvl; message := msg; fields := fs |}.

(** The backend failures of a fan-out of reading calls, in the order in
    which the tasks finish; [skip] tells the errors that are passed over. *)
Definition failures {A} (skip : error -> bool)
    (read : PackageManager.t W -> W -> result A) (w : W)
    (l : list (string * PackageManager.t W)) : list (string * error) :=
  flat_map
    (fun nm =>
       match read nm.2 w with
       | Ok _ => []
       | Err e => if skip e then [] else [(nm.1, e)]
       end) l.

Definition never (e : error) : bool := false.

(** The line a task logs when its backend call fails, and the line logged
    for the same failure after the join. *)
Definition task_warning (service msg : string) (ne : string * error)
    : LogEntry :=
  log_entry LevelWarn msg
    [("service", LStr service); ("error", LErr ne.2); ("manager", LStr ne.1)].

Definition gathered_error (prefix : string) (ne : string * error) : error :=
  ErrorfW prefix ne.1 ne.2.

Definition join_warning (service msg prefix : string) (ne : string * error)
    : LogEntry :=
  log_entry LevelWarn msg
    [("service", LStr service); ("error", LErr (gathered_error prefix ne))].

(** The log lines of the tasks of [GetAllPackages]. *)
Definition packages_task_log (projectPath : string) (w : W)
    (nm : string * PackageManager.t W) : list LogEntry :=
  match PackageManager.GetInstalledPackages nm.2 w projectPath with
  | Ok _ => []
  | Err e =>
      if is_sentinel ErrProjectNotFound e
      then [log_entry LevelDebug "No project found for this manager"
              [("service", LStr "packages"); ("manager", LStr nm.1)]]
      else [task_warning "packages" "Failed to get packages" (nm.1, e)]
  end.

(** A fan-out of writing calls ([ClearCache], [SetRegistry], [SetProxy]),
    the tasks taken in the order in which they finish: the outcome of each
    call, and the world all of them leave behind. *)
Fixpoint outcomes (write : PackageManager.t W -> W -> option error * W)
    (l : list (string * PackageManager.t W)) (w : W)
    : list (string * option error) :=
  match l with
  | [] => []
  | nm :: l' => (nm.1, (write nm.2 w).1) :: outcomes write l' (write nm.2 w).2
  end.

Definition world_after (write : PackageManager.t W -> W -> option error * W)
    (l : list (string * PackageManager.t W)) (w : W) : W :=
  fold_left (fun w nm => (write nm.2 w).2) l w.

Definition failed_writes (out : list (string * option error))
    : list (string * error) :=
  flat_map
    (fun no => match no.2 with Some e => [(no.1, e)] | None => [] end) out.

Definition succeeded (n : Z) (out : list (string * option error)) : Z :=
  fold_left
    (fun n no => match no.2 with Some _ => n | None => wrap64 (n + 1) end)
    out n.

(** The error a "for all" operation returns for a list of failures. *)
Definition combined_error (prefix item : string)
    (failed : list (string * error)) : option error :=
  match failed with
  | [] => None
  | _ => Some (ErrorfV prefix (map (gathered_error item) failed))
  end.

(** The line a task of [ClearAllCaches] logs for its outcome. *)
Definition ClearAllCaches_line (no : string * option error) : LogEntry :=
  match no.2 with
  | Some err =>
      log_entry LevelError "Failed to clear cache"
        [("service", LStr "cache"); ("error", LErr err);
         ("manager", LStr no.1)]
  | None =>
      log_entry LevelInfo "Cache cleared successfully"
        [("service", LStr "cache"); ("manager", LStr no.1)]
  end.

(** The line a task of [SetProxyForAll] logs for its outcome. *)
Definition SetProxyForAll_line (proxyURL : string)
    (no : string * option error) : LogEntry :=
  match no.2 with
  | Some err =>
      log_entry LevelError "Failed to set proxy"
        [("service", LStr "config"); ("error", LErr err);
         ("manager", LStr no.1)]
  | None =>
      if String.eqb proxyURL ""
      then log_entry LevelInfo "Proxy removed"
             [("service", LStr "config"); ("manager", LStr no.1)]
      else log_entry LevelInfo "Proxy updated"
             [("service", LStr "config"); ("manager", LStr no.1);
              ("proxy", LStr proxyURL)]
  end.

(** The line a task of [SetRegistryForAll] logs for its outcome. *)
Definition SetRegistryForAll_line (registryURL : string)
    (no : string * option error) : LogEntry :=
  match no.2 with
  | Some err =>
      log_entry LevelError "Failed to set registry"
        [("service", LStr "config"); ("error", LErr err);
         ("manager", LStr no.1)]
  | None =>
      log_entry LevelInfo "Registry updated"
        [("service", LStr "config"); ("manager", LStr no.1);
         ("registry", LStr registryURL)]
  end.
End Vocabulary.

(** A URL the validation refuses: it does not parse, or its scheme is
    neither [http] nor [https], or its host is empty. *)
Definition malformed_url {W : Type} `{!Platform W} (url : string) : Prop :=
  (exists e, url_Parse url = Err e) \/
  (exists u, url_Parse url = Ok u /\
     ((URL.Scheme u <> "http" /\ URL.Scheme u <> "https") \/ URL.Host u = "")).

Section LargestCacheVocabulary.
Import CacheService.

Definition stats0 : CacheStats :=
  {| TotalSize := 0; TotalFiles := 0; ManagerCount := 0;
     LargestCache := zero_CacheManagerStats;
     LargestCacheManager := ""; Managers := ∅ |}.

(** What the loop of [GetCacheStats] knows about the largest cache after
    the records [l]: either no size was positive and nothing is recorded,
    or the recorded size is the largest so far and the recorded manager
    is that of the first record attaining it. *)
Definition largest_of (l : list CacheInfo.t) (stats : CacheStats) : Prop :=
  (forall c, c ∈ l -> CacheInfo.Size c <= Size (LargestCache stats)) /\
  ((Size (LargestCache stats) = 0 /\ LargestCacheManager stats = "") \/
   (0 < Size (LargestCache stats) /\
    exists pre c post,
      l = pre ++ c :: post /\
      CacheInfo.Size c = Size (LargestCache stats) /\
      CacheInfo.Manager c = LargestCacheManager stats /\
      forall c', c' ∈ pre -> CacheInfo.Size c' < Size (LargestCache stats))).

End LargestCacheVocabulary.

(** The dedup key of the specification: the triple itself. *)
Definition triple (pkg : Package.t) : string * string * string :=
  (Package.Name pkg, Package.Version pkg, Package.Manager pkg).


(** What the merge comes to on slices that share no array: the managers
    of [existing], then those of [managers] not met before. *)
Definition union_in_order (existing managers : list string) : list string :=
  fold_left
    (fun existingManagers manager =>
       if existsb (fun existingManager => String.eqb existingManager manager)
            existingManagers
       then existingManagers
       else existingManagers ++ [manager])
    managers existing.

(** The record [existing] becomes when [project], of the same path, is
    merged into it and no array is shared. *)
Definition merged_with (existing project : Project.t) : Project.t :=
  {| Project.Name := Project.Name existing;
     Project.Path := Project.Path existing;
     Project.Managers :=
       union_in_order (Project.Managers existing) (Project.Managers project);
     Project.ManagersArray := None;
     Project.PackageFile := Project.PackageFile existing;
     Project.LockFile :=
       if String.eqb (Project.LockFile existing) ""
          && negb (String.eqb (Project.LockFile project) "")
       then Project.LockFile project
       else Project.LockFile existing;
     Project.NodeModules := Project.NodeModules existing |}.



(** The slice of the record shares its backing array with no other. *)
Definition unshared (project : Project.t) : Prop :=
  Project.ManagersArray project = None.


(** * A small installation on which the statements are tried

    The world is the size of each tool's cache.  A backend is installed
    or not, and healthy or not: an unhealthy backend fails every call. *)
Module Demo.

Definition World : Type := gmap string Z.

Definition package (name version manager : string) : Package.t :=
  {| Package.Name := name; Package.Version := version;
     Package.Description := ""; Package.Manager := manager;
     Package.IsGlobal := false;
     Package.Path := "/work/node_modules/" +:+ name;
     Package.Size := 0; Package.Dependencies := ∅;
     Package.DevDependencies := ∅ |}.

Definition broken (name op : string) : error :=
  ManagerError name op (External "exit status 1").

Definition backend (name : string) (installed healthy : bool)
    : PackageManager.t World :=
  {| PackageManager.Name := name;
     PackageManager.IsAvailable := fun _ => installed;
     PackageManager.GetCacheInfo := fun w =>
       if healthy
       then Ok {| CacheInfo.Manager := name;
                  CacheInfo.Path := "/cache/" +:+ name;
                  CacheInfo.Size := default 0 (w !! name);
                  CacheInfo.FileCount := 1;
                  CacheInfo.LastUpdated := 0 |}
       else Err (broken name "get cache info");
     PackageManager.ClearCache := fun w =>
       if healthy
       then (None, <[name := 0]> w)
       else (Some (broken name "clear cache"), w);
     PackageManager.GetInstalledPackages := fun _ projectPath =>
       if healthy
       then Ok [package "react" "18.2.0" name;
                package "lodash" "4.17.21" name;
                package "lodash" "4.17.21" name]
       else Err (Predefined ErrProjectNotFound);
     PackageManager.GetGlobalPackages := fun _ =>
       if healthy
       then Ok [package "typescript" "4.9.0" name]
       else Err (broken name "list global packages");
     PackageManager.GetConfig := fun _ =>
       if healthy
       then Ok {| Config.Manager := name;
                  Config.Registry := "https://registry.npmjs.org/";
                  Config.Proxy := ""; Config.Settings := ∅ |}
       else Err (broken name "get config");
     PackageManager.SetRegistry := fun w _ =>
       if healthy then (None, w) else (Some (broken name "set registry"), w);
     PackageManager.SetProxy := fun w _ =>
       if healthy then (None, w) else (Some (broken name "set proxy"), w);
     PackageManager.GetProjects := fun _ rootPath =>
       if healthy
       then Ok [{| Project.Name := "app";
                   Project.Path := rootPath +:+ "/app";
                   Project.Managers := [name];
                   Project.ManagersArray := None;
                   Project.PackageFile := rootPath +:+ "/app/package.json";
                   Project.LockFile :=
                     if String.eqb name "npm" then "" else name +:+ ".lock";
                   Project.NodeModules := rootPath +:+ "/app/node_modules" |}]
       else Err (broken name "scan projects") |}.

(** npm and bun work, yarn is installed but fails, pnpm is missing. *)
Definition factory : ManagerFactory.t World :=
  {| ManagerFactory.managers :=
       <["npm" := backend "npm" true true]>
         (<["bun" := backend "bun" true true]>
            (<["yarn" := backend "yarn" true false]>
               (<["pnpm" := backend "pnpm" false true]> ∅))) |}.

(** npm alone, with the empty cache it has in [start]. *)
Definition npm_only : ManagerFactory.t World :=
  {| ManagerFactory.managers := <["npm" := backend "npm" true true]> ∅ |}.

(** Only failing or missing backends. *)
Definition broken_factory : ManagerFactory.t World :=
  {| ManagerFactory.managers :=
       <["yarn" := backend "yarn" true false]>
         (<["pnpm" := backend "pnpm" false true]> ∅) |}.

Definition manifest : PackageJsonInfo.t :=
  {| PackageJsonInfo.Name := "test-project";
     PackageJsonInfo.Version := "1.0.0";
     PackageJsonInfo.Description := "";
     PackageJsonInfo.Dependencies :=
       <["react" := "^18.0.0"]> (<["lodash" := "^4.17.21"]> ∅);
     PackageJsonInfo.DevDependencies :=
       <["typescript" := "^4.9.0"]> (<["@types/react" := "^18.0.0"]> ∅);
     PackageJsonInfo.Scripts := ∅ |}.

Definition parse_url (s : string) : result URL.t :=
  if String.prefix "https://" s
  then Ok {| URL.Scheme := "https";
             URL.Host := String.substring 8 (String.length s - 8) s |}
  else if String.prefix "http://" s
  then Ok {| URL.Scheme := "http";
             URL.Host := String.substring 7 (String.length s - 7) s |}
  else if String.prefix "ftp://" s
  then Ok {| URL.Scheme := "ftp";
             URL.Host := String.substring 6 (String.length s - 6) s |}
  else if String.prefix ":" s
  then Err (External "missing protocol scheme")
  else Ok {| URL.Scheme := ""; URL.Host := "" |}.

#[global] Instance platform : Platform World :=
  {| os_Stat := fun _ path =>
       if String.eqb path "/work" then StatOk true
       else if String.eqb path "/work/package.json" then StatOk false
       else StatNotExist;
     os_UserHomeDir := fun _ => Ok "/home/dev";
     os_ReadFile := fun _ path =>
       if String.eqb path "/work/package.json" then Ok "{}"
       else Err (External "no such file or directory");
     filepath_Join := fun a b => a +:+ "/" +:+ b;
     json_Unmarshal := fun _ => Ok manifest;
     url_Parse := parse_url |}.

Definition start : State World :=
  Build_State (<["npm" := 0]> (<["bun" := 2048]> (<["yarn" := 512]> ∅)))
    [] [].

(** Two schedules: every order as the map lists it, or reversed. *)
Definition in_order : Schedule :=
  {| order := fun _ A l => l;
     order_perm := fun _ A l => reflexivity l |}.

Definition reversed : Schedule :=
  {| order := fun _ A l => reverse l;
     order_perm := fun _ A l => reverse_Permutation l |}.

(** The rest of the machine: commands succeed for npm and exit with
    status 1 for any other tool; [node_modules] holds two files. *)
#[global] Instance runtime : Runtime World :=
  {| strings_ToLower := fun s => s;
     strings_TrimSpace := fun s => s;
     exec_Output := fun w name args =>
       if String.eqb name "npm"
       then (ExecDone "added 1 package", w)
       else (ExecExit "" (External "exit status 1") "not permitted" 1, w);
     filepath_Walk := fun _ path =>
       if String.eqb path "/work/node_modules"
       then [Ok {| FileInfo.IsDir := true; FileInfo.Size := 4096 |};
             Ok {| FileInfo.IsDir := false; FileInfo.Size := 700 |};
             Ok {| FileInfo.IsDir := false; FileInfo.Size := 300 |}]
       else [Err (External "no such file or directory")] |}.

(** A tool registered beside the four of the repository. *)
Definition with_deno : ManagerFactory.t World :=
  {| ManagerFactory.managers :=
       <["deno" := backend "deno" true true]>
         (ManagerFactory.managers factory) |}.
(** A backend that differs from [backend name true true] in the
    projects it reports. *)
Definition reporting (name : string) (projects : string -> list Project.t)
    : PackageManager.t World :=
  {| PackageManager.Name := name;
     PackageManager.IsAvailable := fun _ => true;
     PackageManager.GetCacheInfo :=
       PackageManager.GetCacheInfo (backend name true true);
     PackageManager.ClearCache :=
       PackageManager.ClearCache (backend name true true);
     PackageManager.GetInstalledPackages :=
       PackageManager.GetInstalledPackages (backend name true true);
     PackageManager.GetGlobalPackages :=
       PackageManager.GetGlobalPackages (backend name true true);
     PackageManager.GetConfig :=
       PackageManager.GetConfig (backend name true true);
     PackageManager.SetRegistry :=
       PackageManager.SetRegistry (backend name true true);
     PackageManager.SetProxy :=
       PackageManager.SetProxy (backend name true true);
     PackageManager.GetProjects := fun _ rootPath => Ok (projects rootPath) |}.

(** A backend that differs from [backend name true true] in the global
    packages it lists. *)
Definition offering (name : string) (globals : list Package.t)
    : PackageManager.t World :=
  {| PackageManager.Name := name;
     PackageManager.IsAvailable := fun _ => true;
     PackageManager.GetCacheInfo :=
       PackageManager.GetCacheInfo (backend name true true);
     PackageManager.ClearCache :=
       PackageManager.ClearCache (backend name true true);
     PackageManager.GetInstalledPackages :=
       PackageManager.GetInstalledPackages (backend name true true);
     PackageManager.GetGlobalPackages := fun _ => Ok globals;
     PackageManager.GetConfig :=
       PackageManager.GetConfig (backend name true true);
     PackageManager.SetRegistry :=
       PackageManager.SetRegistry (backend name true true);
     PackageManager.SetProxy :=
       PackageManager.SetProxy (backend name true true);
     PackageManager.GetProjects :=
       PackageManager.GetProjects (backend name true true) |}.

(** npm alone, with two versions of one package installed globally. *)
Definition two_versions : ManagerFactory.t World :=
  {| ManagerFactory.managers :=
       <["npm" := offering "npm" [package "a" "1.0.0" "npm";
                                  package "a" "2.0.0" "npm"]]> ∅ |}.

Definition project (path : string) (managers : list string)
    (array : option Backing.t) : Project.t :=
  {| Project.Name := "app";
     Project.Path := path;
     Project.Managers := managers;
     Project.ManagersArray := array;
     Project.PackageFile := path +:+ "/package.json";
     Project.LockFile := "";
     Project.NodeModules := path +:+ "/node_modules" |}.


(** A workspace tool reports two projects whose manager slices view the
    first cell of one array that has room for a second element; yarn
    reports the first project and bun the second. *)
Definition shared_array : Backing.t :=
  {| Backing.Array := 0; Backing.Offset := 0; Backing.Capacity := 2 |}.

Definition workspace : ManagerFactory.t World :=
  {| ManagerFactory.managers :=
       <["lerna" := reporting "lerna"
                      (fun rootPath =>
                         [project (rootPath +:+ "/a") ["npm"]
                            (Some shared_array);
                          project (rootPath +:+ "/b") ["npm"]
                            (Some shared_array)])]>
         (<["yarn" := reporting "yarn"
                        (fun rootPath =>
                           [project (rootPath +:+ "/a") ["yarn"] None])]>
            (<["bun" := reporting "bun"
                          (fun rootPath =>
                             [project (rootPath +:+ "/b") ["bun"] None])]>
               ∅)) |}.
End Demo.

(** * Vocabulary of the further properties *)

Definition sum_Z (l : list Z) : Z := fold_right Z.add 0 l.

(** The values of an [int64]. *)
Definition in_int64 (z : Z) : Prop := - 2 ^ 63 <= z < 2 ^ 63.

(** The number of elements of a list that satisfy a test. *)
Definition count_if {A} (test : A -> bool) (l : list A) : nat :=
  length (List.filter test l).

(** A URL the validation accepts: it parses, its scheme is [http] or
    [https] and its host is not empty. *)
Definition well_formed_url {W : Type} `{!Platform W} (url : string) : Prop :=
  exists u, url_Parse url = Ok u /\
    (URL.Scheme u = "http" \/ URL.Scheme u = "https") /\ URL.Host u <> "".

(** The managers of the configurations whose field [key] is [value], in
    the order of the list. *)
Definition managers_with (key : Config.t -> string) (value : string)
    (configs : list Config.t) : list string :=
  map Config.Manager
    (List.filter (fun c => String.eqb (key c) value) configs).

(** What [GetConfigSummary] records under a registry or proxy URL. *)
Definition grouped (key : Config.t -> string) (value : string)
    (configs : list Config.t) : option (list string) :=
  if String.eqb value "" then None
  else match managers_with key value configs with
       | [] => None
       | names => Some names
       end.

(** The sum, as an [int64], of the sizes above zero of a list of
    packages. *)
Definition positive_total (packages : list Package.t) : Z :=
  wrap64 (sum_Z (map Package.Size
                   (List.filter (fun pkg => 0 <? Package.Size pkg) packages))).

(** The sizes of the entries of a walk that are not directories. *)
Definition file_sizes (infos : list FileInfo.t) : list Z :=
  map FileInfo.Size (List.filter (fun info => negb (FileInfo.IsDir info)) infos).

(** The number of times a manager is listed by the projects of a list. *)
Definition listings (manager : string) (projects : list Project.t) : nat :=
  count_if (fun listed => String.eqb listed manager)
    (flat_map Project.Managers projects).

(** A second small installation: a checkout at [/repo] whose world is the
    list of its regular files, with [node_modules] beside them; no home
    directory is known, no tool can be run and no manager is registered. *)
Module Checkout.

Definition World : Type := list string.

Definition is_listed (files : World) (path : string) : bool :=
  existsb (String.eqb path) files.

#[global] Instance platform : Platform World :=
  {| os_Stat := fun files path =>
       if String.eqb path "/repo" || String.eqb path "/repo/node_modules"
       then StatOk true
       else if is_listed files path then StatOk false
       else if String.prefix "/srv/" path then StatFailed
       else StatNotExist;
     os_UserHomeDir := fun _ => Err (External "$HOME is not defined");
     os_ReadFile := fun files path =>
       if is_listed files path then Ok "{}"
       else Err (External "no such file or directory");
     filepath_Join := fun a b => a +:+ "/" +:+ b;
     json_Unmarshal := fun data =>
       if String.eqb data "{}" then Ok Demo.manifest
       else Err (External "unexpected end of JSON input");
     url_Parse := Demo.parse_url |}.

#[global] Instance runtime : Runtime World :=
  {| strings_ToLower := fun s => s;
     strings_TrimSpace := fun s => s;
     exec_Output := fun files name args =>
       (ExecFailed "" (External "executable file not found in $PATH"), files);
     filepath_Walk := fun _ path =>
       if String.eqb path "/repo/node_modules"
       then [Ok {| FileInfo.IsDir := true; FileInfo.Size := 4096 |};
             Ok {| FileInfo.IsDir := false; FileInfo.Size := 1200 |}]
       else [Err (External "no such file or directory")] |}.

Definition factory : ManagerFactory.t World :=
  {| ManagerFactory.managers := ∅ |}.

(** The checkout holds the lock files of npm and of bun. *)
Definition start : State World :=
  Build_State
    ["/repo/package.json"; "/repo/package-lock.json"; "/repo/bun.lockb"]
    [] [].
End Checkout.

(** * Properties *)

(** ** The Go order on strings *)

Lemma ltb_false_le (a b : string) : String.ltb b a = false <-> (a ≤ b)%string.
Proof.
  unfold String.le, String.ltb, String.leb.
  rewrite (String.compare_antisym a b).
  destruct (String.compare b a); simpl; intuition (auto; discriminate).
Qed.

(** ** [sort.Slice] returns a sorted permutation *)
Section SortFacts.
Context {A : Type} (less : A -> A -> bool).

Lemma sort_insert_perm (x : A) (l : list A) : sort_insert less x l ≡ₚ x :: l.
Proof.
  induction l as [|y l IH]; simpl; [done|].
  destruct (less x y); [|done].
  rewrite IH. apply Permutation_swap.
Qed.

Lemma sort_Slice_perm (l : list A) : sort_Slice less l ≡ₚ l.
Proof.
  unfold sort_Slice. rewrite reverse_Permutation.
  assert (Hgen : forall sorted,
    fold_left (fun sorted x => sort_insert less x sorted) l sorted
    ≡ₚ l ++ sorted).
  { induction l as [|x l IH]; intros sorted; simpl; [done|].
    rewrite IH, sort_insert_perm. by rewrite Permutation_middle. }
  by rewrite Hgen, app_nil_r.
Qed.

Lemma sort_Slice_elem_of (x : A) (l : list A) : x ∈ sort_Slice less l <-> x ∈ l.
Proof. by rewrite sort_Slice_perm. Qed.

Lemma sort_Slice_length (l : list A) : length (sort_Slice less l) = length l.
Proof. by rewrite sort_Slice_perm. Qed.

(** Sortedness for a [less] that compares a string key with [<]. *)
Context (key : A -> string).
Hypothesis less_key : forall a b, less a b = String.ltb (key a) (key b).

Lemma sorted_by_snoc (l : list A) (y : A) :
  sorted_by key (l ++ [y]) <->
  sorted_by key l /\ Forall (fun z => (key z ≤ key y)%string) l.
Proof.
  unfold sorted_by. induction l as [|z l IH]; simpl.
  - split; [by repeat constructor|]. intros _. repeat constructor.
  - split.
    + intros H. apply StronglySorted_inv in H as [Hl Hz].
      apply IH in Hl as [Hl Hy].
      apply Forall_app in Hz as [Hz Hzy].
      split; [by constructor|]. constructor; [|done].
      by apply Forall_inv in Hzy.
    + intros [H Hy]. apply StronglySorted_inv in H as [Hl Hz].
      apply Forall_cons in Hy as [Hzy Hy].
      constructor; [apply IH; by split|].
      apply Forall_app. split; [done|]. by constructor.
Qed.

(** The sorted part stays sorted; it is held from its right end. *)
Lemma sort_insert_sorted (x : A) (sorted : list A) :
  sorted_by key (reverse sorted) ->
  sorted_by key (reverse (sort_insert less x sorted)).
Proof.
  induction sorted as [|y sorted IH]; simpl.
  - intros _. unfold sorted_by. repeat constructor.
  - rewrite reverse_cons. intros [Hs Hy]%sorted_by_snoc.
    destruct (less x y) eqn:Hxy; rewrite less_key in Hxy.
    + rewrite reverse_cons. apply sorted_by_snoc. split; [by apply IH|].
      apply Forall_forall. intros z Hz.
      rewrite Forall_forall in Hy.
      rewrite elem_of_reverse, sort_insert_perm in Hz.
      apply elem_of_cons in Hz as [->|Hz].
      * destruct (total String.le (key x) (key y)) as [|Hyx]; [done|].
        apply ltb_false_le in Hyx. congruence.
      * apply Hy. by rewrite elem_of_reverse.
    + apply ltb_false_le in Hxy.
      rewrite !reverse_cons. apply sorted_by_snoc. split.
      * apply sorted_by_snoc. by split.
      * apply Forall_app. split; [|by repeat constructor].
        eapply Forall_impl; [exact Hy|]. intros z Hz. simpl in Hz.
        by etrans.
Qed.

Lemma sort_Slice_sorted (l : list A) : sorted_by key (sort_Slice less l).
Proof.
  unfold sort_Slice.
  assert (Hgen : forall sorted,
    sorted_by key (reverse sorted) ->
    sorted_by key
      (reverse (fold_left (fun sorted x => sort_insert less x sorted)
                  l sorted))).
  { induction l as [|x l IH]; intros sorted Hs; simpl; [done|].
    by apply IH, sort_insert_sorted. }
  apply Hgen. unfold sorted_by. constructor.
Qed.
End SortFacts.

(** ** The execution monad *)
Section ExecFacts.
Context {W : Type}.

Lemma elem_of_flat_map {X Y} (f : X -> list Y) (l : list X) (y : Y) :
  y ∈ flat_map f l <-> exists x, x ∈ l /\ y ∈ f x.
Proof.
  rewrite list_elem_of_In, in_flat_map.
  split; intros (x & Hx & Hy); exists x; by rewrite ?list_elem_of_In in *.
Qed.

(** A fan-out of reading tasks: each task appends its records, its errors
    and its log lines, and leaves the world alone. *)
Lemma for_each_gather {X A E}
    (body : X -> list A * list E -> @M W (list A * list E))
    (g : W -> X -> list A) (h : W -> X -> list E)
    (c : X -> Call) (lg : W -> X -> list LogEntry) :
  (forall x a e st,
      body x (a, e) st =
      ((a ++ g (world st) x, e ++ h (world st) x),
       Build_State (world st) (calls st ++ [c x])
         (logs st ++ lg (world st) x))) ->
  forall l a e st,
    for_each body l (a, e) st =
    ((a ++ flat_map (g (world st)) l, e ++ flat_map (h (world st)) l),
     Build_State (world st) (calls st ++ map c l)
       (logs st ++ flat_map (lg (world st)) l)).
Proof.
  intros Hbody l. induction l as [|x l IH]; intros a e st; simpl.
  - unfold ret. rewrite !app_nil_r. by destruct st.
  - unfold bind. rewrite Hbody, IH. simpl.
    by rewrite <- !app_assoc.
Qed.

(** The loop that logs the collected errors. *)
Lemma for_each_log {E} (lvl : Level) (msg : string)
    (mk : E -> list (string * LogValue)) (errors : list E) (st : State W) :
  for_each (fun err (_ : unit) => log lvl msg (mk err)) errors tt st =
  (tt, Build_State (world st) (calls st)
         (logs st ++ map (fun err => log_entry lvl msg (mk err)) errors)).
Proof.
  revert st. induction errors as [|err errors IH]; intros st; simpl.
  - unfold ret. rewrite app_nil_r. by destruct st.
  - unfold bind, log at 1. rewrite IH. simpl. by rewrite <- app_assoc.
Qed.

Lemma filter_insert_fold (P : string * PackageManager.t W -> bool)
    (l : list (string * PackageManager.t W))
    (r0 : gmap string (PackageManager.t W)) :
  NoDup l.*1 ->
  (forall k, k ∈ l.*1 -> r0 !! k = None) ->
  fold_left (fun r nm => if P nm then <[nm.1 := nm.2]> r else r) l r0 =
  list_to_map (filter (fun nm => P nm = true) l) ∪ r0.
Proof.
  revert r0. induction l as [|[n m] l IH]; intros r0 Hnd Hfresh; simpl.
  - by rewrite (left_id_L ∅ (∪)).
  - apply NoDup_cons in Hnd as [Hn Hnd]. simpl in Hn.
    rewrite filter_cons.
    destruct (decide (P (n, m) = true)) as [HP|HP];
      [rewrite HP|apply not_true_is_false in HP; rewrite HP]; simpl.
    + rewrite IH; [|done|].
      * rewrite <- insert_union_l. rewrite <- insert_union_r; [done|].
        apply not_elem_of_list_to_map_1. intros Hin.
        apply Hn. apply list_elem_of_fmap in Hin as ([n' m'] & -> & Hin).
        apply list_elem_of_fmap. exists (n', m'). split; [done|].
        by apply list_elem_of_filter in Hin as [_ ?].
      * intros k Hk. rewrite lookup_insert_ne; [|intros ->; done].
        apply Hfresh. simpl. by right.
    + apply IH; [done|].
      intros k Hk. apply Hfresh. simpl. by right.
Qed.

Lemma GetAvailableManagers_spec (σ : Schedule) (f : ManagerFactory.t W)
    (st : State W) :
  ManagerFactory.GetAvailableManagers σ f st =
  (available_in (world st) f,
   Build_State (world st) (calls st ++ probe_calls σ f) (logs st)).
Proof.
  unfold ManagerFactory.GetAvailableManagers, probe_calls, available_in.
  set (l := order σ at_GetAvailableManagers
              (map_to_list (ManagerFactory.managers f))).
  assert (Hperm : l ≡ₚ map_to_list (ManagerFactory.managers f))
    by apply order_perm.
  assert (Hgen : forall l' (r : gmap string (PackageManager.t W))
                    (st' : State W),
    for_each
      (fun '(name, manager) result =>
         do available <- call_read name OpIsAvailable
                           (PackageManager.IsAvailable manager);
         if available : bool
         then ret (<[name := manager]> result)
         else ret result) l' r st' =
    (fold_left
       (fun r nm =>
          if PackageManager.IsAvailable nm.2 (world st')
          then <[nm.1 := nm.2]> r else r) l' r,
     Build_State (world st')
       (calls st' ++ map (fun nm => (nm.1, OpIsAvailable)) l') (logs st'))).
  { induction l' as [|[n m] l' IH]; intros r st'; simpl.
    - unfold ret. rewrite app_nil_r. by destruct st'.
    - unfold bind at 1. unfold bind at 1. unfold call_read at 1.
      destruct (PackageManager.IsAvailable m (world st')) eqn:Hav;
        unfold ret at 1; rewrite IH; simpl; by rewrite <- app_assoc. }
  rewrite Hgen. f_equal.
  rewrite (filter_insert_fold
             (fun nm => PackageManager.IsAvailable nm.2 (world st))).
  - rewrite (right_id_L ∅ (∪)), map_filter_alt.
    apply list_to_map_proper; [|by rewrite Hperm].
    apply NoDup_fmap_fst.
    + intros k x y Hx Hy.
      apply list_elem_of_filter in Hx as [_ Hx].
      apply list_elem_of_filter in Hy as [_ Hy].
      rewrite Hperm in Hx, Hy.
      apply elem_of_map_to_list in Hx, Hy. congruence.
    + apply NoDup_filter. rewrite Hperm. apply NoDup_map_to_list.
  - rewrite Hperm. apply NoDup_fst_map_to_list.
  - intros k _. apply lookup_empty.
Qed.

Lemma finish_order_perm (σ : Schedule) (f : ManagerFactory.t W) (w : W) :
  finish_order σ f w ≡ₚ map_to_list (available_in w f).
Proof. apply order_perm. Qed.

Lemma elem_of_finish_order (σ : Schedule) (f : ManagerFactory.t W) (w : W)
    (name : string) (mgr : PackageManager.t W) :
  (name, mgr) ∈ finish_order σ f w <->
  ManagerFactory.managers f !! name = Some mgr /\
  PackageManager.IsAvailable mgr w = true.
Proof.
  rewrite finish_order_perm, elem_of_map_to_list.
  unfold available_in. by rewrite map_lookup_filter_Some.
Qed.
End ExecFacts.

(** ** Closed forms of the aggregate reads *)
Section ReadFacts.
Context {W : Type} `{!Platform W}.

Lemma flat_map_failures {A B} (F : string * error -> B)
    (read : PackageManager.t W -> W -> result A) (skip : error -> bool)
    (w : W) (l : list (string * PackageManager.t W)) :
  flat_map
    (fun nm =>
       match read nm.2 w with
       | Ok _ => []
       | Err e => if skip e then [] else [F (nm.1, e)]
       end) l =
  map F (failures skip read w l).
Proof.
  unfold failures. induction l as [|nm l IH]; simpl; [done|].
  rewrite map_app, <- IH. f_equal.
  destruct (read nm.2 w); [done|]. by destruct (skip e).
Qed.

(** The tasks of a reading fan-out, joined. *)
Lemma read_fan_out {A B}
    (task : string * PackageManager.t W -> list B * list error ->
            @M W (list B * list error))
    (read : PackageManager.t W -> W -> result A) (skip : error -> bool)
    (keep : result A -> list B) (op : Op)
    (task_log : W -> string * PackageManager.t W -> list LogEntry)
    (prefix : string) :
  (forall nm a e st,
      task nm (a, e) st =
      ((a ++ keep (read nm.2 (world st)),
        e ++ match read nm.2 (world st) with
             | Ok _ => []
             | Err err =>
                 if skip err then [] else [gathered_error prefix (nm.1, err)]
             end),
       Build_State (world st) (calls st ++ [(nm.1, op)])
         (logs st ++ task_log (world st) nm))) ->
  forall l st,
    for_each task l ([], []) st =
    ((flat_map (fun nm => keep (read nm.2 (world st))) l,
      map (gathered_error prefix) (failures skip read (world st) l)),
     Build_State (world st) (calls st ++ map (fun nm => (nm.1, op)) l)
       (logs st ++ flat_map (task_log (world st)) l)).
Proof.
  intros Htask l st.
  rewrite (for_each_gather task
    (fun w nm => keep (read nm.2 w))
    (fun w nm =>
       match read nm.2 w with
       | Ok _ => []
       | Err err =>
           if skip err then [] else [gathered_error prefix (nm.1, err)]
       end)
    (fun nm => (nm.1, op)) task_log Htask).
  cbn [app].
  by rewrite (flat_map_failures (gathered_error prefix) read skip).
Qed.

Lemma GetAllCacheInfo_run (σ : Schedule) (f : ManagerFactory.t W)
    (st : State W) :
  let w := world st in
  let l := finish_order σ f w in
  let failed := failures never PackageManager.GetCacheInfo w l in
  CacheService.GetAllCacheInfo σ f st =
  (Ok (sort_Slice
         (fun a b => String.ltb (CacheInfo.Manager a) (CacheInfo.Manager b))
         (flat_map (fun nm => record_of (PackageManager.GetCacheInfo nm.2 w))
            l)),
   Build_State w
     (calls st ++ probe_calls σ f ++ map (fun nm => (nm.1, OpGetCacheInfo)) l)
     (logs st
      ++ map (task_warning "cache" "Failed to get cache info") failed
      ++ map (join_warning "cache" "Cache info retrieval error"
                "failed to get cache info for ") failed)).
Proof.
  intros w l failed. unfold CacheService.GetAllCacheInfo.
  unfold bind at 1. rewrite GetAvailableManagers_spec.
  unfold bind at 1.
  rewrite (read_fan_out CacheService.GetAllCacheInfo_task
             PackageManager.GetCacheInfo never record_of OpGetCacheInfo
             (fun w nm =>
                match PackageManager.GetCacheInfo nm.2 w with
                | Ok _ => []
                | Err e =>
                    if never e then []
                    else [task_warning "cache" "Failed to get cache info"
                            (nm.1, e)]
                end)
             "failed to get cache info for ").
  2:{ intros [name mgr] a e st'. unfold CacheService.GetAllCacheInfo_task.
      unfold bind at 1, call_read at 1. simpl.
      destruct (PackageManager.GetCacheInfo mgr (world st')); simpl.
      - unfold ret. by rewrite !app_nil_r.
      - unfold bind, log, ret. simpl. by rewrite app_nil_r. }
  cbn [world calls logs fst snd]. unfold bind at 1.
  rewrite for_each_log. unfold ret. cbn [world calls logs fst snd].
  rewrite (flat_map_failures
             (task_warning "cache" "Failed to get cache info")
             PackageManager.GetCacheInfo never).
  subst w l failed. unfold finish_order.
  by rewrite <- !app_assoc, map_map.
Qed.

Lemma GetAllConfigs_run (σ : Schedule) (f : ManagerFactory.t W)
    (st : State W) :
  let w := world st in
  let l := finish_order σ f w in
  let failed := failures never PackageManager.GetConfig w l in
  ConfigService.GetAllConfigs σ f st =
  (Ok (sort_Slice
         (fun a b => String.ltb (Config.Manager a) (Config.Manager b))
         (flat_map (fun nm => record_of (PackageManager.GetConfig nm.2 w)) l)),
   Build_State w
     (calls st ++ probe_calls σ f ++ map (fun nm => (nm.1, OpGetConfig)) l)
     (logs st
      ++ map (task_warning "config" "Failed to get config") failed
      ++ map (join_warning "config" "Config retrieval error"
                "failed to get config for ") failed)).
Proof.
  intros w l failed. unfold ConfigService.GetAllConfigs.
  unfold bind at 1. rewrite GetAvailableManagers_spec.
  unfold bind at 1.
  rewrite (read_fan_out ConfigService.GetAllConfigs_task
             PackageManager.GetConfig never record_of OpGetConfig
             (fun w nm =>
                match PackageManager.GetConfig nm.2 w with
                | Ok _ => []
                | Err e =>
                    if never e then []
                    else [task_warning "config" "Failed to get config"
                            (nm.1, e)]
                end)
             "failed to get config for ").
  2:{ intros [name mgr] a e st'. unfold ConfigService.GetAllConfigs_task.
      unfold bind at 1, call_read at 1. simpl.
      destruct (PackageManager.GetConfig mgr (world st')); simpl.
      - unfold ret. by rewrite !app_nil_r.
      - unfold bind, log, ret. simpl. by rewrite app_nil_r. }
  cbn [world calls logs fst snd]. unfold bind at 1.
  rewrite for_each_log. unfold ret. cbn [world calls logs fst snd].
  rewrite (flat_map_failures
             (task_warning "config" "Failed to get config")
             PackageManager.GetConfig never).
  subst w l failed. unfold finish_order.
  by rewrite <- !app_assoc, map_map.
Qed.

Lemma GetGlobalPackages_run (σ : Schedule) (f : ManagerFactory.t W)
    (st : State W) :
  let w := world st in
  let l := finish_order σ f w in
  let failed := failures never PackageManager.GetGlobalPackages w l in
  PackageService.GetGlobalPackages σ f st =
  (Ok (sort_Slice PackageService.by_Name
         (PackageService.removeDuplicatePackages
            (flat_map
               (fun nm => records_of (PackageManager.GetGlobalPackages nm.2 w))
               l))),
   Build_State w
     (calls st ++ probe_calls σ f
      ++ map (fun nm => (nm.1, OpGetGlobalPackages)) l)
     (logs st
      ++ map (task_warning "packages" "Failed to get global packages") failed
      ++ map (join_warning "packages" "Global package retrieval error"
                "failed to get global packages from ") failed)).
Proof.
  intros w l failed. unfold PackageService.GetGlobalPackages.
  unfold bind at 1. rewrite GetAvailableManagers_spec.
  unfold bind at 1.
  rewrite (read_fan_out PackageService.GetGlobalPackages_task
             PackageManager.GetGlobalPackages never records_of
             OpGetGlobalPackages
             (fun w nm =>
                match PackageManager.GetGlobalPackages nm.2 w with
                | Ok _ => []
                | Err e =>
                    if never e then []
                    else [task_warning "packages"
                            "Failed to get global packages" (nm.1, e)]
                end)
             "failed to get global packages from ").
  2:{ intros [name mgr] a e st'.
      unfold PackageService.GetGlobalPackages_task.
      unfold bind at 1, call_read at 1. simpl.
      destruct (PackageManager.GetGlobalPackages mgr (world st')); simpl.
      - unfold ret. by rewrite !app_nil_r.
      - unfold bind, log, ret. simpl. by rewrite app_nil_r. }
  cbn [world calls logs fst snd]. unfold bind at 1.
  rewrite for_each_log. unfold ret. cbn [world calls logs fst snd].
  rewrite (flat_map_failures
             (task_warning "packages" "Failed to get global packages")
             PackageManager.GetGlobalPackages never).
  subst w l failed. unfold finish_order.
  by rewrite <- !app_assoc, map_map.
Qed.

Lemma GetAllPackages_run (σ : Schedule) (f : ManagerFactory.t W)
    (projectPath : string) (st : State W) :
  projectPath <> "" ->
  let w := world st in
  let l := finish_order σ f w in
  let read := fun mgr w => PackageManager.GetInstalledPackages mgr w projectPath in
  let failed := failures (is_sentinel ErrProjectNotFound) read w l in
  PackageService.GetAllPackages σ f projectPath st =
  (Ok (sort_Slice PackageService.by_Name
         (PackageService.removeDuplicatePackages
            (flat_map (fun nm => records_of (read nm.2 w)) l))),
   Build_State w
     (calls st ++ probe_calls σ f
      ++ map (fun nm => (nm.1, OpGetInstalledPackages projectPath)) l)
     (logs st
      ++ flat_map (packages_task_log projectPath w) l
      ++ map (join_warning "packages" "Package retrieval error"
                "failed to get packages from ") failed)).
Proof.
  intros Hpath w l read failed. unfold PackageService.GetAllPackages.
  rewrite decide_False by done.
  unfold bind at 1. rewrite GetAvailableManagers_spec.
  unfold bind at 1.
  rewrite (read_fan_out (PackageService.GetAllPackages_task projectPath)
             read (is_sentinel ErrProjectNotFound) records_of
             (OpGetInstalledPackages projectPath)
             (packages_task_log projectPath)
             "failed to get packages from ").
  2:{ intros [name mgr] a e st'.
      unfold PackageService.GetAllPackages_task, packages_task_log, read.
      unfold bind at 1, call_read at 1. simpl.
      destruct (PackageManager.GetInstalledPackages mgr (world st')
                  projectPath) as [pkgs|err]; simpl.
      - unfold ret. by rewrite !app_nil_r.
      - destruct (is_sentinel ErrProjectNotFound err);
          unfold bind, log, ret; simpl; by rewrite ?app_nil_r. }
  cbn [world calls logs fst snd]. unfold bind at 1.
  rewrite for_each_log. unfold ret. cbn [world calls logs fst snd].
  subst w l failed. unfold finish_order.
  by rewrite <- !app_assoc, map_map.
Qed.

Lemma ScanProjects_run (σ : Schedule) (f : ManagerFactory.t W)
    (rootPath expandedPath : string) (st : State W) :
  rootPath <> "" ->
  utils.ExpandPath (world st) rootPath = Ok expandedPath ->
  utils.PathExists (world st) expandedPath = true ->
  utils.IsDir (world st) expandedPath = true ->
  let w := world st in
  let l := finish_order σ f w in
  let read := fun mgr w => PackageManager.GetProjects mgr w expandedPath in
  let failed := failures never read w l in
  let merged :=
    sort_Slice ProjectService.by_Path
      (ProjectService.mergeProjects σ
         (flat_map (fun nm => records_of (read nm.2 w)) l)) in
  ProjectService.ScanProjects σ f rootPath st =
  (Ok merged,
   Build_State w
     (calls st ++ probe_calls σ f
      ++ map (fun nm => (nm.1, OpGetProjects expandedPath)) l)
     (logs st
      ++ map (task_warning "projects" "Failed to scan projects") failed
      ++ map (join_warning "projects" "Project scanning error"
                "failed to scan projects with ") failed
      ++ [log_entry LevelInfo "Project scan completed"
            [("service", LStr "projects");
             ("project_count", LInt (Z.of_nat (length merged)));
             ("scan_path", LStr expandedPath)]])).
Proof.
  intros Hroot Hexp Hex Hdir w l read failed merged.
  unfold ProjectService.ScanProjects.
  rewrite decide_False by done.
  unfold bind at 1, read_world at 1. rewrite Hexp.
  unfold bind at 1, read_world at 1. rewrite Hex.
  cbn [negb]. cbv beta iota.
  unfold bind at 1, read_world at 1. rewrite Hdir.
  cbn [negb]. cbv beta iota.
  unfold bind at 1. rewrite GetAvailableManagers_spec.
  unfold bind at 1.
  rewrite (read_fan_out (ProjectService.ScanProjects_task expandedPath)
             read never records_of (OpGetProjects expandedPath)
             (fun w nm =>
                match read nm.2 w with
                | Ok _ => []
                | Err e =>
                    if never e then []
                    else [task_warning "projects" "Failed to scan projects"
                            (nm.1, e)]
                end)
             "failed to scan projects with ").
  2:{ intros [name mgr] a e st'.
      unfold ProjectService.ScanProjects_task, read.
      unfold bind at 1, call_read at 1. simpl.
      destruct (PackageManager.GetProjects mgr (world st') expandedPath);
        simpl.
      - unfold ret. by rewrite !app_nil_r.
      - unfold bind, log, ret. simpl. by rewrite app_nil_r. }
  cbn [world calls logs fst snd]. unfold bind at 1.
  rewrite for_each_log. unfold bind at 1, log at 1, ret.
  cbn [world calls logs fst snd].
  rewrite (flat_map_failures
             (task_warning "projects" "Failed to scan projects") read never).
  subst merged w l failed. unfold finish_order.
  by rewrite <- !app_assoc, map_map.
Qed.

(** [ScanProjects] succeeds only through its three checks of the root. *)
Lemma ScanProjects_Ok_inv (σ : Schedule) (f : ManagerFactory.t W)
    (rootPath : string) (st : State W) (merged : list Project.t) :
  (ProjectService.ScanProjects σ f rootPath st).1 = Ok merged ->
  rootPath <> "" /\
  exists expandedPath,
    utils.ExpandPath (world st) rootPath = Ok expandedPath /\
    utils.PathExists (world st) expandedPath = true /\
    utils.IsDir (world st) expandedPath = true.
Proof.
  unfold ProjectService.ScanProjects.
  destruct (decide (rootPath = "")) as [->|Hroot]; [done|].
  unfold bind at 1, read_world at 1.
  destruct (utils.ExpandPath (world st) rootPath) as [p|e] eqn:Hexp;
    [|done].
  unfold bind at 1, read_world at 1.
  destruct (utils.PathExists (world st) p) eqn:Hex; [|done].
  cbn [negb]. cbv beta iota.
  unfold bind at 1, read_world at 1.
  destruct (utils.IsDir (world st) p) eqn:Hdir; [|done].
  intros _. split; [done|]. by exists p.
Qed.
End ReadFacts.

(** ** Trying the embedding on the small installation *)

Example demo_GetAllCacheInfo :
  (CacheService.GetAllCacheInfo Demo.reversed Demo.factory Demo.start).1 =
  Ok [ {| CacheInfo.Manager := "bun"; CacheInfo.Path := "/cache/bun";
          CacheInfo.Size := 2048; CacheInfo.FileCount := 1;
          CacheInfo.LastUpdated := 0 |};
       {| CacheInfo.Manager := "npm"; CacheInfo.Path := "/cache/npm";
          CacheInfo.Size := 0; CacheInfo.FileCount := 1;
          CacheInfo.LastUpdated := 0 |} ].
Proof. vm_compute. reflexivity. Qed.

(** ** Aggregate reads: failures are absorbed, results are sorted *)
Section AggregateReads.
Context {W : Type} `{!Platform W}.

(** C1: an aggregate read never fails because backends failed.  For every
    non-empty [projectPath], [GetAllPackages] returns a nil error with the
    sorted, deduplicated records of the backends whose call succeeded; a
    backend answering [ErrProjectNotFound] leaves only a debug line, any
    other failure leaves a warning by the task and one after the join, and
    contributes no record.  [GetAllCacheInfo] and [GetAllConfigs] likewise
    return a nil error with the records of the succeeding backends. *)
Theorem aggregate_reads_absorb_backend_errors (σ : Schedule)
    (f : ManagerFactory.t W) (st : State W) :
  let w := world st in
  let l := finish_order σ f w in
  (forall projectPath, projectPath <> "" ->
     let read := fun mgr w =>
       PackageManager.GetInstalledPackages mgr w projectPath in
     exists pkgs st',
       PackageService.GetAllPackages σ f projectPath st = (Ok pkgs, st') /\
       pkgs = sort_Slice PackageService.by_Name
                (PackageService.removeDuplicatePackages
                   (flat_map (fun nm => records_of (read nm.2 w)) l)) /\
       world st' = w /\
       logs st' =
         logs st ++ flat_map (packages_task_log projectPath w) l
         ++ map (join_warning "packages" "Package retrieval error"
                   "failed to get packages from ")
              (failures (is_sentinel ErrProjectNotFound) read w l)) /\
  (exists infos st',
     CacheService.GetAllCacheInfo σ f st = (Ok infos, st') /\
     infos ≡ₚ flat_map
                (fun nm => record_of (PackageManager.GetCacheInfo nm.2 w)) l /\
     world st' = w /\
     logs st' =
       logs st
       ++ map (task_warning "cache" "Failed to get cache info")
            (failures never PackageManager.GetCacheInfo w l)
       ++ map (join_warning "cache" "Cache info retrieval error"
                 "failed to get cache info for ")
            (failures never PackageManager.GetCacheInfo w l)) /\
  (exists configs st',
     ConfigService.GetAllConfigs σ f st = (Ok configs, st') /\
     configs ≡ₚ flat_map
                  (fun nm => record_of (PackageManager.GetConfig nm.2 w)) l /\
     world st' = w /\
     logs st' =
       logs st
       ++ map (task_warning "config" "Failed to get config")
            (failures never PackageManager.GetConfig w l)
       ++ map (join_warning "config" "Config retrieval error"
                 "failed to get config for ")
            (failures never PackageManager.GetConfig w l)).
Proof.
  intros w l. split; [|split].
  - intros projectPath Hpath read.
    eexists _, _. split; [by apply GetAllPackages_run|]. done.
  - eexists _, _. split; [apply GetAllCacheInfo_run|].
    split; [apply sort_Slice_perm|done].
  - eexists _, _. split; [apply GetAllConfigs_run|].
    split; [apply sort_Slice_perm|done].
Qed.

(** C2: every aggregate list is sorted ascending by its key, whatever the
    order in which the tasks finish: [GetAllCacheInfo] and [GetAllConfigs]
    by manager name, [GetAllPackages] and [GetGlobalPackages] by package
    name, [ScanProjects] by project path. *)
Theorem aggregate_results_sorted (σ : Schedule) (f : ManagerFactory.t W)
    (st : State W) :
  (exists infos st',
     CacheService.GetAllCacheInfo σ f st = (Ok infos, st') /\
     sorted_by CacheInfo.Manager infos) /\
  (exists configs st',
     ConfigService.GetAllConfigs σ f st = (Ok configs, st') /\
     sorted_by Config.Manager configs) /\
  (exists pkgs st',
     PackageService.GetGlobalPackages σ f st = (Ok pkgs, st') /\
     sorted_by Package.Name pkgs) /\
  (forall projectPath, projectPath <> "" ->
     exists pkgs st',
       PackageService.GetAllPackages σ f projectPath st = (Ok pkgs, st') /\
       sorted_by Package.Name pkgs) /\
  (forall rootPath expandedPath,
     rootPath <> "" ->
     utils.ExpandPath (world st) rootPath = Ok expandedPath ->
     utils.PathExists (world st) expandedPath = true ->
     utils.IsDir (world st) expandedPath = true ->
     exists projects st',
       ProjectService.ScanProjects σ f rootPath st = (Ok projects, st') /\
       sorted_by Project.Path projects).
Proof.
  repeat split.
  - eexists _, _. split; [apply GetAllCacheInfo_run|].
    by apply sort_Slice_sorted.
  - eexists _, _. split; [apply GetAllConfigs_run|].
    by apply sort_Slice_sorted.
  - eexists _, _. split; [apply GetGlobalPackages_run|].
    by apply sort_Slice_sorted.
  - intros projectPath Hpath.
    eexists _, _. split; [by apply GetAllPackages_run|].
    by apply sort_Slice_sorted.
  - intros rootPath expandedPath Hroot Hexp Hex Hdir.
    eexists _, _. split; [by apply ScanProjects_run|].
    by apply sort_Slice_sorted.
Qed.

(** C10: when the call of every available backend fails, [GetAllCacheInfo]
    returns the empty list and a nil error. *)
Theorem GetAllCacheInfo_all_backends_fail (σ : Schedule)
    (f : ManagerFactory.t W) (st : State W) :
  (forall name mgr,
     ManagerFactory.managers f !! name = Some mgr ->
     PackageManager.IsAvailable mgr (world st) = true ->
     exists e, PackageManager.GetCacheInfo mgr (world st) = Err e) ->
  exists st',
    CacheService.GetAllCacheInfo σ f st = (Ok [], st') /\
    world st' = world st.
Proof.
  intros Hfail.
  assert (Hnil : forall l : list (string * PackageManager.t W),
    (forall nm, nm ∈ l -> nm ∈ finish_order σ f (world st)) ->
    flat_map (fun nm => record_of (PackageManager.GetCacheInfo nm.2 (world st)))
      l = []).
  { induction l as [|[name mgr] l IH]; intros Hl; simpl; [done|].
    destruct (Hfail name mgr) as [e ->].
    - eapply elem_of_finish_order, Hl. by left.
    - eapply elem_of_finish_order, Hl. by left.
    - simpl. apply IH. intros nm Hnm. apply Hl. by right. }
  rewrite GetAllCacheInfo_run, Hnil by done.
  eexists. split; reflexivity.
Qed.
End AggregateReads.

(** ** Aggregate writes *)
Section WriteFacts.
Context {W : Type} `{!Platform W}.

(** The tasks of a writing fan-out, joined. *)
Lemma write_fan_out
    (task : string * PackageManager.t W -> list error * Z ->
            @M W (list error * Z))
    (write : PackageManager.t W -> W -> option error * W) (op : Op)
    (item : string) (line : string * option error -> LogEntry) :
  (forall nm errs n st,
      task nm (errs, n) st =
      (match (write nm.2 (world st)).1 with
       | Some err => (errs ++ [gathered_error item (nm.1, err)], n)
       | None => (errs, wrap64 (n + 1))
       end,
       Build_State (write nm.2 (world st)).2 (calls st ++ [(nm.1, op)])
         (logs st ++ [line (nm.1, (write nm.2 (world st)).1)]))) ->
  forall l errs n st,
    let out := outcomes write l (world st) in
    for_each task l (errs, n) st =
    ((errs ++ map (gathered_error item) (failed_writes out), succeeded n out),
     Build_State (world_after write l (world st))
       (calls st ++ map (fun nm => (nm.1, op)) l)
       (logs st ++ map line out)).
Proof.
  intros Htask l. induction l as [|nm l IH]; intros errs n st; simpl.
  - unfold ret. rewrite !app_nil_r. by destruct st.
  - unfold bind. rewrite Htask.
    destruct (write nm.2 (world st)) as [[err|] w'] eqn:Hw; simpl;
      rewrite IH; simpl; by rewrite <- !app_assoc.
Qed.

Lemma combined_error_length (prefix item : string)
    (failed : list (string * error)) :
  (if decide (0 < length (map (gathered_error item) failed))%nat
   then Some (ErrorfV prefix (map (gathered_error item) failed))
   else None) = combined_error prefix item failed.
Proof. by destruct failed. Qed.

Lemma ClearAllCaches_run (σ : Schedule) (f : ManagerFactory.t W)
    (st : State W) :
  let w := world st in
  let l := finish_order σ f w in
  let out := outcomes PackageManager.ClearCache l w in
  CacheService.ClearAllCaches σ f st =
  (combined_error "failed to clear some caches: "
     "failed to clear cache for " (failed_writes out),
   Build_State (world_after PackageManager.ClearCache l w)
     (calls st ++ probe_calls σ f ++ map (fun nm => (nm.1, OpClearCache)) l)
     (logs st ++ map ClearAllCaches_line out
      ++ [log_entry LevelInfo "Cache clearing completed"
            [("service", LStr "cache");
             ("cleared_count", LInt (succeeded 0 out));
             ("total_managers",
              LInt (Z.of_nat (size (available_in w f))))]])).
Proof.
  intros w l out. unfold CacheService.ClearAllCaches.
  unfold bind at 1. rewrite GetAvailableManagers_spec.
  unfold bind at 1.
  rewrite (write_fan_out CacheService.ClearAllCaches_task
             PackageManager.ClearCache OpClearCache
             "failed to clear cache for " ClearAllCaches_line).
  2:{ intros [name mgr] errs n st'.
      unfold CacheService.ClearAllCaches_task, ClearAllCaches_line.
      unfold bind at 1, call_write at 1. simpl.
      destruct (PackageManager.ClearCache mgr (world st')) as [[err|] w'];
        by simpl. }
  cbn [world calls logs fst snd app]. unfold bind at 1, log at 1.
  cbn [world calls logs fst snd app].
  fold w. fold (finish_order σ f w). fold l. fold out.
  rewrite <- combined_error_length.
  destruct (decide _); unfold ret; by rewrite <- !app_assoc.
Qed.

Lemma SetRegistryForAll_run (σ : Schedule) (f : ManagerFactory.t W)
    (registryURL : string) (st : State W) :
  ConfigService.ValidateRegistryURL registryURL = None ->
  let w := world st in
  let l := finish_order σ f w in
  let write := fun mgr w => PackageManager.SetRegistry mgr w registryURL in
  let out := outcomes write l w in
  ConfigService.SetRegistryForAll σ f registryURL st =
  (combined_error "failed to set registry for some managers: "
     "failed to set registry for " (failed_writes out),
   Build_State (world_after write l w)
     (calls st ++ probe_calls σ f
      ++ map (fun nm => (nm.1, OpSetRegistry registryURL)) l)
     (logs st ++ map (SetRegistryForAll_line registryURL) out
      ++ [log_entry LevelInfo "Registry update completed"
            [("service", LStr "config");
             ("success_count", LInt (succeeded 0 out));
             ("total_managers",
              LInt (Z.of_nat (size (available_in w f))))]])).
Proof.
  intros Hvalid w l write out. unfold ConfigService.SetRegistryForAll.
  rewrite Hvalid.
  unfold bind at 1. rewrite GetAvailableManagers_spec.
  unfold bind at 1.
  rewrite (write_fan_out (ConfigService.SetRegistryForAll_task registryURL)
             write (OpSetRegistry registryURL)
             "failed to set registry for "
             (SetRegistryForAll_line registryURL)).
  2:{ intros [name mgr] errs n st'.
      unfold ConfigService.SetRegistryForAll_task, SetRegistryForAll_line,
        write.
      unfold bind at 1, call_write at 1. simpl.
      destruct (PackageManager.SetRegistry mgr (world st') registryURL)
        as [[err|] w']; by simpl. }
  cbn [world calls logs fst snd app]. unfold bind at 1, log at 1.
  cbn [world calls logs fst snd app].
  fold w. fold (finish_order σ f w). fold l. fold out.
  rewrite <- combined_error_length.
  destruct (decide _); unfold ret; by rewrite <- !app_assoc.
Qed.

Lemma SetProxyForAll_run (σ : Schedule) (f : ManagerFactory.t W)
    (proxyURL : string) (st : State W) :
  ConfigService.check_proxy proxyURL = None ->
  let w := world st in
  let l := finish_order σ f w in
  let write := fun mgr w => PackageManager.SetProxy mgr w proxyURL in
  let out := outcomes write l w in
  ConfigService.SetProxyForAll σ f proxyURL st =
  (combined_error "failed to set proxy for some managers: "
     "failed to set proxy for " (failed_writes out),
   Build_State (world_after write l w)
     (calls st ++ probe_calls σ f
      ++ map (fun nm => (nm.1, OpSetProxy proxyURL)) l)
     (logs st ++ map (SetProxyForAll_line proxyURL) out
      ++ [log_entry LevelInfo "Proxy update completed"
            [("service", LStr "config");
             ("success_count", LInt (succeeded 0 out));
             ("total_managers",
              LInt (Z.of_nat (size (available_in w f))))]])).
Proof.
  intros Hvalid w l write out. unfold ConfigService.SetProxyForAll.
  rewrite Hvalid.
  unfold bind at 1. rewrite GetAvailableManagers_spec.
  unfold bind at 1.
  rewrite (write_fan_out (ConfigService.SetProxyForAll_task proxyURL)
             write (OpSetProxy proxyURL)
             "failed to set proxy for "
             (SetProxyForAll_line proxyURL)).
  2:{ intros [name mgr] errs n st'.
      unfold ConfigService.SetProxyForAll_task, SetProxyForAll_line,
        ConfigService.log_proxy_change, write.
      unfold bind at 1, call_write at 1. simpl.
      destruct (PackageManager.SetProxy mgr (world st') proxyURL)
        as [[err|] w']; [by simpl|].
      simpl. by destruct (String.eqb proxyURL ""). }
  cbn [world calls logs fst snd app]. unfold bind at 1, log at 1.
  cbn [world calls logs fst snd app].
  fold w. fold (finish_order σ f w). fold l. fold out.
  rewrite <- combined_error_length.
  destruct (decide _); unfold ret; by rewrite <- !app_assoc.
Qed.

(** What the two validators answer. *)
Lemma ValidateRegistryURL_refuses (url : string) :
  url = "" \/ malformed_url url ->
  exists msg,
    ConfigService.ValidateRegistryURL url =
    Some (ValidationError "registry" url msg).
Proof.
  unfold ConfigService.ValidateRegistryURL.
  intros [->|Hbad]; [by eexists|].
  destruct (decide (url = "")); [by eexists|].
  destruct Hbad as [[e ->]|(u & -> & Hu)]; [by eexists|].
  destruct Hu as [[Hhttp Hhttps]|Hhost].
  - apply String.eqb_neq in Hhttp, Hhttps. rewrite Hhttp, Hhttps.
    by eexists.
  - destruct (_ && _); [by eexists|].
    rewrite Hhost. by eexists.
Qed.

Lemma ValidateProxyURL_refuses (url : string) :
  url <> "" -> malformed_url url ->
  exists msg,
    ConfigService.ValidateProxyURL url =
    Some (ValidationError "proxy" url msg).
Proof.
  unfold ConfigService.ValidateProxyURL. intros Hne Hbad.
  rewrite decide_False by done.
  destruct Hbad as [[e ->]|(u & -> & Hu)]; [by eexists|].
  destruct Hu as [[Hhttp Hhttps]|Hhost].
  - apply String.eqb_neq in Hhttp, Hhttps. rewrite Hhttp, Hhttps.
    by eexists.
  - destruct (_ && _); [by eexists|].
    rewrite Hhost. by eexists.
Qed.

Lemma check_proxy_refuses (url : string) :
  url <> "" -> malformed_url url ->
  exists msg,
    ConfigService.check_proxy url = Some (ValidationError "proxy" url msg).
Proof.
  intros Hne Hbad. unfold ConfigService.check_proxy.
  apply String.eqb_neq in Hne as Hne'. rewrite Hne'. simpl.
  by apply ValidateProxyURL_refuses.
Qed.
End WriteFacts.

Section AggregateWrites.
Context {W : Type} `{!Platform W}.

Lemma elem_of_failed_writes (out : list (string * option error))
    (name : string) (e : error) :
  (name, e) ∈ failed_writes out <-> (name, Some e) ∈ out.
Proof.
  unfold failed_writes. rewrite elem_of_flat_map. split.
  - intros ([n [e'|]] & Hin & Hne); simpl in Hne.
    + apply list_elem_of_singleton in Hne. by simplify_eq.
    + by apply elem_of_nil in Hne.
  - intros Hin. exists (name, Some e). split; [done|]. simpl. by left.
Qed.

Lemma failed_writes_nil (out : list (string * option error)) :
  failed_writes out = [] <-> forall no, no ∈ out -> no.2 = None.
Proof.
  split.
  - intros Hnil [n [e|]] Hin; [|done].
    apply elem_of_failed_writes in Hin. rewrite Hnil in Hin.
    by apply elem_of_nil in Hin.
  - intros Hall. destruct (failed_writes out) as [|[n e] l] eqn:Hf; [done|].
    assert ((n, e) ∈ failed_writes out) as Hin by (rewrite Hf; by left).
    apply elem_of_failed_writes, Hall in Hin. done.
Qed.

(** C5: [ClearAllCaches] is best effort.  [ClearCache] is called once on
    every available backend, whatever the other calls return; the result
    is nil exactly when every call succeeded, and otherwise one error
    that lists, for every backend that failed, its name and its error;
    the world left behind is the one the calls produced one after the
    other, those that succeeded included: nothing is undone. *)
Theorem ClearAllCaches_best_effort (σ : Schedule) (f : ManagerFactory.t W)
    (st : State W) :
  let w := world st in
  let l := finish_order σ f w in
  let out := outcomes PackageManager.ClearCache l w in
  exists r st',
    CacheService.ClearAllCaches σ f st = (r, st') /\
    l ≡ₚ map_to_list (available_in w f) /\
    calls st' =
      calls st ++ probe_calls σ f ++ map (fun nm => (nm.1, OpClearCache)) l /\
    world st' = world_after PackageManager.ClearCache l w /\
    (r = None <-> forall no, no ∈ out -> no.2 = None) /\
    (forall name e, (name, Some e) ∈ out ->
       exists errs,
         r = Some (ErrorfV "failed to clear some caches: " errs) /\
         ErrorfW "failed to clear cache for " name e ∈ errs) /\
    (forall errs err,
       r = Some (ErrorfV "failed to clear some caches: " errs) ->
       err ∈ errs ->
       exists name e,
         err = ErrorfW "failed to clear cache for " name e /\
         (name, Some e) ∈ out).
Proof.
  intros w l out. eexists _, _. split; [apply ClearAllCaches_run|].
  fold w l out. cbn [world calls logs].
  split; [apply finish_order_perm|].
  split; [done|]. split; [done|].
  split; [|split].
  - rewrite <- failed_writes_nil. unfold combined_error.
    destruct (failed_writes out); split; done.
  - intros name e Hin. apply elem_of_failed_writes in Hin.
    unfold combined_error.
    destruct (failed_writes out) as [|x fl] eqn:Hf;
      [by apply elem_of_nil in Hin|].
    eexists. split; [done|].
    apply list_elem_of_fmap. by exists (name, e).
  - intros errs err Hr Herr. unfold combined_error in Hr.
    destruct (failed_writes out) as [|x fl] eqn:Hf; [done|].
    injection Hr as <-.
    change (err ∈ map (gathered_error "failed to clear cache for ") (x :: fl))
      in Herr.
    apply list_elem_of_fmap in Herr as ([name e] & -> & Hin).
    exists name, e. split; [done|].
    apply elem_of_failed_writes. by rewrite Hf.
Qed.

(** C6: a URL is validated before any backend is reached.  For a registry
    URL that is empty or malformed, [SetRegistryForAll] and [SetRegistry]
    return a [ValidationError] and leave the state as it was: no call is
    made, not even a probe.  The same holds for [SetProxyForAll] and
    [SetProxy] on a malformed proxy URL that is not empty; the empty proxy
    URL passes and is handed to the backends. *)
Theorem url_validated_before_backends (σ : Schedule)
    (f : ManagerFactory.t W) (managerName url : string) (st : State W) :
  (url = "" \/ malformed_url url ->
     (exists msg,
        ConfigService.SetRegistryForAll σ f url st =
        (Some (ValidationError "registry" url msg), st)) /\
     (exists msg,
        ConfigService.SetRegistry f managerName url st =
        (Some (ValidationError "registry" url msg), st))) /\
  (url <> "" -> malformed_url url ->
     (exists msg,
        ConfigService.SetProxyForAll σ f url st =
        (Some (ValidationError "proxy" url msg), st)) /\
     (exists msg,
        ConfigService.SetProxy f managerName url st =
        (Some (ValidationError "proxy" url msg), st))) /\
  (exists r st',
     ConfigService.SetProxyForAll σ f "" st = (r, st') /\
     calls st' =
       calls st ++ probe_calls σ f
       ++ map (fun nm => (nm.1, OpSetProxy ""))
            (finish_order σ f (world st))) /\
  (forall mgr,
     ManagerFactory.managers f !! managerName = Some mgr ->
     PackageManager.IsAvailable mgr (world st) = true ->
     exists st',
       ConfigService.SetProxy f managerName "" st =
       ((PackageManager.SetProxy mgr (world st) "").1, st') /\
       calls st' =
         calls st ++ [(managerName, OpIsAvailable);
                      (managerName, OpSetProxy "")]).
Proof.
  split; [|split; [|split]].
  - intros Hbad.
    destruct (ValidateRegistryURL_refuses url Hbad) as [msg Hmsg].
    unfold ConfigService.SetRegistryForAll, ConfigService.SetRegistry.
    rewrite Hmsg. split; by exists msg.
  - intros Hne Hbad.
    destruct (check_proxy_refuses url Hne Hbad) as [msg Hmsg].
    unfold ConfigService.SetProxyForAll, ConfigService.SetProxy.
    rewrite Hmsg. split; by exists msg.
  - eexists _, _. split; [by apply SetProxyForAll_run|]. done.
  - intros mgr Hmgr Hav.
    unfold ConfigService.SetProxy, ManagerFactory.GetManager.
    cbn [ConfigService.check_proxy String.eqb negb]. rewrite Hmgr.
    unfold bind at 1, call_read at 1. rewrite Hav.
    cbn [negb world calls logs]. cbv beta iota.
    unfold bind at 1, call_write at 1. cbn [world calls logs].
    destruct (PackageManager.SetProxy mgr (world st) "") as [[err|] w'];
      cbn [fst].
    + eexists. split; [done|]. cbn [calls]. by rewrite <- app_assoc.
    + unfold bind, ConfigService.log_proxy_change, log, ret.
      cbn [String.eqb world calls logs].
      eexists. split; [done|]. cbn [calls]. by rewrite <- app_assoc.
Qed.

(** C7: for a name that is not registered, [GetCacheInfo] returns the
    error [GetManager] builds with [fmt.Errorf], whatever is registered
    and whatever is available, and probes or calls no backend.  That
    error is a bare message and not [core.ErrManagerNotFound]:
    [errors.Is] does not find the variable in it, it unwraps to nothing,
    it is no [ManagerError], and its text is not the text of the
    variable.  The path beside it, for a manager that is registered and
    not available, does return its variable, [core.ErrManagerNotAvailable],
    inside a [ManagerError]. *)
Theorem GetCacheInfo_unknown_manager_misses_ErrManagerNotFound
    (f : ManagerFactory.t W) (name : string) (st : State W) :
  ManagerFactory.managers f !! name = None ->
  exists e,
    CacheService.GetCacheInfo f name st = (Err e, st) /\
    e = Errorf ("package manager '" +:+ name +:+ "' not found") /\
    errors_Is ErrManagerNotFound e = false /\
    is_sentinel ErrManagerNotFound e = false /\
    Unwrap e = None /\
    IsManagerError e = false /\
    Error e <> Error (Predefined ErrManagerNotFound) /\
    forall other manager,
      ManagerFactory.managers f !! other = Some manager ->
      PackageManager.IsAvailable manager (world st) = false ->
      exists e',
        (CacheService.GetCacheInfo f other st).1 = Err e' /\
        errors_Is ErrManagerNotAvailable e' = true /\
        Unwrap e' = Some (Predefined ErrManagerNotAvailable).
Proof.
  intros Hnone. eexists. split; [|split; [reflexivity|]].
  - unfold CacheService.GetCacheInfo, ManagerFactory.GetManager.
    by rewrite Hnone.
  - do 4 (split; [done|]). split; [by cbn|].
    intros other manager Hreg Hav.
    unfold CacheService.GetCacheInfo, ManagerFactory.GetManager.
    rewrite Hreg. unfold bind, call_read. cbn [world calls logs].
    rewrite Hav. by eexists.
Qed.
End AggregateWrites.

(** ** The largest cache of [GetCacheStats] *)
Section LargestCache.
Import CacheService.

Lemma GetCacheStats_step_largest (l : list CacheInfo.t) :
  largest_of l (fold_left GetCacheStats_step l stats0).
Proof.
  induction l as [|x l IH] using rev_ind.
  - split; [by intros c ?%elem_of_nil|]. by left.
  - rewrite fold_left_app. simpl.
    set (stats := fold_left GetCacheStats_step l stats0) in *.
    destruct IH as [Hmax Hwho].
    unfold largest_of, GetCacheStats_step. simpl.
    destruct (Z.ltb_spec (Size (LargestCache stats)) (CacheInfo.Size x))
      as [Hlt|Hge]; simpl.
    + split.
      * intros c [Hc|Hc]%elem_of_app.
        -- specialize (Hmax c Hc). lia.
        -- apply list_elem_of_singleton in Hc as ->. lia.
      * right. split.
        { destruct Hwho as [[Hz _]|[? _]]; lia. }
        exists l, x, []. repeat split; [done..|].
        intros c' Hc'. specialize (Hmax c' Hc'). lia.
    + split.
      * intros c [Hc|Hc]%elem_of_app; [by apply Hmax|].
        by apply list_elem_of_singleton in Hc as ->.
      * destruct Hwho as [Hzero|(Hpos & pre & c & post & -> & Hc)];
          [by left|right].
        split; [done|]. exists pre, c, (post ++ [x]).
        by rewrite <- app_assoc.
Qed.
End LargestCache.

Section CacheSummary.
Context {W : Type} `{!Platform W}.

(** C9, as amended: the largest cache of [GetCacheSummary] is a maximum
    over the name-sorted list of [GetAllCacheInfo] seeded with size 0 and
    no manager.  When some cache has a positive size, [LargestCacheSize]
    is the largest size and [LargestCacheManager] is the alphabetically
    first manager attaining it; when no size is positive,
    [LargestCacheSize] is 0 and [LargestCacheManager] is empty. *)
Theorem GetCacheSummary_largest_cache (σ : Schedule)
    (f : ManagerFactory.t W) (st : State W) :
  exists infos st1 summary st2,
    CacheService.GetAllCacheInfo σ f st = (Ok infos, st1) /\
    CacheService.GetCacheSummary σ f st = (Ok summary, st2) /\
    ((exists c, c ∈ infos /\ 0 < CacheInfo.Size c) ->
       (forall c, c ∈ infos ->
          CacheInfo.Size c
          <= CacheService.CacheSummary.LargestCacheSize summary) /\
       exists c,
         c ∈ infos /\
         CacheInfo.Size c
         = CacheService.CacheSummary.LargestCacheSize summary /\
         CacheInfo.Manager c
         = CacheService.CacheSummary.LargestCacheManager summary /\
         forall c', c' ∈ infos ->
           CacheInfo.Size c'
           = CacheService.CacheSummary.LargestCacheSize summary ->
           (CacheInfo.Manager c ≤ CacheInfo.Manager c')%string) /\
    ((forall c, c ∈ infos -> CacheInfo.Size c <= 0) ->
       CacheService.CacheSummary.LargestCacheSize summary = 0 /\
       CacheService.CacheSummary.LargestCacheManager summary = "").
Proof.
  unfold CacheService.GetCacheSummary, CacheService.GetCacheStats.
  unfold bind at 1. unfold bind at 1. rewrite GetAllCacheInfo_run.
  cbv beta iota. unfold ret at 1. unfold bind at 1.
  set (infos := sort_Slice _ _).
  match goal with
  | |- context [ManagerFactory.GetAvailableManagerNames σ f ?s] =>
      destruct (ManagerFactory.GetAvailableManagerNames σ f s)
        as [names st2]
  end.
  unfold ret.
  eexists infos, _, _, st2. split; [reflexivity|]. split; [reflexivity|].
  cbn [CacheService.CacheSummary.LargestCacheSize
       CacheService.CacheSummary.LargestCacheManager].
  assert (Hsorted : sorted_by CacheInfo.Manager infos)
    by (by apply sort_Slice_sorted).
  destruct (GetCacheStats_step_largest infos) as [Hmax Hwho].
  fold stats0. set (stats := fold_left _ infos stats0) in *.
  split.
  - intros (c0 & Hc0 & Hpos). split; [exact Hmax|].
    destruct Hwho as [[Hzero _]|(_ & pre & c & post & Hl & Hsize & Hname & Hpre)].
    { specialize (Hmax c0 Hc0). lia. }
    exists c. split; [rewrite Hl; apply elem_of_app; right; by left|].
    split; [done|]. split; [done|].
    intros c' Hc' Hsize'. rewrite Hl in Hc'.
    apply elem_of_app in Hc' as [Hc'|Hc'].
    { specialize (Hpre c' Hc'). lia. }
    apply elem_of_cons in Hc' as [->|Hc']; [done|].
    unfold sorted_by in Hsorted. rewrite Hl in Hsorted.
    apply StronglySorted_app in Hsorted as (_ & _ & Hsorted).
    apply StronglySorted_inv in Hsorted as [_ Hall].
    by eapply Forall_forall in Hall.
  - intros Hall.
    destruct Hwho as [Hzero|(Hpos & pre & c & post & Hl & Hsize & _)];
      [done|].
    assert (c ∈ infos) as Hc
      by (rewrite Hl; apply elem_of_app; right; by left).
    specialize (Hall c Hc). lia.
Qed.

End CacheSummary.

(** C9, as first stated, fails: with npm alone and an empty npm cache the
    list of [GetAllCacheInfo] is not empty, yet the summary names no
    manager of the list as the largest. *)
Lemma GetCacheSummary_names_no_manager_for_empty_caches :
  exists infos summary,
    (CacheService.GetAllCacheInfo Demo.in_order Demo.npm_only Demo.start).1
    = Ok infos /\
    infos <> [] /\
    (CacheService.GetCacheSummary Demo.in_order Demo.npm_only Demo.start).1
    = Ok summary /\
    ~ exists c,
        c ∈ infos /\
        CacheInfo.Size c
        = CacheService.CacheSummary.LargestCacheSize summary /\
        CacheInfo.Manager c
        = CacheService.CacheSummary.LargestCacheManager summary.
Proof.
  eexists _, _. split; [vm_compute; reflexivity|].
  split; [done|]. split; [vm_compute; reflexivity|].
  intros (c & Hc & _ & Hname).
  apply list_elem_of_singleton in Hc as ->. discriminate Hname.
Qed.


(** ** The one-level dependency tree *)
Section Dependencies.
Context {W : Type} `{!Platform W}.

(** C8: for a project whose manifest declares the dependency map [D] and
    the devDependencies map [DD], [GetProjectDependencies] returns a root
    of depth 0 whose children are one node for every entry of [D], not
    flagged as development dependencies, followed by one node for every
    entry of [DD], flagged; every child has depth 1 and no children, so
    there are [|D| + |DD|] of them; the state is left as it was: no
    backend is called. *)
Theorem GetProjectDependencies_one_level (σ : Schedule)
    (projectPath : string) (packageJson : PackageJsonInfo.t)
    (st : State W) :
  projectPath <> "" ->
  utils.IsFile (world st) (filepath_Join projectPath "package.json") = true ->
  ProjectService.readPackageJson (world st)
    (filepath_Join projectPath "package.json") = Ok packageJson ->
  let D := PackageJsonInfo.Dependencies packageJson in
  let DD := PackageJsonInfo.DevDependencies packageJson in
  let entry := fun c => (DependencyTree.Name c, DependencyTree.Version c) in
  exists root deps devs,
    ProjectService.GetProjectDependencies σ projectPath st = (Ok root, st) /\
    DependencyTree.Name root = PackageJsonInfo.Name packageJson /\
    DependencyTree.Version root = PackageJsonInfo.Version packageJson /\
    DependencyTree.Depth root = 0 /\
    DependencyTree.Dependencies root = deps ++ devs /\
    length (DependencyTree.Dependencies root) = (size D + size DD)%nat /\
    map entry deps ≡ₚ map_to_list D /\
    map entry devs ≡ₚ map_to_list DD /\
    Forall (fun c => DependencyTree.DevDependency c = false) deps /\
    Forall (fun c => DependencyTree.DevDependency c = true) devs /\
    Forall (fun c => DependencyTree.Depth c = 1 /\
                     DependencyTree.Dependencies c = []) (deps ++ devs).
Proof.
  intros Hpath Hfile Hread D DD entry.
  unfold ProjectService.GetProjectDependencies.
  rewrite decide_False by done.
  unfold bind at 1, read_world at 1. rewrite Hfile.
  cbn [negb]. cbv beta iota.
  unfold bind at 1, read_world at 1. rewrite Hread. unfold ret.
  eexists _, _, _. split; [reflexivity|].
  cbn [DependencyTree.Name DependencyTree.Version DependencyTree.Depth
       DependencyTree.Dependencies].
  fold D DD.
  assert (Hentry : forall dev (l : list (string * string)),
    map entry (map (ProjectService.dependency_node dev) l) = l).
  { intros dev l. rewrite map_map. induction l as [|[n v] l IH]; [done|].
    simpl. by rewrite IH. }
  repeat split.
  - rewrite length_app, !length_map.
    rewrite !(Permutation_length (order_perm σ _ _ _)).
    by rewrite !length_map_to_list.
  - rewrite Hentry. apply order_perm.
  - rewrite Hentry. apply order_perm.
  - apply Forall_forall. intros c Hc%list_elem_of_In%in_map_iff.
    by destruct Hc as (x & <- & _).
  - apply Forall_forall. intros c Hc%list_elem_of_In%in_map_iff.
    by destruct Hc as (x & <- & _).
  - apply Forall_forall. intros c [Hc|Hc]%elem_of_app.
    + apply list_elem_of_In, in_map_iff in Hc. by destruct Hc as (x & <- & _).
    + apply list_elem_of_In, in_map_iff in Hc. by destruct Hc as (x & <- & _).
Qed.
End Dependencies.

(** ** [removeDuplicatePackages] *)
Section Dedup.
Import PackageService.

Lemma removeDuplicatePackages_seen (l : list Package.t) (k : string) :
  (fold_left removeDuplicatePackages_step l (∅, [])).1 !! k =
  if decide (k ∈ map package_key l) then Some true else None.
Proof.
  induction l as [|p l IH] using rev_ind.
  - cbn [fold_left fst map]. rewrite lookup_empty.
    case_decide as Hin; [by apply elem_of_nil in Hin|done].
  - rewrite fold_left_app, map_app. cbn [fold_left map].
    destruct (fold_left removeDuplicatePackages_step l (∅, []))
      as [seen unique] eqn:Hfold.
    cbn [fst] in IH. unfold removeDuplicatePackages_step.
    assert (k ∈ map package_key l ++ [package_key p]
            <-> k ∈ map package_key l \/ k = package_key p) as Hiff.
    { by rewrite elem_of_app, list_elem_of_singleton. }
    destruct (decide (k = package_key p)) as [->|Hk].
    + rewrite (decide_True (P := _ ∈ _ ++ _)) by (apply Hiff; by right).
      destruct (seen !! package_key p) as [[|]|] eqn:Hseen;
        simpl; by rewrite ?lookup_insert_eq.
    + destruct (negb (default false (seen !! package_key p))); simpl;
        rewrite ?lookup_insert_ne by done; rewrite IH;
        repeat case_decide; try done; tauto.
Qed.

(** A record is dropped exactly when an earlier record has its key. *)
Lemma removeDuplicatePackages_snoc (l : list Package.t) (p : Package.t) :
  removeDuplicatePackages (l ++ [p]) =
  if decide (package_key p ∈ map package_key l)
  then removeDuplicatePackages l
  else removeDuplicatePackages l ++ [p].
Proof.
  unfold removeDuplicatePackages. rewrite fold_left_app. simpl.
  pose proof (removeDuplicatePackages_seen l (package_key p)) as Hseen.
  destruct (fold_left removeDuplicatePackages_step l (∅, []))
    as [seen unique].
  simpl in *. rewrite Hseen.
  by destruct (decide (package_key p ∈ map package_key l)).
Qed.

Lemma removeDuplicatePackages_elem_of (l : list Package.t) (p : Package.t) :
  p ∈ removeDuplicatePackages l -> p ∈ l.
Proof.
  induction l as [|x l IH] using rev_ind; [done|].
  rewrite removeDuplicatePackages_snoc, elem_of_app.
  destruct (decide (package_key x ∈ map package_key l));
    [intros Hp; left; by apply IH|].
  intros [Hp|Hp]%elem_of_app; [left; by apply IH|by right].
Qed.

Lemma removeDuplicatePackages_keys (l : list Package.t) (k : string) :
  k ∈ map package_key (removeDuplicatePackages l) <-> k ∈ map package_key l.
Proof.
  induction l as [|x l IH] using rev_ind; [done|].
  rewrite removeDuplicatePackages_snoc.
  destruct (decide (package_key x ∈ map package_key l)) as [Hin|Hnin].
  - rewrite IH, map_app, elem_of_app. simpl.
    rewrite list_elem_of_singleton. split; [tauto|]. by intros [?| ->].
  - by rewrite !map_app, !elem_of_app, IH.
Qed.

Lemma removeDuplicatePackages_NoDup_keys (l : list Package.t) :
  NoDup (map package_key (removeDuplicatePackages l)).
Proof.
  induction l as [|x l IH] using rev_ind; [constructor|].
  rewrite removeDuplicatePackages_snoc.
  destruct (decide (package_key x ∈ map package_key l)) as [Hin|Hnin];
    [exact IH|].
  rewrite map_app. apply NoDup_app. split; [exact IH|].
  split; [|apply NoDup_singleton].
  intros k Hk Hx. simpl in Hx. apply list_elem_of_singleton in Hx as ->.
  apply Hnin. by apply removeDuplicatePackages_keys.
Qed.

(** No two records of the result share a triple. *)
Lemma removeDuplicatePackages_NoDup_triples (l : list Package.t) :
  NoDup (map triple (removeDuplicatePackages l)).
Proof.
  pose proof (removeDuplicatePackages_NoDup_keys l) as Hnd.
  induction (removeDuplicatePackages l) as [|x u IH]; [constructor|].
  simpl in *. apply NoDup_cons in Hnd as [Hx Hnd].
  apply NoDup_cons. split; [|by apply IH].
  intros Hin. apply Hx.
  apply list_elem_of_fmap in Hin as (y & Hxy & Hy).
  apply list_elem_of_fmap. exists y. split; [|done].
  unfold triple in Hxy. injection Hxy as Hn Hv Hm.
  unfold package_key. by rewrite Hn, Hv, Hm.
Qed.

(** C3: the code drops a record whose (name, version, manager) triple no
    earlier record has.  The key ["%s@%s:%s"] is the same string for the
    name [alias] with the version [npm:lodash@4.17.21] and for the name
    [alias@npm:lodash] with the version [4.17.21]: of these two records
    of one manager only the first comes back. *)
Theorem removeDuplicatePackages_conflates_distinct_triples :
  let p1 := Demo.package "alias" "npm:lodash@4.17.21" "npm" in
  let p2 := Demo.package "alias@npm:lodash" "4.17.21" "npm" in
  triple p1 <> triple p2 /\
  package_key p1 = package_key p2 /\
  removeDuplicatePackages [p1; p2] = [p1].
Proof. repeat split; [discriminate|vm_compute; reflexivity..]. Qed.
End Dedup.

(** ** Merging the records of one path *)
Section Merge.
Import ProjectService.


(** *** Slices that share no array *)












(** *** The merge in memory *)










Lemma merged_with_unshared (existing project : Project.t) :
  unshared (merged_with existing project).
Proof. done. Qed.


(** *** The merged list *)







End Merge.

Section ScanProjects.
Context {W : Type} `{!Platform W}.

End ScanProjects.

(** ** The statements on the small installation *)

Lemma aggregate_reads_absorb_backend_errors_witness :
  exists pkgs st',
    PackageService.GetAllPackages Demo.reversed Demo.factory "/work"
      Demo.start = (Ok pkgs, st') /\
    world st' = world Demo.start.
Proof.
  destruct (aggregate_reads_absorb_backend_errors Demo.reversed Demo.factory
              Demo.start) as [Hpkgs _].
  destruct (Hpkgs "/work") as (pkgs & st' & Hrun & _ & Hworld & _);
    [discriminate|].
  exists pkgs, st'. split; [exact Hrun|exact Hworld].
Defined.

Lemma aggregate_results_sorted_witness :
  exists projects st',
    ProjectService.ScanProjects Demo.reversed Demo.factory "/work" Demo.start
    = (Ok projects, st') /\
    sorted_by Project.Path projects.
Proof.
  destruct (aggregate_results_sorted Demo.reversed Demo.factory Demo.start)
    as (_ & _ & _ & _ & Hscan).
  apply (Hscan "/work" "/work"); [discriminate|vm_compute; reflexivity..].
Defined.

Lemma GetAllCacheInfo_all_backends_fail_witness :
  exists st',
    CacheService.GetAllCacheInfo Demo.in_order Demo.broken_factory Demo.start
    = (Ok [], st') /\
    world st' = world Demo.start.
Proof.
  apply (GetAllCacheInfo_all_backends_fail Demo.in_order Demo.broken_factory
           Demo.start).
  intros name mgr Hlook Hav.
  unfold Demo.broken_factory in Hlook. cbn [ManagerFactory.managers] in Hlook.
  apply lookup_insert_Some in Hlook as [[_ <-]|[_ Hlook]];
    [by eexists|].
  apply lookup_insert_Some in Hlook as [[_ <-]|[_ Hlook]];
    [discriminate Hav|].
  by rewrite lookup_empty in Hlook.
Defined.

Lemma url_validated_before_backends_witness :
  (exists msg,
     ConfigService.SetRegistryForAll Demo.in_order Demo.factory "not-a-url"
       Demo.start
     = (Some (ValidationError "registry" "not-a-url" msg), Demo.start)) /\
  (exists msg,
     ConfigService.SetRegistry Demo.factory "npm" "not-a-url" Demo.start
     = (Some (ValidationError "registry" "not-a-url" msg), Demo.start)).
Proof.
  destruct (url_validated_before_backends Demo.in_order Demo.factory "npm"
              "not-a-url" Demo.start) as [Hreg _].
  apply Hreg. right. right.
  exists {| URL.Scheme := ""; URL.Host := "" |}.
  split; [reflexivity|]. by right.
Defined.

Lemma GetCacheInfo_unknown_manager_misses_ErrManagerNotFound_witness :
  exists e,
    CacheService.GetCacheInfo Demo.factory "doesnotexist" Demo.start
    = (Err e, Demo.start) /\
    e = Errorf "package manager 'doesnotexist' not found" /\
    errors_Is ErrManagerNotFound e = false.
Proof.
  destruct (GetCacheInfo_unknown_manager_misses_ErrManagerNotFound
              Demo.factory "doesnotexist" Demo.start)
    as (e & Hrun & He & His & _); [vm_compute; reflexivity|].
  exists e. split; [exact Hrun|]. split; [exact He|exact His].
Defined.

Lemma GetProjectDependencies_one_level_witness :
  exists root,
    ProjectService.GetProjectDependencies Demo.reversed "/work" Demo.start
    = (Ok root, Demo.start) /\
    DependencyTree.Depth root = 0 /\
    length (DependencyTree.Dependencies root) = 4%nat.
Proof.
  destruct (GetProjectDependencies_one_level Demo.reversed "/work"
              Demo.manifest Demo.start)
    as (root & deps & devs & Hrun & _ & _ & Hdepth & _ & Hlen & _);
    [discriminate|vm_compute; reflexivity|vm_compute; reflexivity|].
  exists root. split; [exact Hrun|]. split; [exact Hdepth|].
  rewrite Hlen. vm_compute. reflexivity.
Defined.

Lemma GetCacheSummary_largest_cache_witness :
  exists summary st2,
    CacheService.GetCacheSummary Demo.in_order Demo.factory Demo.start
    = (Ok summary, st2) /\
    CacheService.CacheSummary.LargestCacheSize summary = 2048 /\
    CacheService.CacheSummary.LargestCacheManager summary = "bun".
Proof.
  destruct (GetCacheSummary_largest_cache Demo.in_order Demo.factory
              Demo.start)
    as (infos & st1 & summary & st2 & Hinfos & Hrun & Hpos & _).
  exists summary, st2. split; [exact Hrun|].
  apply (f_equal fst) in Hinfos. vm_compute in Hinfos.
  injection Hinfos as <-.
  destruct Hpos as [Hmax (c & Hc & Hsize & Hname & _)].
  { eexists. split; [left|]. reflexivity. }
  apply elem_of_cons in Hc as [->|Hc].
  - split; [symmetry; exact Hsize|symmetry; exact Hname].
  - apply list_elem_of_singleton in Hc as ->.
    specialize (Hmax _ (list_elem_of_here _ _)).
    rewrite <- Hsize in Hmax. cbn [CacheInfo.Size] in Hmax. lia.
Defined.



(** Both schedules give the same merged project: the managers of npm and
    bun, and bun's lock file since npm reports none; the order of the
    managers is the order in which the two tasks finished. *)
Example demo_ScanProjects :
  (ProjectService.ScanProjects Demo.in_order Demo.factory "/work"
     Demo.start).1 =
  Ok [ {| Project.Name := "app"; Project.Path := "/work/app";
          Project.Managers := ["npm"; "bun"];
          Project.ManagersArray := None;
          Project.PackageFile := "/work/app/package.json";
          Project.LockFile := "bun.lock";
          Project.NodeModules := "/work/app/node_modules" |} ] /\
  (ProjectService.ScanProjects Demo.reversed Demo.factory "/work"
     Demo.start).1 =
  Ok [ {| Project.Name := "app"; Project.Path := "/work/app";
          Project.Managers := ["bun"; "npm"];
          Project.ManagersArray := None;
          Project.PackageFile := "/work/app/package.json";
          Project.LockFile := "bun.lock";
          Project.NodeModules := "/work/app/node_modules" |} ].
Proof. split; vm_compute; reflexivity. Qed.

(** Where two reported slices view one array with room to spare, the
    merge of one path writes into the record of the other: with the
    tasks finishing in the order lerna, bun, yarn, bun is appended to the
    second project, then yarn to the first, into the same cell, and the
    second project ends up with yarn, which nobody reported for it. *)
Example demo_shared_backing_array :
  map (fun r => (Project.Path r, Project.Managers r))
    (records_of
       (ProjectService.ScanProjects Demo.reversed Demo.workspace "/work"
          Demo.start).1) =
  [("/work/a", ["npm"; "yarn"]); ("/work/b", ["npm"; "yarn"])] /\
  map fst (finish_order Demo.reversed Demo.workspace (world Demo.start)) =
  ["lerna"; "bun"; "yarn"].
Proof. split; vm_compute; reflexivity. Qed.

(** [ClearAllCaches] on the small installation: yarn fails and is named
    in the error; the caches of npm and bun stay cleared. *)
Example demo_ClearAllCaches :
  let '(r, st') :=
    CacheService.ClearAllCaches Demo.in_order Demo.factory Demo.start in
  r = Some (ErrorfV "failed to clear some caches: "
              [ErrorfW "failed to clear cache for " "yarn"
                 (Demo.broken "yarn" "clear cache")]) /\
  option_map Error r =
    Some "failed to clear some caches: [failed to clear cache for yarn: yarn clear cache: exit status 1]" /\
  (CacheService.GetCacheInfo Demo.factory "bun" st').1 =
    Ok {| CacheInfo.Manager := "bun"; CacheInfo.Path := "/cache/bun";
          CacheInfo.Size := 0; CacheInfo.FileCount := 1;
          CacheInfo.LastUpdated := 0 |} /\
  calls st' =
    [("yarn", OpIsAvailable); ("npm", OpIsAvailable); ("bun", OpIsAvailable);
     ("pnpm", OpIsAvailable); ("yarn", OpClearCache); ("npm", OpClearCache);
     ("bun", OpClearCache)].
Proof. vm_compute. repeat split. Qed.

(** [GetAllPackages] on the small installation: yarn answers
    [ErrProjectNotFound] and is passed over with a debug line only. *)
Example demo_GetAllPackages :
  let '(r, st') :=
    PackageService.GetAllPackages Demo.in_order Demo.factory "/work"
      Demo.start in
  option_map (map triple)
    (match r with Ok l => Some l | Err _ => None end) =
    Some [("lodash", "4.17.21", "npm"); ("lodash", "4.17.21", "bun");
          ("react", "18.2.0", "npm"); ("react", "18.2.0", "bun")] /\
  map (fun e => (level e, message e)) (logs st') =
    [(LevelDebug, "No project found for this manager")].
Proof. vm_compute. repeat split. Qed.

(** * Further properties of the embedded code *)

(** ** The registry of managers *)
Section RegistryFacts.
Context {W : Type}.

(** X1: a manager registered under a free name is what [GetManager]
    returns for that name afterwards; the other names are as before, and
    unregistering the name gives back the factory registration started
    from. *)
Theorem RegisterManager_round_trip (f : ManagerFactory.t W) (name : string)
    (manager : PackageManager.t W) :
  ManagerFactory.managers f !! name = None ->
  exists f',
    ManagerFactory.RegisterManager f name manager = (None, f') /\
    ManagerFactory.GetManager f' name = Ok manager /\
    (forall other, other <> name ->
       ManagerFactory.GetManager f' other = ManagerFactory.GetManager f other) /\
    ManagerFactory.GetManagerCount f' = ManagerFactory.GetManagerCount f + 1 /\
    ManagerFactory.UnregisterManager f' name = (None, f).
Proof.
  intros Hfree. unfold ManagerFactory.RegisterManager. rewrite Hfree.
  eexists. split; [reflexivity|].
  unfold ManagerFactory.GetManager, ManagerFactory.UnregisterManager,
    ManagerFactory.GetManagerCount.
  cbn [ManagerFactory.managers]. rewrite lookup_insert_eq.
  split; [done|]. split; [|split].
  - intros other Hother. by rewrite lookup_insert_ne.
  - rewrite map_size_insert_None by done. lia.
  - rewrite delete_insert_id by done. by destruct f.
Qed.

(** X2: a name that is registered cannot be registered again: the call
    fails and the factory, with the manager it holds for the name, stays
    as it was.  Unregistering the name removes it alone, after which
    [GetManager] fails for it, and registering the removed manager again
    restores the factory. *)
Theorem UnregisterManager_round_trip (f : ManagerFactory.t W) (name : string)
    (manager other_manager : PackageManager.t W) :
  ManagerFactory.managers f !! name = Some manager ->
  ManagerFactory.RegisterManager f name other_manager
    = (Some (Errorf ("package manager '" +:+ name +:+ "' already registered")),
       f) /\
  exists f',
    ManagerFactory.UnregisterManager f name = (None, f') /\
    ManagerFactory.GetManager f' name
      = Err (Errorf ("package manager '" +:+ name +:+ "' not found")) /\
    (forall other, other <> name ->
       ManagerFactory.GetManager f' other = ManagerFactory.GetManager f other) /\
    ManagerFactory.UnregisterManager f' name
      = (Some (Errorf ("package manager '" +:+ name +:+ "' not found")), f') /\
    ManagerFactory.RegisterManager f' name manager = (None, f).
Proof.
  intros Hreg.
  unfold ManagerFactory.RegisterManager, ManagerFactory.UnregisterManager,
    ManagerFactory.GetManager.
  rewrite Hreg. split; [done|].
  eexists. split; [reflexivity|]. cbn [ManagerFactory.managers].
  rewrite lookup_delete_eq. split; [done|]. split; [|split; [done|]].
  - intros other Hother. by rewrite lookup_delete_ne.
  - rewrite insert_delete_id by done. by destruct f.
Qed.

(** X3: the factory [NewManagerFactory] builds knows exactly the names
    for which [ManagerType.IsValid] holds: npm, pnpm, yarn and bun. *)
Theorem NewManagerFactory_registers_valid_types
    (npm pnpm yarn bun : PackageManager.t W) (name : string) :
  let f := ManagerFactory.NewManagerFactory npm pnpm yarn bun in
  ManagerFactory.GetManagerCount f = 4 /\
  ((exists manager, ManagerFactory.GetManager f name = Ok manager) <->
   ManagerType.IsValid name = true) /\
  (ManagerFactory.ValidateManager f name = None <->
   ManagerType.IsValid name = true) /\
  ManagerFactory.GetManager f "npm" = Ok npm /\
  ManagerFactory.GetManager f "pnpm" = Ok pnpm /\
  ManagerFactory.GetManager f "yarn" = Ok yarn /\
  ManagerFactory.GetManager f "bun" = Ok bun.
Proof.
  intros f.
  assert (Hlook : ManagerFactory.managers f !! name =
    if String.eqb name "npm" then Some npm
    else if String.eqb name "pnpm" then Some pnpm
    else if String.eqb name "yarn" then Some yarn
    else if String.eqb name "bun" then Some bun
    else None).
  { unfold f, ManagerFactory.NewManagerFactory,
      ManagerFactory.registerManagers.
    cbn [ManagerFactory.managers].
    destruct (String.eqb_spec name "npm") as [->|Hnpm];
      [by rewrite !lookup_insert_ne, lookup_insert_eq by done|].
    destruct (String.eqb_spec name "pnpm") as [->|Hpnpm];
      [by rewrite !lookup_insert_ne, lookup_insert_eq by done|].
    destruct (String.eqb_spec name "yarn") as [->|Hyarn];
      [by rewrite !lookup_insert_ne, lookup_insert_eq by done|].
    destruct (String.eqb_spec name "bun") as [->|Hbun];
      [by rewrite lookup_insert_eq|].
    by rewrite !lookup_insert_ne, lookup_empty by done. }
  split; [|split; [|split]].
  - unfold f, ManagerFactory.NewManagerFactory,
      ManagerFactory.registerManagers, ManagerFactory.GetManagerCount.
    cbn [ManagerFactory.managers].
    rewrite !map_size_insert_None, map_size_empty;
      [done|by rewrite ?lookup_insert_ne, lookup_empty by done..].
  - unfold ManagerFactory.GetManager, ManagerType.IsValid,
      ManagerType.NPM, ManagerType.PNPM, ManagerType.YARN, ManagerType.BUN.
    rewrite Hlook.
    repeat (destruct (String.eqb name _); [split; [done|by eexists]|]).
    split; [by intros [? ?]|done].
  - unfold ManagerFactory.ValidateManager, ManagerType.IsValid,
      ManagerType.NPM, ManagerType.PNPM, ManagerType.YARN, ManagerType.BUN.
    rewrite Hlook.
    by repeat (destruct (String.eqb name _); [done|]).
  - unfold ManagerFactory.GetManager, f, ManagerFactory.NewManagerFactory,
      ManagerFactory.registerManagers.
    cbn [ManagerFactory.managers].
    by rewrite !lookup_insert_ne, !lookup_insert_eq by done.
Qed.
End RegistryFacts.

(** ** Operations on one manager *)
Section SingleManager.
Context {W : Type} `{!Platform W}.

(** X4: when [ValidateManagerName] returns nil for a name, the name is
    registered and its manager available, the world is untouched, and a
    [GetCacheInfo] or [ClearCache] for the name right after reaches the
    backend and returns its answer; the validators of the three services
    are the same function. *)
Theorem ValidateManagerName_nil (f : ManagerFactory.t W) (name : string)
    (st st' : State W) :
  CacheService.ValidateManagerName f name st = (None, st') ->
  exists manager,
    ManagerFactory.managers f !! name = Some manager /\
    PackageManager.IsAvailable manager (world st) = true /\
    world st' = world st /\
    calls st' = calls st ++ [(name, OpIsAvailable)] /\
    (CacheService.GetCacheInfo f name st').1
      = PackageManager.GetCacheInfo manager (world st) /\
    (CacheService.ClearCache f name st').1
      = (PackageManager.ClearCache manager (world st)).1 /\
    PackageService.ValidateManagerName f name st = (None, st') /\
    ConfigService.ValidateManagerName f name st = (None, st').
Proof.
  unfold CacheService.ValidateManagerName,
    PackageService.ValidateManagerName, ConfigService.ValidateManagerName,
    ManagerFactory.ValidateManager, ManagerFactory.IsManagerAvailable.
  destruct (ManagerFactory.managers f !! name) as [manager|] eqn:Hreg;
    [|done].
  unfold bind, call_read.
  destruct (PackageManager.IsAvailable manager (world st)) eqn:Hav;
    [|done].
  cbn [negb]. unfold ret. intros [= <-]. exists manager.
  split; [reflexivity|]. split; [exact Hav|]. split; [reflexivity|].
  split; [reflexivity|].
  unfold CacheService.GetCacheInfo, CacheService.ClearCache,
    ManagerFactory.GetManager.
  rewrite Hreg. unfold bind, call_read, call_write.
  cbn [world calls logs]. rewrite Hav. cbn [negb].
  split; [reflexivity|]. split; [|split; reflexivity].
  cbn [world calls logs].
  by destruct (PackageManager.ClearCache manager (world st)).
Qed.

(** X5: for a registered manager that is not available, the cache
    operations on that manager fail with a [ManagerError] that unwraps to
    [ErrManagerNotAvailable]; the manager is probed once and nothing
    else is called, so its cache is not cleared.  For an available
    manager the answer of the backend comes back as it is. *)
Theorem CacheService_single_manager (f : ManagerFactory.t W) (name : string)
    (manager : PackageManager.t W) (st : State W) :
  ManagerFactory.managers f !! name = Some manager ->
  let w := world st in
  let probed :=
    Build_State w (calls st ++ [(name, OpIsAvailable)]) (logs st) in
  let unavailable := fun op =>
    ManagerError name op (Predefined ErrManagerNotAvailable) in
  (forall op, errors_Is ErrManagerNotAvailable (unavailable op) = true /\
              IsManagerError (unavailable op) = true /\
              Unwrap (unavailable op)
              = Some (Predefined ErrManagerNotAvailable)) /\
  if PackageManager.IsAvailable manager w
  then
    CacheService.GetCacheInfo f name st
      = (PackageManager.GetCacheInfo manager w,
         Build_State w
           (calls st ++ [(name, OpIsAvailable); (name, OpGetCacheInfo)])
           (logs st)) /\
    CacheService.ClearCache f name st
      = ((PackageManager.ClearCache manager w).1,
         Build_State (PackageManager.ClearCache manager w).2
           (calls st ++ [(name, OpIsAvailable); (name, OpClearCache)])
           (logs st))
  else
    CacheService.GetCacheInfo f name st
      = (Err (unavailable "get cache info"), probed) /\
    CacheService.ClearCache f name st
      = (Some (unavailable "clear cache"), probed).
Proof.
  intros Hreg w probed unavailable. split; [done|].
  unfold CacheService.GetCacheInfo, CacheService.ClearCache,
    ManagerFactory.GetManager.
  rewrite Hreg. unfold bind, call_read, call_write. cbn [world calls logs].
  fold w. destruct (PackageManager.IsAvailable manager w) eqn:Hav;
    cbn [negb]; cbv beta iota; cbn [world calls logs]; [|done].
  rewrite <- !app_assoc. split; [done|].
  by destruct (PackageManager.ClearCache manager w).
Qed.

(** X6: the package listings of one manager follow the same rule: not
    available, a [ManagerError] around [ErrManagerNotAvailable] after the
    probe alone; available, the backend's answer as it is, a failure such
    as [ErrProjectNotFound] included (the aggregate listing would pass it
    over). *)
Theorem PackageService_single_manager (f : ManagerFactory.t W)
    (name projectPath : string) (manager : PackageManager.t W)
    (st : State W) :
  ManagerFactory.managers f !! name = Some manager ->
  let w := world st in
  let probed :=
    Build_State w (calls st ++ [(name, OpIsAvailable)]) (logs st) in
  let unavailable := fun op =>
    ManagerError name op (Predefined ErrManagerNotAvailable) in
  if PackageManager.IsAvailable manager w
  then
    PackageService.GetPackagesByManager f name projectPath st
      = (PackageManager.GetInstalledPackages manager w projectPath,
         Build_State w
           (calls st ++ [(name, OpIsAvailable);
                         (name, OpGetInstalledPackages projectPath)])
           (logs st)) /\
    PackageService.GetGlobalPackagesByManager f name st
      = (PackageManager.GetGlobalPackages manager w,
         Build_State w
           (calls st ++ [(name, OpIsAvailable); (name, OpGetGlobalPackages)])
           (logs st))
  else
    PackageService.GetPackagesByManager f name projectPath st
      = (Err (unavailable "get packages"), probed) /\
    PackageService.GetGlobalPackagesByManager f name st
      = (Err (unavailable "get global packages"), probed).
Proof.
  intros Hreg w probed unavailable.
  unfold PackageService.GetPackagesByManager,
    PackageService.GetGlobalPackagesByManager, ManagerFactory.GetManager.
  rewrite Hreg. unfold bind, call_read. cbn [world calls logs].
  fold w. destruct (PackageManager.IsAvailable manager w) eqn:Hav;
    cbn [negb]; cbv beta iota; cbn [world calls logs]; [|done].
  by rewrite <- !app_assoc.
Qed.

(** X7: the configuration of one manager likewise.  With a registry URL
    that passes validation, [SetRegistry] on a manager that is not
    available fails after the probe and leaves the world as it was; on an
    available manager it returns what the backend returns, and logs the
    update only when the backend succeeded. *)
Theorem ConfigService_single_manager (f : ManagerFactory.t W)
    (name registryURL : string) (manager : PackageManager.t W)
    (st : State W) :
  ManagerFactory.managers f !! name = Some manager ->
  ConfigService.ValidateRegistryURL registryURL = None ->
  let w := world st in
  let probed :=
    Build_State w (calls st ++ [(name, OpIsAvailable)]) (logs st) in
  let unavailable := fun op =>
    ManagerError name op (Predefined ErrManagerNotAvailable) in
  if PackageManager.IsAvailable manager w
  then
    ConfigService.GetConfig f name st
      = (PackageManager.GetConfig manager w,
         Build_State w
           (calls st ++ [(name, OpIsAvailable); (name, OpGetConfig)])
           (logs st)) /\
    exists st',
      ConfigService.SetRegistry f name registryURL st
        = ((PackageManager.SetRegistry manager w registryURL).1, st') /\
      world st' = (PackageManager.SetRegistry manager w registryURL).2 /\
      calls st'
        = calls st ++ [(name, OpIsAvailable);
                       (name, OpSetRegistry registryURL)] /\
      logs st'
        = logs st
          ++ match (PackageManager.SetRegistry manager w registryURL).1 with
             | Some _ => []
             | None =>
                 [log_entry LevelInfo "Registry updated"
                    [("service", LStr "config"); ("manager", LStr name);
                     ("registry", LStr registryURL)]]
             end
  else
    ConfigService.GetConfig f name st
      = (Err (unavailable "get config"), probed) /\
    ConfigService.SetRegistry f name registryURL st
      = (Some (unavailable "set registry"), probed).
Proof.
  intros Hreg Hvalid w probed unavailable.
  unfold ConfigService.GetConfig, ConfigService.SetRegistry,
    ManagerFactory.GetManager.
  rewrite Hreg, Hvalid. unfold bind, call_read, call_write, log, ret.
  cbn [world calls logs].
  fold w. destruct (PackageManager.IsAvailable manager w) eqn:Hav;
    cbn [negb]; cbv beta iota; cbn [world calls logs]; [|done].
  rewrite <- !app_assoc. split; [done|].
  destruct (PackageManager.SetRegistry manager w registryURL)
    as [[err|] w'] eqn:Hset; cbn [fst snd].
  - eexists. split; [reflexivity|]. cbn [world calls logs].
    by rewrite ?app_nil_r.
  - eexists. split; [reflexivity|]. by cbn [world calls logs].
Qed.
End SingleManager.

(** ** 64-bit counters *)

Lemma wrap64_in_range (z : Z) : in_int64 z -> wrap64 z = z.
Proof.
  unfold in_int64, wrap64. intros Hz.
  rewrite Z.mod_small by lia. lia.
Qed.

Lemma wrap64_add_l (a b : Z) : wrap64 (wrap64 a + b) = wrap64 (a + b).
Proof.
  unfold wrap64.
  replace ((a + 2 ^ 63) mod 2 ^ 64 - 2 ^ 63 + b + 2 ^ 63)
    with ((a + 2 ^ 63) mod 2 ^ 64 + b) by lia.
  rewrite Zplus_mod_idemp_l. do 2 f_equal. lia.
Qed.

Lemma fold_wrap64_sum {A} (g : A -> Z) (l : list A) (a : Z) :
  fold_left (fun t x => wrap64 (t + g x)) l (wrap64 a) =
  wrap64 (a + sum_Z (map g l)).
Proof.
  revert a. induction l as [|x l IH]; intros a; simpl.
  - by rewrite Z.add_0_r.
  - rewrite wrap64_add_l, IH. f_equal. lia.
Qed.

Lemma fold_wrap64_count {A} (test : A -> bool) (l : list A) (a : Z) :
  fold_left (fun n x => if test x then wrap64 (n + 1) else n) l (wrap64 a) =
  wrap64 (a + Z.of_nat (count_if test l)).
Proof.
  unfold count_if. revert a. induction l as [|x l IH]; intros a; simpl.
  - by rewrite Z.add_0_r.
  - destruct (test x); simpl.
    + rewrite wrap64_add_l, IH. f_equal. lia.
    + apply IH.
Qed.

(** ** The statistics of the cache service *)
Section CacheStatsFacts.
Context {W : Type} `{!Platform W}.
Import CacheService.

Lemma GetCacheStats_step_totals (l : list CacheInfo.t) (s : CacheStats) :
  TotalSize (fold_left GetCacheStats_step l s) =
    fold_left (fun t info => wrap64 (t + CacheInfo.Size info)) l (TotalSize s) /\
  TotalFiles (fold_left GetCacheStats_step l s) =
    fold_left (fun t info => wrap64 (t + CacheInfo.FileCount info)) l
      (TotalFiles s) /\
  ManagerCount (fold_left GetCacheStats_step l s) =
    fold_left (fun n (_ : CacheInfo.t) => wrap64 (n + 1)) l (ManagerCount s).
Proof.
  revert s. induction l as [|x l IH]; intros s; simpl; [done|].
  destruct (IH (GetCacheStats_step s x)) as (-> & -> & ->). done.
Qed.

(** X8: [GetTotalCacheSize] returns a nil error and the sum of the sizes
    of the records of [GetAllCacheInfo], wrapped to 64 bits; so do the
    [TotalSize] of [GetCacheStats] and of [GetCacheSummary], whose
    [TotalFiles] is the sum of the file counts and whose [ManagerCount]
    is the number of records.  When the sum of the sizes is an [int64]
    the total is the sum itself. *)
Theorem GetTotalCacheSize_is_the_sum (σ : Schedule) (f : ManagerFactory.t W)
    (st : State W) :
  exists infos st' summary st'',
    GetAllCacheInfo σ f st = (Ok infos, st') /\
    GetTotalCacheSize σ f st
      = (Ok (wrap64 (sum_Z (map CacheInfo.Size infos))), st') /\
    GetCacheSummary σ f st = (Ok summary, st'') /\
    CacheSummary.TotalSize summary
      = wrap64 (sum_Z (map CacheInfo.Size infos)) /\
    CacheSummary.TotalFiles summary
      = wrap64 (sum_Z (map CacheInfo.FileCount infos)) /\
    CacheSummary.ManagerCount summary = wrap64 (Z.of_nat (length infos)) /\
    (in_int64 (sum_Z (map CacheInfo.Size infos)) ->
     CacheSummary.TotalSize summary = sum_Z (map CacheInfo.Size infos)).
Proof.
  unfold GetTotalCacheSize, GetCacheSummary, GetCacheStats.
  unfold bind at 1 2 3. rewrite GetAllCacheInfo_run.
  cbv beta iota. unfold ret at 1 2. unfold bind at 1.
  set (infos := sort_Slice _ _).
  match goal with
  | |- context [ManagerFactory.GetAvailableManagerNames σ f ?s] =>
      destruct (ManagerFactory.GetAvailableManagerNames σ f s)
        as [names st2]
  end.
  unfold ret.
  pose proof (fold_wrap64_sum CacheInfo.Size infos 0) as Hsize.
  pose proof (fold_wrap64_sum CacheInfo.FileCount infos 0) as Hfiles.
  pose proof (fold_wrap64_sum (fun _ : CacheInfo.t => 1) infos 0) as Hcount.
  change (wrap64 0) with 0 in Hsize, Hfiles, Hcount.
  rewrite !Z.add_0_l in Hsize, Hfiles, Hcount.
  assert (Hones : sum_Z (map (fun _ : CacheInfo.t => 1) infos)
                  = Z.of_nat (length infos)).
  { clear. induction infos as [|x l IH]; [done|].
    simpl map. simpl length. unfold sum_Z in *. simpl. lia. }
  rewrite Hones in Hcount.
  eexists infos, _, _, st2.
  split; [reflexivity|]. split; [by rewrite Hsize|].
  split; [reflexivity|].
  cbn [CacheSummary.TotalSize CacheSummary.TotalFiles
       CacheSummary.ManagerCount].
  destruct (GetCacheStats_step_totals infos
              {| TotalSize := 0; TotalFiles := 0; ManagerCount := 0;
                 LargestCache := zero_CacheManagerStats;
                 LargestCacheManager := ""; Managers := ∅ |})
    as (-> & -> & ->).
  cbn [TotalSize TotalFiles ManagerCount].
  rewrite Hsize, Hfiles, Hcount.
  repeat split. intros Hrange. by apply wrap64_in_range.
Qed.

Lemma GetCacheStats_step_Managers (l : list CacheInfo.t) (m : string) :
  Managers (fold_left GetCacheStats_step l stats0) !! m =
  stats_of <$>
    last (List.filter (fun info => String.eqb (CacheInfo.Manager info) m) l).
Proof.
  induction l as [|x l IH] using rev_ind; [done|].
  rewrite fold_left_app, List.filter_app. cbn [fold_left List.filter].
  unfold GetCacheStats_step at 1. cbn [Managers].
  destruct (String.eqb_spec (CacheInfo.Manager x) m) as [<-|Hne].
  - rewrite lookup_insert_eq. by rewrite last_snoc.
  - rewrite lookup_insert_ne by done. by rewrite app_nil_r.
Qed.

(** X9: the [Managers] map of [GetCacheStats] has an entry for exactly
    the managers of the records of [GetAllCacheInfo]; the entry of a
    manager carries the path, size, file count and time of the last
    record of that manager in the list, which is its only record when
    the managers of the records are pairwise distinct. *)
Theorem GetCacheStats_Managers (σ : Schedule) (f : ManagerFactory.t W)
    (st : State W) :
  exists infos stats st',
    GetAllCacheInfo σ f st = (Ok infos, st') /\
    GetCacheStats σ f st = (Ok stats, st') /\
    (forall m,
       Managers stats !! m =
       stats_of <$>
         last (List.filter
                 (fun info => String.eqb (CacheInfo.Manager info) m) infos)) /\
    (forall m, is_Some (Managers stats !! m) <->
               m ∈ map CacheInfo.Manager infos) /\
    (NoDup (map CacheInfo.Manager infos) ->
     forall info, info ∈ infos ->
       Managers stats !! CacheInfo.Manager info = Some (stats_of info)).
Proof.
  unfold GetCacheStats. unfold bind at 1. rewrite GetAllCacheInfo_run.
  cbv beta iota. unfold ret. set (infos := sort_Slice _ _).
  eexists infos, _, _. split; [reflexivity|]. split; [reflexivity|].
  fold stats0.
  assert (Hlast : forall m info,
    last (List.filter (fun i => String.eqb (CacheInfo.Manager i) m) infos)
      = Some info -> info ∈ infos /\ CacheInfo.Manager info = m).
  { intros m info Hl. apply last_Some in Hl as [l' Hl].
    assert (In info (List.filter
              (fun i => String.eqb (CacheInfo.Manager i) m) infos)) as Hin
      by (rewrite Hl; apply in_app_iff; right; by left).
    apply filter_In in Hin as [Hin Hm].
    split; [by apply list_elem_of_In|by apply String.eqb_eq]. }
  split; [apply GetCacheStats_step_Managers|]. split.
  - intros m. rewrite GetCacheStats_step_Managers. split.
    + intros [s Hs].
      destruct (last _) as [info|] eqn:Hl; [|done].
      apply Hlast in Hl as [Hin <-].
      apply list_elem_of_fmap. by exists info.
    + intros (info & -> & Hin)%list_elem_of_fmap.
      destruct (last _) as [info'|] eqn:Hl; [by eexists|].
      apply last_None in Hl.
      assert (In info (List.filter
                (fun i => String.eqb (CacheInfo.Manager i)
                            (CacheInfo.Manager info)) infos)) as Hin'.
      { apply filter_In. split; [by apply list_elem_of_In|].
        apply String.eqb_refl. }
      rewrite Hl in Hin'. done.
  - intros Hnd info Hin. rewrite GetCacheStats_step_Managers.
    destruct (last _) as [info'|] eqn:Hl.
    + apply Hlast in Hl as [Hin' Hm]. simpl. do 2 f_equal.
      clear -Hnd Hin Hin' Hm.
      induction infos as [|x l IH]; [by apply elem_of_nil in Hin|].
      simpl in Hnd. apply NoDup_cons in Hnd as [Hx Hnd].
      apply elem_of_cons in Hin as [->|Hin];
        apply elem_of_cons in Hin' as [->|Hin'].
      * done.
      * exfalso. apply Hx. rewrite <- Hm.
        apply list_elem_of_fmap. by exists info'.
      * exfalso. apply Hx. rewrite Hm.
        apply list_elem_of_fmap. by exists info.
      * by apply IH.
    + apply last_None in Hl.
      assert (In info (List.filter
                (fun i => String.eqb (CacheInfo.Manager i)
                            (CacheInfo.Manager info)) infos)) as Hin'.
      { apply filter_In. split; [by apply list_elem_of_In|].
        apply String.eqb_refl. }
      rewrite Hl in Hin'. done.
Qed.
End CacheStatsFacts.

Section AvailableNames.
Context {W : Type} `{!Platform W}.

Lemma GetAvailableManagerNames_spec (σ : Schedule) (f : ManagerFactory.t W)
    (st : State W) :
  let l := order σ at_GetAvailableManagerNames
             (map_to_list (ManagerFactory.managers f)) in
  ManagerFactory.GetAvailableManagerNames σ f st =
  (map fst
     (filter (fun nm => PackageManager.IsAvailable nm.2 (world st) = true) l),
   Build_State (world st)
     (calls st ++ map (fun nm => (nm.1, OpIsAvailable)) l) (logs st)).
Proof.
  intros l. unfold ManagerFactory.GetAvailableManagerNames. fold l.
  assert (Hgen : forall l' (names : list string) (st' : State W),
    for_each
      (fun '(name, manager) names =>
         do available <- call_read name OpIsAvailable
                           (PackageManager.IsAvailable manager);
         if available : bool
         then ret (names ++ [name])
         else ret names) l' names st' =
    (names ++ map fst
       (filter (fun nm => PackageManager.IsAvailable nm.2 (world st') = true)
          l'),
     Build_State (world st')
       (calls st' ++ map (fun nm => (nm.1, OpIsAvailable)) l') (logs st'))).
  { induction l' as [|[n m] l' IH]; intros names st'; simpl.
    - unfold ret. rewrite !app_nil_r. by destruct st'.
    - unfold bind at 1. unfold bind at 1. unfold call_read at 1.
      rewrite filter_cons. cbn [snd].
      destruct (PackageManager.IsAvailable m (world st')) eqn:Hav;
        unfold ret at 1; rewrite IH; cbn [world calls logs];
        rewrite ?Hav.
      + rewrite decide_True by done. simpl. by rewrite <- !app_assoc.
      + rewrite decide_False by done. by rewrite <- !app_assoc. }
  by rewrite Hgen.
Qed.

(** X10: the [AvailableManagers] of [GetCacheSummary] are the names of
    the registered managers that answer the probe, each once, in no
    particular order; the records counted by [ManagerCount] are those of
    the available managers whose [GetCacheInfo] succeeded, so there are
    never more records than names. *)
Theorem GetCacheSummary_AvailableManagers (σ : Schedule)
    (f : ManagerFactory.t W) (st : State W) :
  exists infos st1 summary st2,
    CacheService.GetAllCacheInfo σ f st = (Ok infos, st1) /\
    CacheService.GetCacheSummary σ f st = (Ok summary, st2) /\
    world st2 = world st /\
    CacheService.CacheSummary.AvailableManagers summary
      ≡ₚ map fst (map_to_list (available_in (world st) f)) /\
    NoDup (CacheService.CacheSummary.AvailableManagers summary) /\
    (forall name,
       name ∈ CacheService.CacheSummary.AvailableManagers summary <->
       exists manager,
         ManagerFactory.managers f !! name = Some manager /\
         PackageManager.IsAvailable manager (world st) = true) /\
    (length infos
     <= length (CacheService.CacheSummary.AvailableManagers summary))%nat.
Proof.
  unfold CacheService.GetCacheSummary, CacheService.GetCacheStats.
  unfold bind at 1. unfold bind at 1. rewrite GetAllCacheInfo_run.
  cbv beta iota. unfold ret at 1. unfold bind at 1.
  rewrite GetAvailableManagerNames_spec. cbn [world calls logs].
  unfold ret. set (infos := sort_Slice _ _).
  eexists infos, _, _, _. split; [reflexivity|]. split; [reflexivity|].
  cbn [world CacheService.CacheSummary.AvailableManagers].
  split; [reflexivity|].
  set (P := fun nm : string * PackageManager.t W =>
              PackageManager.IsAvailable nm.2 (world st) = true).
  assert (Hperm :
    filter P (order σ at_GetAvailableManagerNames
                (map_to_list (ManagerFactory.managers f)))
    ≡ₚ map_to_list (available_in (world st) f)).
  { rewrite order_perm. unfold available_in. fold P.
    rewrite map_filter_alt. symmetry. apply map_to_list_to_map.
    apply NoDup_fmap_fst.
    - intros k x y [_ Hx]%list_elem_of_filter [_ Hy]%list_elem_of_filter.
      apply elem_of_map_to_list in Hx, Hy. congruence.
    - apply NoDup_filter, NoDup_map_to_list. }
  split; [by rewrite Hperm|]. split; [|split].
  - change (map fst ?l) with (l.*1). rewrite Hperm.
    apply NoDup_fst_map_to_list.
  - intros name. change (map fst ?l) with (l.*1). rewrite Hperm.
    rewrite list_elem_of_fmap. split.
    + intros ([n m] & -> & Hin). exists m.
      apply elem_of_map_to_list in Hin. unfold available_in in Hin.
      by apply map_lookup_filter_Some in Hin.
    + intros (m & Hreg & Hav). exists (name, m). split; [done|].
      apply elem_of_map_to_list. unfold available_in.
      by apply map_lookup_filter_Some.
  - rewrite length_map, Hperm. subst infos.
    rewrite sort_Slice_length.
    rewrite <- (Permutation_length (finish_order_perm σ f (world st))).
    generalize (finish_order σ f (world st)). intros l.
    induction l as [|nm l IH]; [done|]. simpl. rewrite length_app.
    destruct (PackageManager.GetCacheInfo nm.2 (world st)); simpl; lia.
Qed.
End AvailableNames.

(** ** Package listings *)
Section PackageFacts.
Context {W : Type} `{!Platform W}.

(** X11: in the list of [GetAllPackages] and in that of
    [GetGlobalPackages] no two records have the same key
    [name@version:manager], hence none the same name, version and
    manager; every record of the list was reported by an available
    backend whose call succeeded, and every reported record has in the
    list a record with its key. *)
Theorem aggregate_packages_deduplicated (σ : Schedule)
    (f : ManagerFactory.t W) (st : State W) :
  let w := world st in
  let l := finish_order σ f w in
  (exists pkgs st',
     PackageService.GetGlobalPackages σ f st = (Ok pkgs, st') /\
     NoDup (map PackageService.package_key pkgs) /\
     NoDup (map triple pkgs) /\
     let raw :=
       flat_map
         (fun nm => records_of (PackageManager.GetGlobalPackages nm.2 w)) l in
     (forall p, p ∈ pkgs -> p ∈ raw) /\
     (forall p, p ∈ raw ->
        exists q, q ∈ pkgs /\
                  PackageService.package_key q = PackageService.package_key p)) /\
  (forall projectPath, projectPath <> "" ->
     exists pkgs st',
       PackageService.GetAllPackages σ f projectPath st = (Ok pkgs, st') /\
       NoDup (map PackageService.package_key pkgs) /\
       NoDup (map triple pkgs) /\
       let raw :=
         flat_map
           (fun nm =>
              records_of
                (PackageManager.GetInstalledPackages nm.2 w projectPath)) l in
       (forall p, p ∈ pkgs -> p ∈ raw) /\
       (forall p, p ∈ raw ->
          exists q, q ∈ pkgs /\
                    PackageService.package_key q
                    = PackageService.package_key p)).
Proof.
  intros w l.
  assert (Hgen : forall raw : list Package.t,
    let pkgs := sort_Slice PackageService.by_Name
                  (PackageService.removeDuplicatePackages raw) in
    NoDup (map PackageService.package_key pkgs) /\
    NoDup (map triple pkgs) /\
    (forall p, p ∈ pkgs -> p ∈ raw) /\
    (forall p, p ∈ raw ->
       exists q, q ∈ pkgs /\
                 PackageService.package_key q = PackageService.package_key p)).
  { intros raw pkgs. split; [|split; [|split]].
    - unfold pkgs.
      change (map PackageService.package_key ?x)
        with (PackageService.package_key <$> x).
      rewrite sort_Slice_perm. apply removeDuplicatePackages_NoDup_keys.
    - unfold pkgs. change (map triple ?x) with (triple <$> x).
      rewrite sort_Slice_perm. apply removeDuplicatePackages_NoDup_triples.
    - intros p Hp. apply sort_Slice_elem_of in Hp.
      by apply removeDuplicatePackages_elem_of.
    - intros p Hp.
      assert (PackageService.package_key p
              ∈ map PackageService.package_key
                  (PackageService.removeDuplicatePackages raw)) as Hk.
      { apply removeDuplicatePackages_keys.
        apply list_elem_of_fmap. by exists p. }
      apply list_elem_of_fmap in Hk as (q & Hq & Hin).
      exists q. split; [by apply sort_Slice_elem_of|done]. }
  split.
  - eexists _, _. split; [apply GetGlobalPackages_run|]. apply Hgen.
  - intros projectPath Hpath.
    eexists _, _. split; [by apply GetAllPackages_run|]. apply Hgen.
Qed.
End PackageFacts.

Lemma fold_left_append_if {A} (test : A -> bool) (l acc : list A) :
  fold_left (fun acc x => if test x then acc ++ [x] else acc) l acc =
  acc ++ List.filter test l.
Proof.
  revert acc. induction l as [|x l IH]; intros acc; simpl.
  - by rewrite app_nil_r.
  - rewrite IH. destruct (test x); [|done]. by rewrite <- app_assoc.
Qed.

Lemma sorted_by_filter {A} (key : A -> string) (test : A -> bool)
    (l : list A) :
  sorted_by key l -> sorted_by key (List.filter test l).
Proof.
  unfold sorted_by. induction 1 as [|x l Hl IH Hx]; simpl; [constructor|].
  destruct (test x); [|done]. constructor; [done|].
  apply Forall_forall. intros y Hy%list_elem_of_In%filter_In.
  destruct Hy as [Hy _]. rewrite Forall_forall in Hx.
  by apply Hx, list_elem_of_In.
Qed.

Lemma NoDup_map_filter {A B} (g : A -> B) (test : A -> bool) (l : list A) :
  NoDup (map g l) -> NoDup (map g (List.filter test l)).
Proof.
  induction l as [|x l IH]; simpl; [done|].
  intros [Hx Hnd]%NoDup_cons. destruct (test x); [|by apply IH].
  simpl. apply NoDup_cons. split; [|by apply IH].
  intros (y & Hxy & Hy)%list_elem_of_fmap. apply Hx.
  apply list_elem_of_fmap. exists y. split; [done|].
  apply list_elem_of_In, filter_In in Hy as [Hy _].
  by apply list_elem_of_In.
Qed.

Section SearchFacts.
Context {W : Type} `{!Platform W} `{!Runtime W}.

(** X12: for a query that is not empty, [SearchPackages] returns, in the
    order of [GetGlobalPackages], exactly the global packages whose
    lower-cased name or description contains the lower-cased query; the
    answer is therefore sorted by name and free of duplicates, and the
    error is nil. *)
Theorem SearchPackages_filters_global_packages (σ : Schedule)
    (f : ManagerFactory.t W) (query : string) (st : State W) :
  query <> "" ->
  let hit := fun pkg =>
    strings_Contains (strings_ToLower (Package.Name pkg))
      (strings_ToLower query)
    || strings_Contains (strings_ToLower (Package.Description pkg))
         (strings_ToLower query) in
  exists globals st',
    PackageService.GetGlobalPackages σ f st = (Ok globals, st') /\
    PackageService.SearchPackages σ f query st
      = (Ok (List.filter hit globals), st') /\
    (forall pkg, pkg ∈ List.filter hit globals <->
                 pkg ∈ globals /\ hit pkg = true) /\
    sorted_by Package.Name (List.filter hit globals) /\
    NoDup (map triple (List.filter hit globals)).
Proof.
  intros Hquery hit. unfold PackageService.SearchPackages.
  rewrite decide_False by done. unfold bind at 1.
  rewrite GetGlobalPackages_run. cbv beta iota. unfold ret.
  set (globals := sort_Slice _ _).
  eexists globals, _. split; [reflexivity|].
  split; [by rewrite fold_left_append_if|].
  split; [|split].
  - intros pkg. by rewrite list_elem_of_In, filter_In, <- list_elem_of_In.
  - apply sorted_by_filter. by apply sort_Slice_sorted.
  - apply NoDup_map_filter. unfold globals.
    change (map triple ?x) with (triple <$> x).
    rewrite sort_Slice_perm. apply removeDuplicatePackages_NoDup_triples.
Qed.
End SearchFacts.

Section PackageInfoFacts.
Context {W : Type} `{!Platform W}.

(** X13: for a name that is not empty, [GetPackageInfo] answers with the
    first record of [GetGlobalPackages] that has exactly this name and
    with every other detail empty, and with [ErrPackageNotFound] exactly
    when no global package has the name. *)
Theorem GetPackageInfo_first_match (σ : Schedule) (f : ManagerFactory.t W)
    (packageName : string) (st : State W) :
  packageName <> "" ->
  exists globals st',
    PackageService.GetGlobalPackages σ f st = (Ok globals, st') /\
    ((forall pkg, pkg ∈ globals -> Package.Name pkg <> packageName) ->
     PackageService.GetPackageInfo σ f packageName st
       = (Err (Predefined ErrPackageNotFound), st')) /\
    ((exists pkg, pkg ∈ globals /\ Package.Name pkg = packageName) ->
     exists pkg before after,
       PackageService.GetPackageInfo σ f packageName st
         = (Ok {| PackageDetail.Package := pkg;
                  PackageDetail.Author := "";
                  PackageDetail.License := "";
                  PackageDetail.Homepage := "";
                  PackageDetail.Repository := "";
                  PackageDetail.Keywords := [];
                  PackageDetail.Scripts := ∅;
                  PackageDetail.Engines := ∅;
                  PackageDetail.PeerDependencies := ∅ |}, st') /\
       globals = before ++ pkg :: after /\
       Package.Name pkg = packageName /\
       (forall earlier, earlier ∈ before ->
          Package.Name earlier <> packageName)).
Proof.
  intros Hname. unfold PackageService.GetPackageInfo.
  rewrite decide_False by done. unfold bind.
  rewrite GetGlobalPackages_run. cbv beta iota.
  set (globals := sort_Slice _ _).
  eexists globals, _. split; [reflexivity|].
  assert (Hfind : forall l : list Package.t,
    match find (fun pkg => String.eqb (Package.Name pkg) packageName) l with
    | Some pkg =>
        exists before after,
          l = before ++ pkg :: after /\
          Package.Name pkg = packageName /\
          forall p, p ∈ before -> Package.Name p <> packageName
    | None => forall p, p ∈ l -> Package.Name p <> packageName
    end).
  { induction l as [|x l IH]; simpl; [by intros p ?%elem_of_nil|].
    destruct (String.eqb_spec (Package.Name x) packageName) as [Hx|Hx].
    - exists [], l. split; [done|]. split; [done|].
      by intros p ?%elem_of_nil.
    - destruct (find _ l) as [pkg|].
      + destruct IH as (before & after & -> & Hpkg & Hbefore).
        exists (x :: before), after. split; [done|]. split; [done|].
        intros p [->|Hp]%elem_of_cons; [done|by apply Hbefore].
      + intros p [->|Hp]%elem_of_cons; [done|by apply IH]. }
  specialize (Hfind globals).
  destruct (find _ globals) as [pkg|]; unfold ret; cbv beta iota.
  - split.
    + intros Hnone. destruct Hfind as (before & after & Hl & Hpkg & _).
      exfalso. apply (Hnone pkg); [|done].
      rewrite Hl. apply elem_of_app. right. by left.
    + intros _. destruct Hfind as (before & after & Hl & Hpkg & Hbefore).
      by exists pkg, before, after.
  - split; [done|].
    intros (pkg & Hin & Hpkg). by apply Hfind in Hin.
Qed.
End PackageInfoFacts.

Lemma incr_fold_lookup {A} (key : A -> string) (l : list A)
    (m0 : gmap string Z) (k : string) (a : Z) :
  default 0 (m0 !! k) = wrap64 a ->
  default 0 (fold_left (fun m x => PackageService.incr (key x) m) l m0 !! k) =
  wrap64 (a + Z.of_nat (count_if (fun x => String.eqb (key x) k) l)).
Proof.
  unfold count_if. revert m0 a.
  induction l as [|x l IH]; intros m0 a Hm0; simpl.
  - by rewrite Z.add_0_r.
  - destruct (String.eqb_spec (key x) k) as [Hk|Hk]; simpl.
    + rewrite (IH _ (a + 1)).
      * f_equal. lia.
      * unfold PackageService.incr. rewrite Hk, lookup_insert_eq. simpl.
        by rewrite Hm0, wrap64_add_l.
    + apply IH. unfold PackageService.incr.
      by rewrite lookup_insert_ne.
Qed.

Lemma count_if_split {A} (test : A -> bool) (l : list A) :
  (count_if test l + count_if (fun x => negb (test x)) l = length l)%nat.
Proof.
  unfold count_if. induction l as [|x l IH]; simpl; [done|].
  destruct (test x); simpl; lia.
Qed.

Section PackageStatsFacts.
Context {W : Type} `{!Platform W}.
Import PackageService.

Lemma GetPackageStats_step_fold (l : list Package.t) (s : PackageStats) :
  TotalPackages (fold_left GetPackageStats_step l s) =
    fold_left (fun n (_ : Package.t) => wrap64 (n + 1)) l (TotalPackages s) /\
  LocalPackages (fold_left GetPackageStats_step l s) =
    fold_left (fun n pkg => if negb (Package.IsGlobal pkg)
                            then wrap64 (n + 1) else n) l (LocalPackages s) /\
  GlobalPackages (fold_left GetPackageStats_step l s) =
    fold_left (fun n pkg => if Package.IsGlobal pkg
                            then wrap64 (n + 1) else n) l (GlobalPackages s) /\
  ByManager (fold_left GetPackageStats_step l s) =
    fold_left (fun m pkg => incr (Package.Manager pkg) m) l (ByManager s).
Proof.
  revert s. induction l as [|x l IH]; intros s; simpl; [done|].
  destruct (IH (GetPackageStats_step s x)) as (-> & -> & -> & ->).
  unfold GetPackageStats_step. simpl. by destruct (Package.IsGlobal x).
Qed.

Lemma GetGlobalPackageStats_step_fold (l : list Package.t)
    (s : PackageStats) :
  TotalPackages (fold_left GetGlobalPackageStats_step l s) =
    fold_left (fun n (_ : Package.t) => wrap64 (n + 1)) l (TotalPackages s) /\
  LocalPackages (fold_left GetGlobalPackageStats_step l s) = LocalPackages s /\
  GlobalPackages (fold_left GetGlobalPackageStats_step l s) =
    fold_left (fun n (_ : Package.t) => wrap64 (n + 1)) l (GlobalPackages s) /\
  ByManager (fold_left GetGlobalPackageStats_step l s) =
    fold_left (fun m pkg => incr (Package.Manager pkg) m) l (ByManager s).
Proof.
  revert s. induction l as [|x l IH]; intros s; simpl; [done|].
  by destruct (IH (GetGlobalPackageStats_step s x)) as (-> & -> & -> & ->).
Qed.

Lemma fold_wrap64_length {A} (l : list A) :
  fold_left (fun n (_ : A) => wrap64 (n + 1)) l 0 =
  wrap64 (Z.of_nat (length l)).
Proof.
  pose proof (fold_wrap64_count (fun _ : A => true) l 0) as H.
  change (wrap64 0) with 0 in H. rewrite Z.add_0_l in H.
  unfold count_if in H. rewrite H. do 2 f_equal. clear H.
  induction l as [|x l IH]; simpl; [done|]. by rewrite IH.
Qed.

(** X14: the statistics of [GetPackageStats] count the records of
    [GetAllPackages]: [TotalPackages] is their number, [GlobalPackages]
    the number of those flagged global, [LocalPackages] the number of
    the others, and [ByManager] gives for every manager the number of
    its records (no entry for a manager without records); all as 64-bit
    counters, so that local and global add up to the total. *)
Theorem GetPackageStats_counts (σ : Schedule) (f : ManagerFactory.t W)
    (projectPath : string) (st : State W) :
  projectPath <> "" ->
  exists pkgs stats st',
    GetAllPackages σ f projectPath st = (Ok pkgs, st') /\
    GetPackageStats σ f projectPath st = (Ok stats, st') /\
    TotalPackages stats = wrap64 (Z.of_nat (length pkgs)) /\
    GlobalPackages stats
      = wrap64 (Z.of_nat (count_if Package.IsGlobal pkgs)) /\
    LocalPackages stats
      = wrap64 (Z.of_nat
                  (count_if (fun pkg => negb (Package.IsGlobal pkg)) pkgs)) /\
    (forall m,
       default 0 (ByManager stats !! m)
       = wrap64 (Z.of_nat
                   (count_if (fun pkg => String.eqb (Package.Manager pkg) m)
                      pkgs))) /\
    (forall m, is_Some (ByManager stats !! m) <->
               m ∈ map Package.Manager pkgs) /\
    wrap64 (LocalPackages stats + GlobalPackages stats)
      = TotalPackages stats.
Proof.
  intros Hpath. unfold GetPackageStats. unfold bind.
  rewrite GetAllPackages_run by done. cbv beta iota. unfold ret.
  set (pkgs := sort_Slice _ _).
  eexists pkgs, _, _. split; [reflexivity|]. split; [reflexivity|].
  destruct (GetPackageStats_step_fold pkgs zero_PackageStats)
    as (-> & -> & -> & ->).
  cbn [zero_PackageStats TotalPackages LocalPackages GlobalPackages
       ByManager].
  pose proof (fold_wrap64_count Package.IsGlobal pkgs 0) as Hglobal.
  pose proof (fold_wrap64_count
                (fun pkg => negb (Package.IsGlobal pkg)) pkgs 0) as Hlocal.
  change (wrap64 0) with 0 in Hglobal, Hlocal.
  rewrite Z.add_0_l in Hglobal, Hlocal.
  rewrite fold_wrap64_length, Hglobal, Hlocal.
  split; [done|]. split; [done|]. split; [done|].
  split; [|split].
  - intros m.
    rewrite (incr_fold_lookup Package.Manager pkgs ∅ m 0); [|done].
    by rewrite Z.add_0_l.
  - intros m. clear.
    assert (Hgen : forall (l : list Package.t) (m0 : gmap string Z),
      is_Some (fold_left (fun m pkg => incr (Package.Manager pkg) m) l m0
               !! m) <->
      is_Some (m0 !! m) \/ m ∈ map Package.Manager l).
    { induction l as [|x l IH]; intros m0; simpl.
      - rewrite elem_of_nil. tauto.
      - rewrite IH, elem_of_cons. unfold incr.
        destruct (decide (Package.Manager x = m)) as [->|Hne].
        + rewrite lookup_insert_eq. split; [tauto|]. intros _. left.
          by eexists.
        + rewrite lookup_insert_ne by done. split; [tauto|].
          intros [?|[?|?]]; [tauto|congruence|tauto]. }
    rewrite Hgen, lookup_empty. split; [|tauto].
    intros [[? ?]|?]; done.
  - rewrite wrap64_add_l, Z.add_comm, wrap64_add_l. f_equal.
    pose proof (count_if_split Package.IsGlobal pkgs). lia.
Qed.

(** X15: [GetGlobalPackageStats] counts every record of
    [GetGlobalPackages] as a global package, whatever its [IsGlobal]
    flag says: [GlobalPackages] equals [TotalPackages], the number of
    records, and [LocalPackages] is 0. *)
Theorem GetGlobalPackageStats_counts_all_as_global (σ : Schedule)
    (f : ManagerFactory.t W) (st : State W) :
  exists pkgs stats st',
    GetGlobalPackages σ f st = (Ok pkgs, st') /\
    GetGlobalPackageStats σ f st = (Ok stats, st') /\
    TotalPackages stats = wrap64 (Z.of_nat (length pkgs)) /\
    GlobalPackages stats = TotalPackages stats /\
    LocalPackages stats = 0 /\
    (forall m,
       default 0 (ByManager stats !! m)
       = wrap64 (Z.of_nat
                   (count_if (fun pkg => String.eqb (Package.Manager pkg) m)
                      pkgs))).
Proof.
  unfold GetGlobalPackageStats. unfold bind.
  rewrite GetGlobalPackages_run. cbv beta iota. unfold ret.
  set (pkgs := sort_Slice _ _).
  eexists pkgs, _, _. split; [reflexivity|]. split; [reflexivity|].
  destruct (GetGlobalPackageStats_step_fold pkgs zero_PackageStats)
    as (-> & -> & -> & ->).
  cbn [zero_PackageStats TotalPackages LocalPackages GlobalPackages
       ByManager].
  rewrite fold_wrap64_length.
  split; [done|]. split; [done|]. split; [done|].
  intros m.
  rewrite (incr_fold_lookup Package.Manager pkgs ∅ m 0); [|done].
  by rewrite Z.add_0_l.
Qed.
End PackageStatsFacts.

(** ** Configuration *)
Section ConfigFacts.
Context {W : Type} `{!Platform W}.

Lemma scheme_test (u : URL.t) :
  negb (String.eqb (URL.Scheme u) "http")
  && negb (String.eqb (URL.Scheme u) "https") = false <->
  URL.Scheme u = "http" \/ URL.Scheme u = "https".
Proof.
  destruct (String.eqb_spec (URL.Scheme u) "http");
    destruct (String.eqb_spec (URL.Scheme u) "https"); simpl;
    intuition congruence.
Qed.

(** X16: a registry URL is accepted exactly when it is not empty, parses,
    has the scheme [http] or [https] and a host; a proxy URL is accepted
    exactly when it is empty or accepted as a registry URL.  Every
    refusal is a [ValidationError] of the URL itself.  [TestRegistry] and
    [TestProxy] answer as the validators do, for any manager name,
    registered or not, and call no backend. *)
Theorem url_accepted_iff (managerName url : string) (st : State W) :
  (ConfigService.ValidateRegistryURL url = None <->
   url <> "" /\ well_formed_url url) /\
  (ConfigService.ValidateProxyURL url = None <->
   url = "" \/ ConfigService.ValidateRegistryURL url = None) /\
  (forall e, ConfigService.ValidateRegistryURL url = Some e ->
     exists msg, e = ValidationError "registry" url msg) /\
  (forall e, ConfigService.ValidateProxyURL url = Some e ->
     exists msg, e = ValidationError "proxy" url msg) /\
  (exists st',
     ConfigService.TestRegistry managerName url st
       = (ConfigService.ValidateRegistryURL url, st') /\
     world st' = world st /\ calls st' = calls st) /\
  (exists st',
     ConfigService.TestProxy managerName url st
       = (ConfigService.ValidateProxyURL url, st') /\
     world st' = world st /\ calls st' = calls st).
Proof.
  unfold ConfigService.ValidateRegistryURL, ConfigService.ValidateProxyURL,
    ConfigService.TestRegistry, ConfigService.TestProxy, well_formed_url.
  unfold ConfigService.ValidateRegistryURL, ConfigService.ValidateProxyURL.
  destruct (decide (url = "")) as [->|Hne].
  { split; [split; [done|by intros [? _]]|].
    split; [split; [by left|done]|].
    split; [intros e [= <-]; by eexists|]. split; [done|].
    split; eexists; (split; [reflexivity|done]). }
  destruct (url_Parse url) as [u|err] eqn:Hparse.
  2:{ split; [split; [done|by intros [_ (u & ? & _)]]|].
      split; [split; [done|by intros [?|?]]|].
      split; [intros e [= <-]; by eexists|].
      split; [intros e [= <-]; by eexists|].
      split; eexists; (split; [reflexivity|done]). }
  pose proof (scheme_test u) as Hscheme.
  destruct (negb (String.eqb (URL.Scheme u) "http")
            && negb (String.eqb (URL.Scheme u) "https")).
  { assert (~ (URL.Scheme u = "http" \/ URL.Scheme u = "https")) as Hbad.
    { intros H. apply Hscheme in H. done. }
    split; [split; [done|]|].
    { intros [_ (u' & [= <-] & Hs & _)]. done. }
    split; [split; [done|by intros [?|?]]|].
    split; [intros e [= <-]; by eexists|].
    split; [intros e [= <-]; by eexists|].
    split; eexists; (split; [reflexivity|done]). }
  assert (URL.Scheme u = "http" \/ URL.Scheme u = "https") as Hgood
    by (by apply Hscheme).
  destruct (String.eqb_spec (URL.Host u) "") as [Hhost|Hhost].
  { split; [split; [done|]|].
    { intros [_ (u' & [= <-] & _ & Hh)]. done. }
    split; [split; [done|by intros [?|?]]|].
    split; [intros e [= <-]; by eexists|].
    split; [intros e [= <-]; by eexists|].
    split; eexists; (split; [reflexivity|done]). }
  split; [split; [intros _; split; [done|by exists u]|done]|].
  split; [split; [by right|done]|].
  split; [done|]. split; [done|].
  split; eexists; (split; [reflexivity|done]).
Qed.

Lemma combined_error_facts (prefix item : string)
    (out : list (string * option error)) :
  let r := combined_error prefix item (failed_writes out) in
  (r = None <-> forall no, no ∈ out -> no.2 = None) /\
  (forall name e, (name, Some e) ∈ out ->
     exists errs, r = Some (ErrorfV prefix errs) /\
                  ErrorfW item name e ∈ errs) /\
  (forall errs err, r = Some (ErrorfV prefix errs) -> err ∈ errs ->
     exists name e, err = ErrorfW item name e /\ (name, Some e) ∈ out).
Proof.
  intros r. subst r. split; [|split].
  - rewrite <- failed_writes_nil. unfold combined_error.
    destruct (failed_writes out); split; done.
  - intros name e Hin. apply elem_of_failed_writes in Hin.
    unfold combined_error.
    destruct (failed_writes out) as [|x fl] eqn:Hf;
      [by apply elem_of_nil in Hin|].
    eexists. split; [done|].
    apply list_elem_of_fmap. by exists (name, e).
  - intros errs err Hr Herr. unfold combined_error in Hr.
    destruct (failed_writes out) as [|x fl] eqn:Hf; [done|].
    injection Hr as <-.
    change (err ∈ map (gathered_error item) (x :: fl)) in Herr.
    apply list_elem_of_fmap in Herr as ([name e] & -> & Hin).
    exists name, e. split; [done|].
    apply elem_of_failed_writes. by rewrite Hf.
Qed.

(** X17: with a URL that passes validation, [SetRegistryForAll] calls
    [SetRegistry] with that URL once on every available manager,
    whatever the other calls return; it returns nil exactly when every
    call succeeded and otherwise one error listing each manager that
    failed with its error; the changes made by the calls that succeeded
    stay.  [SetProxyForAll] does the same with [SetProxy]. *)
Theorem setters_for_all_best_effort (σ : Schedule) (f : ManagerFactory.t W)
    (url : string) (st : State W) :
  let w := world st in
  let l := finish_order σ f w in
  (ConfigService.ValidateRegistryURL url = None ->
   let write := fun mgr w => PackageManager.SetRegistry mgr w url in
   let out := outcomes write l w in
   exists r st',
     ConfigService.SetRegistryForAll σ f url st = (r, st') /\
     calls st' =
       calls st ++ probe_calls σ f
       ++ map (fun nm => (nm.1, OpSetRegistry url)) l /\
     world st' = world_after write l w /\
     (r = None <-> forall no, no ∈ out -> no.2 = None) /\
     (forall name e, (name, Some e) ∈ out ->
        exists errs,
          r = Some (ErrorfV "failed to set registry for some managers: "
                      errs) /\
          ErrorfW "failed to set registry for " name e ∈ errs)) /\
  (ConfigService.check_proxy url = None ->
   let write := fun mgr w => PackageManager.SetProxy mgr w url in
   let out := outcomes write l w in
   exists r st',
     ConfigService.SetProxyForAll σ f url st = (r, st') /\
     calls st' =
       calls st ++ probe_calls σ f
       ++ map (fun nm => (nm.1, OpSetProxy url)) l /\
     world st' = world_after write l w /\
     (r = None <-> forall no, no ∈ out -> no.2 = None) /\
     (forall name e, (name, Some e) ∈ out ->
        exists errs,
          r = Some (ErrorfV "failed to set proxy for some managers: "
                      errs) /\
          ErrorfW "failed to set proxy for " name e ∈ errs)).
Proof.
  intros w l. split.
  - intros Hvalid write out.
    eexists _, _. split; [by apply SetRegistryForAll_run|].
    fold w l write out. cbn [world calls logs].
    split; [done|]. split; [done|].
    destruct (combined_error_facts
                "failed to set registry for some managers: "
                "failed to set registry for " out) as (H1 & H2 & _).
    by split.
  - intros Hvalid write out.
    eexists _, _. split; [by apply SetProxyForAll_run|].
    fold w l write out. cbn [world calls logs].
    split; [done|]. split; [done|].
    destruct (combined_error_facts
                "failed to set proxy for some managers: "
                "failed to set proxy for " out) as (H1 & H2 & _).
    by split.
Qed.

Import ConfigService.

Lemma GetConfigSummary_step_fold (l : list Config.t) (s : ConfigSummary) :
  ManagerCount (fold_left GetConfigSummary_step l s) =
    fold_left (fun n (_ : Config.t) => wrap64 (n + 1)) l (ManagerCount s) /\
  Registries (fold_left GetConfigSummary_step l s) =
    fold_left
      (fun m c => if negb (String.eqb (Config.Registry c) "")
                  then group_under (Config.Registry c) (Config.Manager c) m
                  else m) l (Registries s) /\
  Proxies (fold_left GetConfigSummary_step l s) =
    fold_left
      (fun m c => if negb (String.eqb (Config.Proxy c) "")
                  then group_under (Config.Proxy c) (Config.Manager c) m
                  else m) l (Proxies s) /\
  Managers (fold_left GetConfigSummary_step l s) =
    fold_left
      (fun m c =>
         <[Config.Manager c :=
             {| Registry := Config.Registry c; Proxy := Config.Proxy c;
                Settings := Z.of_nat (size (Config.Settings c)) |}]> m)
      l (Managers s).
Proof.
  revert s. induction l as [|x l IH]; intros s; simpl; [done|].
  by destruct (IH (GetConfigSummary_step s x)) as (-> & -> & -> & ->).
Qed.

Lemma group_under_fold (key : Config.t -> string) (l : list Config.t)
    (m0 : gmap string (list string)) (value : string) :
  fold_left
    (fun m c => if negb (String.eqb (key c) "")
                then group_under (key c) (Config.Manager c) m
                else m) l m0 !! value =
  if String.eqb value "" then m0 !! value
  else match managers_with key value l with
       | [] => m0 !! value
       | names => Some (default [] (m0 !! value) ++ names)
       end.
Proof.
  unfold managers_with. revert m0.
  induction l as [|c l IH]; intros m0; simpl.
  - by destruct (String.eqb value "").
  - rewrite IH. destruct (String.eqb_spec value "") as [Hempty|Hvalue].
    + destruct (String.eqb_spec (key c) "") as [Hc|Hc]; simpl; [done|].
      unfold group_under. rewrite lookup_insert_ne; [done|congruence].
    + destruct (String.eqb_spec (key c) value) as [Hc|Hc]; simpl.
      * rewrite Hc. destruct (String.eqb_spec value ""); [done|]. simpl.
        unfold group_under. rewrite lookup_insert_eq. simpl.
        destruct (map _ _); [done|]. by rewrite <- app_assoc.
      * destruct (String.eqb (key c) ""); simpl; [done|].
        unfold group_under. by rewrite lookup_insert_ne.
Qed.

(** X18: [GetConfigSummary] counts the configurations of
    [GetAllConfigs] and groups the manager names by registry and by proxy:
    under a URL that is not empty it lists the managers configured with
    that URL, in ascending order of their names; an unset (empty) registry
    or proxy forms no group, and a URL no manager has gets no entry. *)
Theorem GetConfigSummary_groups (σ : Schedule) (f : ManagerFactory.t W)
    (st : State W) :
  exists configs summary st',
    GetAllConfigs σ f st = (Ok configs, st') /\
    GetConfigSummary σ f st = (Ok summary, st') /\
    ManagerCount summary = wrap64 (Z.of_nat (length configs)) /\
    (forall url, Registries summary !! url
                 = grouped Config.Registry url configs) /\
    (forall url, Proxies summary !! url = grouped Config.Proxy url configs) /\
    (forall key url,
       StronglySorted String.le (managers_with key url configs)) /\
    (forall name, is_Some (Managers summary !! name) <->
                  name ∈ map Config.Manager configs).
Proof.
  unfold GetConfigSummary. unfold bind.
  rewrite GetAllConfigs_run. cbv beta iota. unfold ret.
  set (configs := sort_Slice _ _).
  eexists configs, _, _. split; [reflexivity|]. split; [reflexivity|].
  destruct (GetConfigSummary_step_fold configs
              {| ManagerCount := 0; Managers := ∅; Registries := ∅;
                 Proxies := ∅ |}) as (-> & -> & -> & ->).
  cbn [ManagerCount Registries Proxies Managers].
  split; [apply fold_wrap64_length|].
  split; [|split; [|split]].
  - intros url. rewrite group_under_fold, lookup_empty. unfold grouped.
    destruct (String.eqb url ""); [done|].
    by destruct (managers_with _ _ _).
  - intros url. rewrite group_under_fold, lookup_empty. unfold grouped.
    destruct (String.eqb url ""); [done|].
    by destruct (managers_with _ _ _).
  - intros key url. unfold managers_with.
    assert (Hsorted : sorted_by Config.Manager configs)
      by (by apply sort_Slice_sorted).
    apply (sorted_by_filter Config.Manager
             (fun c => String.eqb (key c) url)) in Hsorted.
    unfold sorted_by in Hsorted.
    induction Hsorted as [|c l Hl IH Hc]; simpl; [constructor|].
    constructor; [done|]. apply Forall_forall.
    intros name (c' & -> & Hc')%list_elem_of_fmap.
    rewrite Forall_forall in Hc. by apply Hc.
  - intros name. clear.
    assert (Hgen : forall (l : list Config.t)
                          (m0 : gmap string ConfigManagerSummary),
      is_Some (fold_left
                 (fun m c =>
                    <[Config.Manager c :=
                        {| Registry := Config.Registry c;
                           Proxy := Config.Proxy c;
                           Settings := Z.of_nat (size (Config.Settings c)) |}]>
                      m) l m0 !! name) <->
      is_Some (m0 !! name) \/ name ∈ map Config.Manager l).
    { induction l as [|x l IH]; intros m0; simpl.
      - rewrite elem_of_nil. tauto.
      - rewrite IH, elem_of_cons.
        destruct (decide (Config.Manager x = name)) as [->|Hne].
        + rewrite lookup_insert_eq. split; [tauto|]. intros _. left.
          by eexists.
        + rewrite lookup_insert_ne by done. split; [tauto|].
          intros [?|[?|?]]; [tauto|congruence|tauto]. }
    rewrite Hgen, lookup_empty. split; [|tauto].
    intros [[? ?]|?]; done.
Qed.
End ConfigFacts.

(** ** Installing and removing packages *)
Section ChangePackage.
Context {W : Type} `{!Runtime W}.
Import PackageService.

Lemma change_package_run (op doing : string)
    (table : string -> string -> bool -> option (list string))
    (f : ManagerFactory.t W) (packageName managerName : string)
    (global : bool) (mgr : PackageManager.t W) (st : State W) :
  packageName <> "" -> managerName <> "" ->
  ManagerFactory.GetManager f managerName = Ok mgr ->
  PackageManager.IsAvailable mgr (world st) = true ->
  exists r st',
    change_package op doing table f packageName managerName global st
      = (r, st') /\
    calls st' = calls st ++ [(managerName, OpIsAvailable)] /\
    match table managerName packageName global with
    | None =>
        r = Some (Errorf ("unsupported package manager: " +:+ managerName)) /\
        world st' = world st
    | Some cmd =>
        let run := exec_Output (world st) (hd "" cmd) (tl cmd) in
        world st' = run.2 /\
        r = match run.1 with
            | ExecDone _ => None
            | ExecExit _ err _ _ | ExecFailed _ err =>
                Some (ManagerError managerName op err)
            end
    end.
Proof.
  intros Hpkg Hname Hget Havail. unfold change_package.
  rewrite !decide_False by done. rewrite Hget.
  unfold bind, call_read, log, ret. cbn [world calls logs].
  rewrite Havail. cbn [negb]. cbv beta iota.
  destruct (table managerName packageName global) as [cmd|].
  2:{ eexists _, _. split; [reflexivity|]. by cbn [world calls logs]. }
  unfold run_command, command.ExecuteCommand. cbn [world calls logs].
  destruct (exec_Output (world st) (hd "" cmd) (tl cmd))
    as [[stdout|stdout err stderr code|stdout err] w'];
    cbn [command.CommandResult.Error command.CommandResult.ExitCode
         Z.eqb negb fst snd];
    eexists _, _; (split; [reflexivity|]); by cbn [world calls logs].
Qed.

(** X19: on an available manager, [InstallPackage] and
    [UninstallPackage] run the command line of the manager once; they
    return nil exactly when the command ran and exited with success, and
    otherwise a [ManagerError] around the error of the run itself, also
    when the command exited with a code other than 0 (the message
    [command failed with exit code] is never produced).  A registered
    manager that is none of the four known ones gets
    [unsupported package manager] and no command is run. *)
Theorem InstallPackage_outcome (f : ManagerFactory.t W)
    (packageName managerName : string) (global : bool)
    (mgr : PackageManager.t W) (st : State W) :
  packageName <> "" -> managerName <> "" ->
  ManagerFactory.GetManager f managerName = Ok mgr ->
  PackageManager.IsAvailable mgr (world st) = true ->
  (exists r st',
     InstallPackage f packageName managerName global st = (r, st') /\
     calls st' = calls st ++ [(managerName, OpIsAvailable)] /\
     match install_command managerName packageName global with
     | None =>
         r = Some (Errorf ("unsupported package manager: " +:+ managerName))
         /\ world st' = world st
     | Some cmd =>
         let run := exec_Output (world st) (hd "" cmd) (tl cmd) in
         world st' = run.2 /\
         r = match run.1 with
             | ExecDone _ => None
             | ExecExit _ err _ _ | ExecFailed _ err =>
                 Some (ManagerError managerName "install" err)
             end
     end) /\
  (exists r st',
     UninstallPackage f packageName managerName global st = (r, st') /\
     calls st' = calls st ++ [(managerName, OpIsAvailable)] /\
     match uninstall_command managerName packageName global with
     | None =>
         r = Some (Errorf ("unsupported package manager: " +:+ managerName))
         /\ world st' = world st
     | Some cmd =>
         let run := exec_Output (world st) (hd "" cmd) (tl cmd) in
         world st' = run.2 /\
         r = match run.1 with
             | ExecDone _ => None
             | ExecExit _ err _ _ | ExecFailed _ err =>
                 Some (ManagerError managerName "uninstall" err)
             end
     end).
Proof.
  intros Hpkg Hname Hget Havail.
  split; by apply change_package_run with (mgr := mgr).
Qed.

(** X20: a package change is refused before any backend call or command
    when the package name or the manager name is empty
    ([ValidationError]) or the manager is not registered; on a registered
    manager that is not available it is refused with
    [ErrManagerNotAvailable] after the one availability probe.  In none of
    these cases a command is run. *)
Theorem InstallPackage_refusals (f : ManagerFactory.t W)
    (packageName managerName : string) (global : bool) (st : State W) :
  let unavailable := fun mgr : PackageManager.t W =>
    PackageManager.IsAvailable mgr (world st) = false in
  (packageName = "" \/ managerName = ""
   \/ ManagerFactory.GetManager f managerName
        = Err (Errorf ("package manager '" +:+ managerName +:+ "' not found"))
   \/ exists mgr, ManagerFactory.GetManager f managerName = Ok mgr /\
                  unavailable mgr) ->
  exists e1 e2 st',
    InstallPackage f packageName managerName global st = (Some e1, st') /\
    UninstallPackage f packageName managerName global st = (Some e2, st') /\
    world st' = world st /\ logs st' = logs st /\
    (packageName = "" -> st' = st /\ e1 = e2 /\ IsValidationError e1 = true) /\
    (packageName <> "" -> managerName = "" ->
     st' = st /\ e1 = e2 /\ IsValidationError e1 = true) /\
    (packageName <> "" -> managerName <> "" ->
     ManagerFactory.managers f !! managerName = None ->
     st' = st /\ e1 = e2 /\
     e1 = Errorf ("package manager '" +:+ managerName +:+ "' not found")) /\
    (packageName <> "" -> managerName <> "" ->
     is_Some (ManagerFactory.managers f !! managerName) ->
     calls st' = calls st ++ [(managerName, OpIsAvailable)] /\
     e1 = ManagerError managerName "install"
            (Predefined ErrManagerNotAvailable) /\
     e2 = ManagerError managerName "uninstall"
            (Predefined ErrManagerNotAvailable)).
Proof.
  intros unavailable Hcase.
  unfold InstallPackage, UninstallPackage, change_package.
  destruct (decide (packageName = "")) as [Hpkg|Hpkg].
  { eexists _, _, _. split; [reflexivity|]. split; [reflexivity|].
    repeat split; done. }
  destruct (decide (managerName = "")) as [Hname|Hname].
  { eexists _, _, _. split; [reflexivity|]. split; [reflexivity|].
    repeat split; done. }
  unfold ManagerFactory.GetManager in *.
  destruct (ManagerFactory.managers f !! managerName) as [mgr|] eqn:Hget.
  2:{ eexists _, _, _. split; [reflexivity|]. split; [reflexivity|].
      repeat split; done. }
  destruct Hcase as [?|[?|[?|(mgr' & [= <-] & Hun)]]]; try done.
  unfold bind, call_read. cbn [world calls logs].
  unfold unavailable in Hun. rewrite Hun. cbn [negb]. unfold ret.
  eexists _, _, _. split; [reflexivity|]. split; [reflexivity|].
  cbn [world calls logs]. repeat split; done.
Qed.

(** X21: the four manager types of [ManagerType.IsValid] are exactly the
    managers [InstallPackage] and [UninstallPackage] have a command line
    for; the program run is the manager itself and the package name is
    the last argument. *)
Theorem commands_cover_valid_manager_types (managerName packageName : string)
    (global : bool) :
  (ManagerType.IsValid managerName = true <->
   is_Some (install_command managerName packageName global)) /\
  (ManagerType.IsValid managerName = true <->
   is_Some (uninstall_command managerName packageName global)) /\
  (forall cmd,
     install_command managerName packageName global = Some cmd \/
     uninstall_command managerName packageName global = Some cmd ->
     hd "" cmd = managerName /\ last cmd = Some packageName).
Proof.
  unfold ManagerType.IsValid, install_command, uninstall_command,
    ManagerType.NPM, ManagerType.PNPM, ManagerType.YARN, ManagerType.BUN.
  destruct (String.eqb_spec managerName "npm") as [->|Hnpm];
    [|destruct (String.eqb_spec managerName "pnpm") as [->|Hpnpm];
      [|destruct (String.eqb_spec managerName "yarn") as [->|Hyarn];
        [|destruct (String.eqb_spec managerName "bun") as [->|Hbun]]]].
  5:{ split; [split; [done|by intros [? ?]]|].
      split; [split; [done|by intros [? ?]]|]. by intros cmd [?|?]. }
  all: split; [split; [by eexists|done]|].
  all: split; [split; [by eexists|done]|].
  all: by intros cmd [[= <-]|[= <-]]; destruct global.
Qed.
End ChangePackage.

(** ** Projects *)
Section ProjectFacts.
Context {W : Type} `{!Platform W}.
Import ProjectService.

(** X22: [detectProjectManagers] lists a manager exactly when its lock
    file is a regular file of the project, in the fixed order npm, pnpm,
    yarn, bun and without repetition; npm is also listed, alone, for a
    project that has a [package.json] and none of the four lock files. *)
Theorem detectProjectManagers_spec (w : W) (projectPath : string) :
  let has := fun name => utils.IsFile w (filepath_Join projectPath name) in
  let detected := detectProjectManagers w projectPath in
  let no_lock_file :=
    has "package-lock.json" = false /\ has "pnpm-lock.yaml" = false /\
    has "yarn.lock" = false /\ has "bun.lockb" = false in
  detected `sublist_of` ["npm"; "pnpm"; "yarn"; "bun"] /\
  ("npm" ∈ detected <->
   has "package-lock.json" = true \/
   (no_lock_file /\ has "package.json" = true)) /\
  ("pnpm" ∈ detected <-> has "pnpm-lock.yaml" = true) /\
  ("yarn" ∈ detected <-> has "yarn.lock" = true) /\
  ("bun" ∈ detected <-> has "bun.lockb" = true) /\
  (detected = [] <-> no_lock_file /\ has "package.json" = false).
Proof.
  intros has detected no_lock_file.
  subst detected no_lock_file. unfold detectProjectManagers.
  change (utils.IsFile w (filepath_Join projectPath ?n)) with (has n).
  destruct (has "package-lock.json"), (has "pnpm-lock.yaml"),
    (has "yarn.lock"), (has "bun.lockb"), (has "package.json");
    cbn [app length Nat.eqb andb];
    (split;
     [repeat first [apply sublist_nil | apply sublist_skip
                   | apply sublist_cons]|]);
    rewrite ?elem_of_cons, ?elem_of_nil; intuition congruence.
Qed.

Lemma detectProjectManagers_nonempty (w : W) (projectPath : string) :
  utils.IsFile w (filepath_Join projectPath "package.json") = true ->
  detectProjectManagers w projectPath <> [].
Proof.
  intros Hjson. unfold detectProjectManagers. rewrite Hjson.
  by destruct (utils.IsFile w (filepath_Join projectPath "package-lock.json")),
    (utils.IsFile w (filepath_Join projectPath "pnpm-lock.yaml")),
    (utils.IsFile w (filepath_Join projectPath "yarn.lock")),
    (utils.IsFile w (filepath_Join projectPath "bun.lockb")).
Qed.

Lemma lock_file_priority (w : W) (expandedPath : string) :
  let has := fun name => utils.IsFile w (filepath_Join expandedPath name) in
  fold_left (set_lock_file w expandedPath)
    (detectProjectManagers w expandedPath) "" =
  if has "bun.lockb" then filepath_Join expandedPath "bun.lockb"
  else if has "yarn.lock" then filepath_Join expandedPath "yarn.lock"
  else if has "pnpm-lock.yaml" then filepath_Join expandedPath "pnpm-lock.yaml"
  else if has "package-lock.json"
       then filepath_Join expandedPath "package-lock.json"
  else "".
Proof.
  intros has. unfold detectProjectManagers.
  change (utils.IsFile w (filepath_Join expandedPath ?n)) with (has n).
  destruct (has "package-lock.json") eqn:Hnpm,
    (has "pnpm-lock.yaml") eqn:Hpnpm, (has "yarn.lock") eqn:Hyarn,
    (has "bun.lockb") eqn:Hbun, (has "package.json") eqn:Hjson;
    cbn [app length Nat.eqb andb fold_left];
    unfold set_lock_file; simpl;
    change (utils.IsFile w (filepath_Join expandedPath ?n)) with (has n);
    by rewrite ?Hnpm, ?Hpnpm, ?Hyarn, ?Hbun.
Qed.

Lemma GetAllPackages_world (σ : Schedule) (f : ManagerFactory.t W)
    (projectPath : string) (st : State W) :
  world (PackageService.GetAllPackages σ f projectPath st).2 = world st.
Proof.
  destruct (decide (projectPath = "")) as [->|Hpath].
  - done.
  - by rewrite GetAllPackages_run.
Qed.

Lemma fold_positive_sum (packages : list Package.t) (a : Z) :
  fold_left
    (fun totalSize pkg =>
       if 0 <? Package.Size pkg
       then wrap64 (totalSize + Package.Size pkg)
       else totalSize) packages (wrap64 a) =
  wrap64 (a + sum_Z (map Package.Size
                       (List.filter (fun pkg => 0 <? Package.Size pkg)
                          packages))).
Proof.
  revert a. induction packages as [|pkg l IH]; intros a; simpl.
  - by rewrite Z.add_0_r.
  - destruct (0 <? Package.Size pkg); simpl; [|done].
    rewrite wrap64_add_l, IH. f_equal. lia.
Qed.

Lemma fold_positive_total (packages : list Package.t) :
  fold_left
    (fun totalSize pkg =>
       if 0 <? Package.Size pkg
       then wrap64 (totalSize + Package.Size pkg)
       else totalSize) packages 0 = positive_total packages.
Proof. apply (fold_positive_sum packages 0). Qed.

Lemma GetDirSize_walk_sum `{!Runtime W} (infos : list FileInfo.t)
    (rest : list (result FileInfo.t)) (a : Z) :
  utils.GetDirSize_walk (map Ok infos ++ rest) (wrap64 a) =
  utils.GetDirSize_walk rest (wrap64 (a + sum_Z (file_sizes infos))).
Proof.
  unfold file_sizes. revert a.
  induction infos as [|info infos IH]; intros a; simpl.
  - by rewrite Z.add_0_r.
  - destruct (FileInfo.IsDir info); simpl; [done|].
    rewrite wrap64_add_l, IH. do 2 f_equal. lia.
Qed.

(** X23: [GetDirSize] adds up the sizes of the files the walk visits;
    directories count for nothing.  When the walk meets an error it stops
    there and returns that error together with the size of the files
    visited before it. *)
Theorem GetDirSize_sums_files `{!Runtime W} (w : W) (path : string)
    (infos : list FileInfo.t) (rest : list (result FileInfo.t)) :
  filepath_Walk w path = map Ok infos ++ rest ->
  (rest = [] ->
   utils.GetDirSize w path = (wrap64 (sum_Z (file_sizes infos)), None)) /\
  (forall err rest', rest = Err err :: rest' ->
   utils.GetDirSize w path = (wrap64 (sum_Z (file_sizes infos)), Some err)).
Proof.
  intros Hwalk. unfold utils.GetDirSize. rewrite Hwalk.
  pose proof (GetDirSize_walk_sum infos rest 0) as Hsum.
  change (wrap64 0) with 0 in Hsum. rewrite Hsum, Z.add_0_l.
  split; [by intros ->|by intros err rest' ->].
Qed.
End ProjectFacts.

Section AnalysisFacts.
Context {W : Type} `{!Platform W} `{!Runtime W}.
Import ProjectService.

Lemma AnalyzeProject_run (σ : Schedule) (f : ManagerFactory.t W)
    (projectPath expandedPath : string) (packageJson : PackageJsonInfo.t)
    (st : State W) :
  let w := world st in
  let packageJsonPath := filepath_Join expandedPath "package.json" in
  let nodeModulesPath := filepath_Join expandedPath "node_modules" in
  projectPath <> "" ->
  utils.ExpandPath w projectPath = Ok expandedPath ->
  utils.PathExists w expandedPath = true ->
  utils.IsFile w packageJsonPath = true ->
  readPackageJson w packageJsonPath = Ok packageJson ->
  let got := PackageService.GetAllPackages σ f expandedPath st in
  let packages := records_of got.1 in
  exists st',
    AnalyzeProject σ f projectPath st =
    (Ok {| ProjectAnalysis.Project :=
             {| Project.Name := PackageJsonInfo.Name packageJson;
                Project.Path := expandedPath;
                Project.Managers := detectProjectManagers w expandedPath;
                Project.ManagersArray := None;
                Project.PackageFile := packageJsonPath;
                Project.LockFile :=
                  fold_left (set_lock_file w expandedPath)
                    (detectProjectManagers w expandedPath) "";
                Project.NodeModules := nodeModulesPath |};
           ProjectAnalysis.PackageCount := Z.of_nat (length packages);
           ProjectAnalysis.DevPackageCount := 0;
           ProjectAnalysis.TotalSize :=
             if utils.IsDir w nodeModulesPath
             then match utils.GetDirSize w nodeModulesPath with
                  | (nodeModulesSize, None) => nodeModulesSize
                  | (_, Some _) => positive_total packages
                  end
             else positive_total packages;
           ProjectAnalysis.OutdatedPackages := [];
           ProjectAnalysis.Vulnerabilities := [];
           ProjectAnalysis.Scripts := PackageJsonInfo.Scripts packageJson |},
     st') /\
    world st' = w /\ calls st' = calls got.2.
Proof.
  intros w packageJsonPath nodeModulesPath Hpath Hexp Hex Hfile Hread
    got packages.
  unfold AnalyzeProject. rewrite decide_False by done.
  unfold bind at 1, read_world at 1. fold w. rewrite Hexp.
  unfold bind at 1, read_world at 1. fold w. rewrite Hex. cbn [negb].
  cbv beta iota.
  unfold bind at 1, read_world at 1. fold w packageJsonPath.
  rewrite Hfile. cbn [negb]. cbv beta iota.
  unfold bind at 1, read_world at 1. fold w. rewrite Hread.
  unfold bind at 1, read_world at 1. fold w.
  unfold bind at 1. fold got.
  pose proof (GetAllPackages_world σ f expandedPath st) as Hworld.
  fold got in Hworld. subst packages.
  destruct got as [[pkgs|err] st1]; cbn [fst snd records_of] in *.
  - unfold bind at 1, ret at 1.
    unfold bind at 1, read_world at 1. rewrite ?Hworld. fold w nodeModulesPath.
    rewrite fold_positive_total.
    destruct (utils.IsDir w nodeModulesPath).
    + unfold bind at 1. unfold bind at 1, read_world at 1.
      rewrite ?Hworld. fold w.
      destruct (utils.GetDirSize w nodeModulesPath) as [size [e|]];
        unfold ret at 1; unfold bind, read_world, ret; rewrite ?Hworld;
        eexists; (split; [reflexivity|done]).
    + unfold bind, read_world, ret. rewrite ?Hworld.
      eexists; (split; [reflexivity|done]).
  - unfold bind at 1. unfold bind at 1, log at 1, ret at 1.
    unfold bind at 1, read_world at 1. cbn [world calls logs].
    rewrite ?Hworld. fold w nodeModulesPath.
    rewrite fold_positive_total.
    destruct (utils.IsDir w nodeModulesPath).
    + unfold bind at 1. unfold bind at 1, read_world at 1.
      cbn [world calls logs]. rewrite ?Hworld. fold w.
      destruct (utils.GetDirSize w nodeModulesPath) as [size [e|]];
        unfold ret at 1; unfold bind, read_world, ret;
        cbn [world calls logs]; rewrite ?Hworld;
        eexists; (split; [reflexivity|done]).
    + unfold bind, read_world, ret. cbn [world calls logs]. rewrite ?Hworld.
      eexists; (split; [reflexivity|done]).
Qed.
End AnalysisFacts.

Section AnalysisTheorems.
Context {W : Type} `{!Platform W} `{!Runtime W}.
Import ProjectService.

(** X24: the analysis of a project whose [package.json] can be read lists
    the managers of [detectProjectManagers] and names one lock file: the
    loop over the managers goes on after a lock file is found, so the last
    one found wins, which makes [bun.lockb] come before [yarn.lock],
    [pnpm-lock.yaml] and [package-lock.json]; a project without lock file
    has none. *)
Theorem AnalyzeProject_lock_file (σ : Schedule) (f : ManagerFactory.t W)
    (projectPath expandedPath : string) (packageJson : PackageJsonInfo.t)
    (st : State W) :
  let w := world st in
  let has := fun name => utils.IsFile w (filepath_Join expandedPath name) in
  projectPath <> "" ->
  utils.ExpandPath w projectPath = Ok expandedPath ->
  utils.PathExists w expandedPath = true ->
  has "package.json" = true ->
  readPackageJson w (filepath_Join expandedPath "package.json")
    = Ok packageJson ->
  exists analysis st',
    AnalyzeProject σ f projectPath st = (Ok analysis, st') /\
    let project := ProjectAnalysis.Project analysis in
    Project.Name project = PackageJsonInfo.Name packageJson /\
    Project.Path project = expandedPath /\
    Project.Managers project = detectProjectManagers w expandedPath /\
    Project.Managers project <> [] /\
    Project.LockFile project =
      (if has "bun.lockb" then filepath_Join expandedPath "bun.lockb"
       else if has "yarn.lock" then filepath_Join expandedPath "yarn.lock"
       else if has "pnpm-lock.yaml"
            then filepath_Join expandedPath "pnpm-lock.yaml"
       else if has "package-lock.json"
            then filepath_Join expandedPath "package-lock.json"
       else "").
Proof.
  intros w has Hpath Hexp Hex Hfile Hread.
  destruct (AnalyzeProject_run σ f projectPath expandedPath packageJson st
              Hpath Hexp Hex Hfile Hread) as (st' & Hrun & _).
  eexists _, st'. split; [exact Hrun|].
  cbn [ProjectAnalysis.Project Project.Name Project.Path Project.Managers
       Project.LockFile].
  split; [done|]. split; [done|]. split; [done|].
  split; [by apply detectProjectManagers_nonempty|].
  apply lock_file_priority.
Qed.

(** X25: the analysis counts the packages [GetAllPackages] returns for
    the expanded path (none when that call fails) and never counts a
    development package, an outdated package or a vulnerability.  Its
    total size is the size of [node_modules] when that is a directory the
    walk gets through, and otherwise the sum of the sizes above zero of the
    packages.  The only backend calls are those of [GetAllPackages]. *)
Theorem AnalyzeProject_counts (σ : Schedule) (f : ManagerFactory.t W)
    (projectPath expandedPath : string) (packageJson : PackageJsonInfo.t)
    (st : State W) :
  let w := world st in
  let nodeModulesPath := filepath_Join expandedPath "node_modules" in
  projectPath <> "" ->
  utils.ExpandPath w projectPath = Ok expandedPath ->
  utils.PathExists w expandedPath = true ->
  utils.IsFile w (filepath_Join expandedPath "package.json") = true ->
  readPackageJson w (filepath_Join expandedPath "package.json")
    = Ok packageJson ->
  let got := PackageService.GetAllPackages σ f expandedPath st in
  let packages := records_of got.1 in
  exists analysis st',
    AnalyzeProject σ f projectPath st = (Ok analysis, st') /\
    world st' = w /\ calls st' = calls got.2 /\
    ProjectAnalysis.PackageCount analysis = Z.of_nat (length packages) /\
    ProjectAnalysis.DevPackageCount analysis = 0 /\
    ProjectAnalysis.OutdatedPackages analysis = [] /\
    ProjectAnalysis.Vulnerabilities analysis = [] /\
    ProjectAnalysis.Scripts analysis = PackageJsonInfo.Scripts packageJson /\
    (utils.IsDir w nodeModulesPath = false ->
     ProjectAnalysis.TotalSize analysis = positive_total packages) /\
    (forall size err,
       utils.GetDirSize w nodeModulesPath = (size, Some err) ->
       ProjectAnalysis.TotalSize analysis = positive_total packages) /\
    (forall size,
       utils.IsDir w nodeModulesPath = true ->
       utils.GetDirSize w nodeModulesPath = (size, None) ->
       ProjectAnalysis.TotalSize analysis = size).
Proof.
  intros w nodeModulesPath Hpath Hexp Hex Hfile Hread got packages.
  destruct (AnalyzeProject_run σ f projectPath expandedPath packageJson st
              Hpath Hexp Hex Hfile Hread) as (st' & Hrun & Hworld & Hcalls).
  eexists _, st'. split; [exact Hrun|].
  split; [done|]. split; [done|].
  cbn [ProjectAnalysis.PackageCount ProjectAnalysis.DevPackageCount
       ProjectAnalysis.OutdatedPackages ProjectAnalysis.Vulnerabilities
       ProjectAnalysis.Scripts ProjectAnalysis.TotalSize].
  fold w nodeModulesPath got packages.
  do 5 (split; [done|]).
  split; [by intros ->|]. split.
  - intros size err ->. by destruct (utils.IsDir w nodeModulesPath).
  - by intros size -> ->.
Qed.

(** X26: [AnalyzeProject] fails only before it reaches a backend: for an
    empty path, a path that cannot be expanded or does not exist, a
    directory without [package.json] ([ErrProjectNotFound]) or a
    [package.json] that cannot be read or parsed.  A failure leaves the
    state as it was: no call and no log line. *)
Theorem AnalyzeProject_failures (σ : Schedule) (f : ManagerFactory.t W)
    (projectPath : string) (st : State W) (e : error) :
  let w := world st in
  let out := AnalyzeProject σ f projectPath st in
  out.1 = Err e ->
  out.2 = st /\
  ((projectPath = "" /\
    e = ValidationError "projectPath" projectPath
          "project path cannot be empty") \/
   (exists err, utils.ExpandPath w projectPath = Err err /\
                e = ErrorfW "failed to expand path" "" err) \/
   (exists expandedPath,
      utils.ExpandPath w projectPath = Ok expandedPath /\
      let packageJsonPath := filepath_Join expandedPath "package.json" in
      ((utils.PathExists w expandedPath = false /\
        e = ValidationError "projectPath" projectPath "path does not exist")
       \/ (utils.PathExists w expandedPath = true /\
           utils.IsFile w packageJsonPath = false /\
           e = Predefined ErrProjectNotFound)
       \/ (exists err,
             utils.IsFile w packageJsonPath = true /\
             readPackageJson w packageJsonPath = Err err /\
             e = ErrorfW "failed to read package.json" "" err)))).
Proof.
  intros w out. subst out.
  destruct (decide (projectPath = "")) as [Hpath|Hpath].
  { unfold AnalyzeProject. rewrite decide_True by done.
    intros [= <-]. split; [done|]. by left. }
  destruct (utils.ExpandPath w projectPath) as [p|err] eqn:Hexp.
  2:{ assert (AnalyzeProject σ f projectPath st
              = (Err (ErrorfW "failed to expand path" "" err), st)) as ->.
      { unfold AnalyzeProject. rewrite decide_False by done.
        unfold bind at 1, read_world at 1. fold w. by rewrite Hexp. }
      intros [= <-]. split; [done|]. right. left. by exists err. }
  destruct (utils.PathExists w p) eqn:Hex.
  2:{ assert (AnalyzeProject σ f projectPath st
              = (Err (ValidationError "projectPath" projectPath
                        "path does not exist"), st)) as ->.
      { unfold AnalyzeProject. rewrite decide_False by done.
        unfold bind at 1, read_world at 1. fold w. rewrite Hexp.
        unfold bind at 1, read_world at 1. fold w. by rewrite Hex. }
      intros [= <-]. split; [done|]. right. right. exists p.
      split; [done|]. by left. }
  destruct (utils.IsFile w (filepath_Join p "package.json")) eqn:Hfile.
  2:{ assert (AnalyzeProject σ f projectPath st
              = (Err (Predefined ErrProjectNotFound), st)) as ->.
      { unfold AnalyzeProject. rewrite decide_False by done.
        unfold bind at 1, read_world at 1. fold w. rewrite Hexp.
        unfold bind at 1, read_world at 1. fold w. rewrite Hex.
        cbn [negb]. cbv beta iota.
        unfold bind at 1, read_world at 1. fold w. by rewrite Hfile. }
      intros [= <-]. split; [done|]. right. right. exists p.
      split; [done|]. right. by left. }
  destruct (readPackageJson w (filepath_Join p "package.json"))
    as [packageJson|err] eqn:Hread.
  2:{ assert (AnalyzeProject σ f projectPath st
              = (Err (ErrorfW "failed to read package.json" "" err), st))
        as ->.
      { unfold AnalyzeProject. rewrite decide_False by done.
        unfold bind at 1, read_world at 1. fold w. rewrite Hexp.
        unfold bind at 1, read_world at 1. fold w. rewrite Hex.
        cbn [negb]. cbv beta iota.
        unfold bind at 1, read_world at 1. fold w. rewrite Hfile.
        cbn [negb]. cbv beta iota.
        unfold bind at 1, read_world at 1. fold w. by rewrite Hread. }
      intros [= <-]. split; [done|]. right. right. exists p.
      split; [done|]. right. right. by exists err. }
  destruct (AnalyzeProject_run σ f projectPath p packageJson st
              Hpath Hexp Hex Hfile Hread) as (st' & Hrun & _).
  rewrite Hrun. done.
Qed.
End AnalysisTheorems.

Section ScanFacts.
Context {W : Type} `{!Platform W}.
Import ProjectService.

(** X27: [ScanProjects] fails only before it reaches a backend, and
    leaves the state as it was: for an empty root, a root that cannot be
    expanded, a root that [os.Stat] reports missing
    ([path does not exist]) and a root that is a file or that [os.Stat]
    cannot read for another reason ([path is not a directory]).
    [GetProjectStats] fails in the same cases with the same error. *)
Theorem ScanProjects_failures (σ : Schedule) (f : ManagerFactory.t W)
    (rootPath : string) (st : State W) (e : error) :
  let w := world st in
  (ScanProjects σ f rootPath st).1 = Err e ->
  ScanProjects σ f rootPath st = (Err e, st) /\
  GetProjectStats σ f rootPath st = (Err e, st) /\
  ((rootPath = "" /\
    e = ValidationError "rootPath" rootPath "root path cannot be empty") \/
   (exists err, utils.ExpandPath w rootPath = Err err /\
                e = ErrorfW "failed to expand path" "" err) \/
   (exists expandedPath,
      utils.ExpandPath w rootPath = Ok expandedPath /\
      ((os_Stat w expandedPath = StatNotExist /\
        e = ValidationError "rootPath" rootPath "path does not exist") \/
       ((os_Stat w expandedPath = StatOk false \/
         os_Stat w expandedPath = StatFailed) /\
        e = ValidationError "rootPath" rootPath
              "path is not a directory")))).
Proof.
  intros w. unfold GetProjectStats. unfold bind at 1.
  destruct (decide (rootPath = "")) as [Hroot|Hroot].
  { unfold ScanProjects. rewrite decide_True by done.
    intros [= <-]. split; [done|]. split; [done|]. by left. }
  destruct (utils.ExpandPath w rootPath) as [p|err] eqn:Hexp.
  2:{ assert (ScanProjects σ f rootPath st
              = (Err (ErrorfW "failed to expand path" "" err), st)) as ->.
      { unfold ScanProjects. rewrite decide_False by done.
        unfold bind at 1, read_world at 1. fold w. by rewrite Hexp. }
      intros [= <-]. split; [done|]. split; [done|].
      right. left. by exists err. }
  destruct (os_Stat w p) as [[|]| |] eqn:Hstat.
  - intros Herr. exfalso.
    rewrite (ScanProjects_run σ f rootPath p st) in Herr; try done.
    + unfold utils.PathExists. fold w. by rewrite Hstat.
    + unfold utils.IsDir. fold w. by rewrite Hstat.
  - assert (ScanProjects σ f rootPath st
            = (Err (ValidationError "rootPath" rootPath
                      "path is not a directory"), st)) as ->.
    { unfold ScanProjects. rewrite decide_False by done.
      unfold bind at 1, read_world at 1. fold w. rewrite Hexp.
      unfold bind at 1, read_world at 1, utils.PathExists at 1. fold w.
      rewrite Hstat. cbn [negb]. cbv beta iota.
      unfold bind at 1, read_world at 1, utils.IsDir at 1. fold w.
      by rewrite Hstat. }
    intros [= <-]. split; [done|]. split; [done|].
    right. right. exists p. split; [done|]. right. split; [by left|done].
  - assert (ScanProjects σ f rootPath st
            = (Err (ValidationError "rootPath" rootPath
                      "path does not exist"), st)) as ->.
    { unfold ScanProjects. rewrite decide_False by done.
      unfold bind at 1, read_world at 1. fold w. rewrite Hexp.
      unfold bind at 1, read_world at 1, utils.PathExists at 1. fold w.
      by rewrite Hstat. }
    intros [= <-]. split; [done|]. split; [done|].
    right. right. exists p. split; [done|]. by left.
  - assert (ScanProjects σ f rootPath st
            = (Err (ValidationError "rootPath" rootPath
                      "path is not a directory"), st)) as ->.
    { unfold ScanProjects. rewrite decide_False by done.
      unfold bind at 1, read_world at 1. fold w. rewrite Hexp.
      unfold bind at 1, read_world at 1, utils.PathExists at 1. fold w.
      rewrite Hstat. cbn [negb]. cbv beta iota.
      unfold bind at 1, read_world at 1, utils.IsDir at 1. fold w.
      by rewrite Hstat. }
    intros [= <-]. split; [done|]. split; [done|].
    right. right. exists p. split; [done|]. right. split; [by right|done].
Qed.

Lemma GetProjectStats_step_fold (l : list Project.t) (s : ProjectStats) :
  TotalProjects (fold_left GetProjectStats_step l s) =
    fold_left (fun n (_ : Project.t) => wrap64 (n + 1)) l (TotalProjects s) /\
  MultiManagerProjects (fold_left GetProjectStats_step l s) =
    fold_left (fun n project =>
                 if (1 <? length (Project.Managers project))%nat
                 then wrap64 (n + 1) else n) l (MultiManagerProjects s) /\
  ByManager (fold_left GetProjectStats_step l s) =
    fold_left (fun m manager => PackageService.incr manager m)
      (flat_map Project.Managers l) (ByManager s).
Proof.
  revert s. induction l as [|x l IH]; intros s; simpl; [done|].
  destruct (IH (GetProjectStats_step s x)) as (-> & -> & ->).
  cbn [TotalProjects MultiManagerProjects ByManager GetProjectStats_step].
  by rewrite fold_left_app.
Qed.

(** X28: [GetProjectStats] counts the projects [ScanProjects] returns:
    all of them, those that list more than one manager, and for every
    manager the number of times the projects list it; a manager no
    project lists has no entry. *)
Theorem GetProjectStats_counts (σ : Schedule) (f : ManagerFactory.t W)
    (rootPath : string) (st st' : State W) (projects : list Project.t) :
  ScanProjects σ f rootPath st = (Ok projects, st') ->
  exists stats,
    GetProjectStats σ f rootPath st = (Ok stats, st') /\
    TotalProjects stats = wrap64 (Z.of_nat (length projects)) /\
    MultiManagerProjects stats =
      wrap64 (Z.of_nat
                (count_if
                   (fun project =>
                      (1 <? length (Project.Managers project))%nat)
                   projects)) /\
    (forall manager,
       default 0 (ByManager stats !! manager)
       = wrap64 (Z.of_nat (listings manager projects))) /\
    (forall manager,
       is_Some (ByManager stats !! manager) <->
       exists project, project ∈ projects /\
                       manager ∈ Project.Managers project).
Proof.
  intros Hscan. unfold GetProjectStats, bind. rewrite Hscan. unfold ret.
  eexists. split; [reflexivity|].
  destruct (GetProjectStats_step_fold projects
              {| TotalProjects := 0; MultiManagerProjects := 0;
                 ByManager := ∅ |}) as (-> & -> & ->).
  cbn [TotalProjects MultiManagerProjects ByManager].
  split; [apply fold_wrap64_length|].
  split.
  { pose proof (fold_wrap64_count
                  (fun project : Project.t =>
                     (1 <? length (Project.Managers project))%nat)
                  projects 0) as H.
    change (wrap64 0) with 0 in H. by rewrite Z.add_0_l in H. }
  split.
  - intros manager. unfold listings.
    rewrite (incr_fold_lookup (fun m : string => m) _ ∅ manager 0);
      [by rewrite Z.add_0_l|by rewrite lookup_empty].
  - intros manager.
    assert (Hgen : forall (l : list string) (m0 : gmap string Z),
      is_Some (fold_left (fun m manager => PackageService.incr manager m)
                 l m0 !! manager) <->
      is_Some (m0 !! manager) \/ manager ∈ l).
    { induction l as [|x l IH]; intros m0; simpl.
      - rewrite elem_of_nil. tauto.
      - rewrite IH, elem_of_cons. unfold PackageService.incr.
        destruct (decide (x = manager)) as [->|Hne].
        + rewrite lookup_insert_eq. split; [tauto|]. intros _. left.
          by eexists.
        + rewrite lookup_insert_ne by done. split; [tauto|].
          intros [?|[?|?]]; [tauto|congruence|tauto]. }
    rewrite Hgen, lookup_empty. split.
    + intros [[? ?]|Hin]; [done|].
      apply elem_of_flat_map in Hin as (project & ? & ?).
      by exists project.
    + intros (project & ? & ?). right.
      apply elem_of_flat_map. by exists project.
Qed.
End ScanFacts.

(** ** The views of the factory *)
Section FactoryViews.
Context {W : Type}.

Lemma count_if_perm {A} (test : A -> bool) (l l' : list A) :
  l ≡ₚ l' -> count_if test l = count_if test l'.
Proof.
  unfold count_if.
  induction 1 as [|x l l' _ IH|x y l|l l' l'' _ IH1 _ IH2]; simpl.
  - done.
  - destruct (test x); simpl; by rewrite IH.
  - by destruct (test x), (test y).
  - by rewrite IH1.
Qed.

Lemma GetAvailableManagerCount_run (σ : Schedule) (f : ManagerFactory.t W)
    (st : State W) :
  let l := order σ at_GetAvailableManagerCount
             (map_to_list (ManagerFactory.managers f)) in
  ManagerFactory.GetAvailableManagerCount σ f st =
  (wrap64 (Z.of_nat
             (count_if (fun nm => PackageManager.IsAvailable nm.2 (world st))
                l)),
   Build_State (world st)
     (calls st ++ map (fun nm => (nm.1, OpIsAvailable)) l) (logs st)).
Proof.
  intros l. unfold ManagerFactory.GetAvailableManagerCount. fold l.
  assert (Hgen : forall l' (count : Z) (st' : State W),
    for_each
      (fun '(name, manager) count =>
         do available <- call_read name OpIsAvailable
                           (PackageManager.IsAvailable manager);
         if available : bool
         then ret (wrap64 (count + 1))
         else ret count) l' count st' =
    (fold_left
       (fun n nm => if PackageManager.IsAvailable nm.2 (world st')
                    then wrap64 (n + 1) else n) l' count,
     Build_State (world st')
       (calls st' ++ map (fun nm => (nm.1, OpIsAvailable)) l') (logs st'))).
  { induction l' as [|[n m] l' IH]; intros count st'; simpl.
    - unfold ret. rewrite app_nil_r. by destruct st'.
    - unfold bind at 1. unfold bind at 1. unfold call_read at 1.
      destruct (PackageManager.IsAvailable m (world st'));
        unfold ret at 1; rewrite IH; cbn [world calls logs];
        by rewrite <- app_assoc. }
  rewrite Hgen. f_equal.
  apply (fold_wrap64_count
           (fun nm => PackageManager.IsAvailable nm.2 (world st)) l 0).
Qed.

Lemma GetManagerInfo_run (σ : Schedule) (f : ManagerFactory.t W)
    (st : State W) :
  let l := order σ at_GetManagerInfo
             (map_to_list (ManagerFactory.managers f)) in
  ManagerFactory.GetManagerInfo σ f st =
  (map (fun nm =>
          {| ManagerFactory.Name := nm.1;
             ManagerFactory.Available :=
               PackageManager.IsAvailable nm.2 (world st) |}) l,
   Build_State (world st)
     (calls st ++ map (fun nm => (nm.1, OpIsAvailable)) l) (logs st)).
Proof.
  intros l. unfold ManagerFactory.GetManagerInfo. fold l.
  assert (Hgen : forall l' (info : list ManagerFactory.ManagerInfo)
                    (st' : State W),
    for_each
      (fun '(name, manager) info =>
         do available <- call_read name OpIsAvailable
                           (PackageManager.IsAvailable manager);
         ret (info ++ [{| ManagerFactory.Name := name;
                          ManagerFactory.Available := available |}]))
      l' info st' =
    (info ++ map (fun nm =>
                    {| ManagerFactory.Name := nm.1;
                       ManagerFactory.Available :=
                         PackageManager.IsAvailable nm.2 (world st') |}) l',
     Build_State (world st')
       (calls st' ++ map (fun nm => (nm.1, OpIsAvailable)) l') (logs st'))).
  { induction l' as [|[n m] l' IH]; intros info st'; simpl.
    - unfold ret. rewrite !app_nil_r. by destruct st'.
    - unfold bind at 1. unfold bind at 1. unfold call_read at 1.
      unfold ret at 1. rewrite IH. cbn [world calls logs].
      by rewrite <- !app_assoc. }
  by rewrite Hgen.
Qed.

(** X29: the views of the factory agree.  [GetAvailableManagerCount]
    returns the number of names [GetAvailableManagerNames] returns;
    [GetManagerInfo] has one entry for every registered manager, as many
    as [GetManagerCount] says and with the names of [GetManagerNames],
    and marks as available exactly the names of
    [GetAvailableManagerNames].  Each of the three probing views calls
    [IsAvailable] once on every registered manager and changes nothing. *)
Theorem factory_views_agree (σ : Schedule) (f : ManagerFactory.t W)
    (st : State W) :
  exists count st1 names st2 info st3,
    ManagerFactory.GetAvailableManagerCount σ f st = (count, st1) /\
    ManagerFactory.GetAvailableManagerNames σ f st = (names, st2) /\
    ManagerFactory.GetManagerInfo σ f st = (info, st3) /\
    count = wrap64 (Z.of_nat (length names)) /\
    ManagerFactory.GetManagerCount f = Z.of_nat (length info) /\
    map ManagerFactory.Name info ≡ₚ ManagerFactory.GetManagerNames σ f /\
    NoDup (map ManagerFactory.Name info) /\
    (forall name,
       {| ManagerFactory.Name := name; ManagerFactory.Available := true |}
         ∈ info <-> name ∈ names) /\
    (forall name,
       name ∈ ManagerFactory.GetManagerNames σ f <->
       is_Some (ManagerFactory.managers f !! name)) /\
    world st1 = world st /\ world st2 = world st /\ world st3 = world st /\
    (forall st', st' ∈ [st1; st2; st3] ->
       calls st' ≡ₚ
       calls st ++ map (fun name => (name, OpIsAvailable))
                     (ManagerFactory.GetManagerNames σ f)).
Proof.
  set (all := map_to_list (ManagerFactory.managers f)).
  assert (Hperm : forall site, order σ site all ≡ₚ all)
    by (intros site; apply order_perm).
  eexists _, _, _, _, _, _.
  split; [apply GetAvailableManagerCount_run|].
  split; [apply GetAvailableManagerNames_spec|].
  split; [apply GetManagerInfo_run|].
  fold all. cbn [world calls logs].
  unfold ManagerFactory.GetManagerNames, ManagerFactory.GetManagerCount.
  fold all.
  assert (Hnodup : NoDup (map fst all)) by apply NoDup_fst_map_to_list.
  split.
  { do 2 f_equal. rewrite length_map.
    rewrite (count_if_perm _ _ _ (Hperm at_GetAvailableManagerCount)).
    rewrite <- (count_if_perm _ _ _ (Hperm at_GetAvailableManagerNames)).
    unfold count_if.
    generalize (order σ at_GetAvailableManagerNames all). intros l.
    induction l as [|x l IH]; [done|].
    rewrite filter_cons. simpl.
    destruct (PackageManager.IsAvailable x.2 (world st)) eqn:Hx.
    - rewrite decide_True by done. simpl. by rewrite IH.
    - rewrite decide_False by done. done. }
  split.
  { rewrite length_map, (Hperm at_GetManagerInfo).
    unfold all. by rewrite length_map_to_list. }
  split.
  { rewrite map_map. cbn [ManagerFactory.Name].
    by rewrite (Hperm at_GetManagerInfo), (Hperm at_GetManagerNames). }
  split.
  { rewrite map_map. cbn [ManagerFactory.Name].
    change (NoDup (map fst (order σ at_GetManagerInfo all))).
    by rewrite (Hperm at_GetManagerInfo). }
  split.
  { intros name. split.
    - intros ([n m] & [= -> Hav] & Hin)%list_elem_of_fmap.
      apply list_elem_of_fmap. exists (n, m).
      split; [done|]. apply list_elem_of_filter. split; [done|].
      rewrite (Hperm at_GetAvailableManagerNames).
      by rewrite (Hperm at_GetManagerInfo) in Hin.
    - intros ([n m] & -> & [Hav Hin]%list_elem_of_filter)%list_elem_of_fmap.
      apply list_elem_of_fmap. exists (n, m).
      cbn [fst snd] in *. split; [by rewrite Hav|].
      rewrite (Hperm at_GetManagerInfo).
      by rewrite (Hperm at_GetAvailableManagerNames) in Hin. }
  split.
  { intros name. rewrite (Hperm at_GetManagerNames). split.
    - intros ([n m] & -> & Hin)%list_elem_of_fmap.
      apply elem_of_map_to_list in Hin. by exists m.
    - intros [m Hm]. apply list_elem_of_fmap. exists (name, m).
      split; [done|]. by apply elem_of_map_to_list. }
  do 3 (split; [done|]).
  intros st' Hst'. rewrite map_map. cbn [fst].
  rewrite !elem_of_cons, elem_of_nil in Hst'.
  destruct Hst' as [->|[->|[->|[]]]]; cbn [calls];
    apply Permutation_app_head;
    change (fun x : string * PackageManager.t W => (x.1, OpIsAvailable))
      with (fun nm : string * PackageManager.t W => (nm.1, OpIsAvailable));
    by rewrite Hperm, (Hperm at_GetManagerNames).
Qed.
End FactoryViews.

(** ** The further properties on the small installations *)

Lemma RegisterManager_round_trip_witness :
  exists f',
    ManagerFactory.RegisterManager Demo.factory "deno"
      (Demo.backend "deno" true true) = (None, f') /\
    ManagerFactory.GetManager f' "deno" = Ok (Demo.backend "deno" true true) /\
    ManagerFactory.UnregisterManager f' "deno" = (None, Demo.factory).
Proof.
  destruct (RegisterManager_round_trip Demo.factory "deno"
              (Demo.backend "deno" true true))
    as (f' & Hreg & Hget & _ & _ & Hback); [vm_compute; reflexivity|].
  exists f'. split; [exact Hreg|]. split; [exact Hget|exact Hback].
Defined.

Lemma UnregisterManager_round_trip_witness :
  exists f',
    ManagerFactory.UnregisterManager Demo.factory "yarn" = (None, f') /\
    ManagerFactory.RegisterManager f' "yarn" (Demo.backend "yarn" true false)
      = (None, Demo.factory).
Proof.
  destruct (UnregisterManager_round_trip Demo.factory "yarn"
              (Demo.backend "yarn" true false) (Demo.backend "yarn" true true))
    as (_ & f' & Hun & _ & _ & _ & Hback); [vm_compute; reflexivity|].
  exists f'. split; [exact Hun|exact Hback].
Defined.

Lemma ValidateManagerName_nil_witness :
  exists manager,
    ManagerFactory.managers Demo.factory !! "npm" = Some manager /\
    PackageManager.IsAvailable manager (world Demo.start) = true.
Proof.
  destruct (ValidateManagerName_nil Demo.factory "npm" Demo.start
              (Build_State (world Demo.start) [("npm", OpIsAvailable)] []))
    as (manager & Hreg & Hav & _); [vm_compute; reflexivity|].
  exists manager. split; [exact Hreg|exact Hav].
Defined.

Lemma CacheService_single_manager_witness :
  CacheService.ClearCache Demo.factory "pnpm" Demo.start
  = (Some (ManagerError "pnpm" "clear cache"
             (Predefined ErrManagerNotAvailable)),
     Build_State (world Demo.start) [("pnpm", OpIsAvailable)] []).
Proof.
  destruct (CacheService_single_manager Demo.factory "pnpm"
              (Demo.backend "pnpm" false true) Demo.start)
    as [_ [_ Hclear]]; [vm_compute; reflexivity|].
  exact Hclear.
Defined.

Lemma PackageService_single_manager_witness :
  PackageService.GetPackagesByManager Demo.factory "yarn" "/work" Demo.start
  = (Err (Predefined ErrProjectNotFound),
     Build_State (world Demo.start)
       [("yarn", OpIsAvailable); ("yarn", OpGetInstalledPackages "/work")]
       []).
Proof.
  destruct (PackageService_single_manager Demo.factory "yarn" "/work"
              (Demo.backend "yarn" true false) Demo.start)
    as [Hlist _]; [vm_compute; reflexivity|].
  exact Hlist.
Defined.

Lemma ConfigService_single_manager_witness :
  ConfigService.SetRegistry Demo.factory "pnpm" "https://registry.npmjs.org/"
    Demo.start
  = (Some (ManagerError "pnpm" "set registry"
             (Predefined ErrManagerNotAvailable)),
     Build_State (world Demo.start) [("pnpm", OpIsAvailable)] []).
Proof.
  destruct (ConfigService_single_manager Demo.factory "pnpm"
              "https://registry.npmjs.org/"
              (Demo.backend "pnpm" false true) Demo.start)
    as [_ Hset]; [vm_compute; reflexivity..|].
  exact Hset.
Defined.

Lemma SearchPackages_filters_global_packages_witness :
  exists globals st',
    PackageService.GetGlobalPackages Demo.in_order Demo.factory Demo.start
      = (Ok globals, st') /\
    exists found,
      PackageService.SearchPackages Demo.in_order Demo.factory "type"
        Demo.start = (Ok found, st') /\
      sorted_by Package.Name found.
Proof.
  destruct (SearchPackages_filters_global_packages Demo.in_order Demo.factory
              "type" Demo.start)
    as (globals & st' & Hglobals & Hsearch & _ & Hsorted & _);
    [discriminate|].
  exists globals, st'. split; [exact Hglobals|].
  eexists. split; [exact Hsearch|exact Hsorted].
Defined.

Lemma GetPackageInfo_first_match_witness :
  exists st',
    PackageService.GetPackageInfo Demo.in_order Demo.two_versions "a"
      Demo.start
    = (Ok {| PackageDetail.Package := Demo.package "a" "1.0.0" "npm";
             PackageDetail.Author := "";
             PackageDetail.License := "";
             PackageDetail.Homepage := "";
             PackageDetail.Repository := "";
             PackageDetail.Keywords := [];
             PackageDetail.Scripts := ∅;
             PackageDetail.Engines := ∅;
             PackageDetail.PeerDependencies := ∅ |}, st').
Proof.
  destruct (GetPackageInfo_first_match Demo.in_order Demo.two_versions "a"
              Demo.start)
    as (globals & st' & Hglobals & _ & Hfound); [discriminate|].
  apply (f_equal fst) in Hglobals. vm_compute in Hglobals.
  injection Hglobals as <-.
  destruct Hfound as (pkg & before & after & Hrun & Hsplit & _ & Hbefore).
  { eexists. split; [apply list_elem_of_here|reflexivity]. }
  exists st'. destruct before as [|earlier before].
  - injection Hsplit as <- _. exact Hrun.
  - exfalso. injection Hsplit as <- _.
    apply (Hbefore _ (list_elem_of_here _ _)). reflexivity.
Defined.

Lemma GetPackageStats_counts_witness :
  exists pkgs stats st',
    PackageService.GetAllPackages Demo.in_order Demo.factory "/work"
      Demo.start = (Ok pkgs, st') /\
    PackageService.GetPackageStats Demo.in_order Demo.factory "/work"
      Demo.start = (Ok stats, st') /\
    PackageService.TotalPackages stats = wrap64 (Z.of_nat (length pkgs)).
Proof.
  destruct (GetPackageStats_counts Demo.in_order Demo.factory "/work"
              Demo.start)
    as (pkgs & stats & st' & Hall & Hstats & Htotal & _); [discriminate|].
  exists pkgs, stats, st'.
  split; [exact Hall|]. split; [exact Hstats|exact Htotal].
Defined.

Lemma setters_for_all_best_effort_witness :
  exists r st',
    ConfigService.SetProxyForAll Demo.in_order Demo.factory "" Demo.start
      = (r, st') /\
    exists errs,
      r = Some (ErrorfV "failed to set proxy for some managers: " errs) /\
      ErrorfW "failed to set proxy for " "yarn" (Demo.broken "yarn" "set proxy")
        ∈ errs.
Proof.
  destruct (setters_for_all_best_effort Demo.in_order Demo.factory ""
              Demo.start) as [_ Hproxy].
  destruct Hproxy as (r & st' & Hrun & _ & _ & _ & Hfailed);
    [vm_compute; reflexivity|].
  exists r, st'. split; [exact Hrun|].
  apply Hfailed. vm_compute.
  apply list_elem_of_here.
Defined.

Lemma InstallPackage_outcome_witness :
  (exists st',
     PackageService.InstallPackage Demo.factory "lodash" "npm" false
       Demo.start = (None, st')) /\
  (exists st',
     PackageService.UninstallPackage Demo.factory "lodash" "bun" true
       Demo.start
     = (Some (ManagerError "bun" "uninstall" (External "exit status 1")),
        st')).
Proof.
  split.
  - destruct (InstallPackage_outcome Demo.factory "lodash" "npm" false
                (Demo.backend "npm" true true) Demo.start)
      as [(r & st' & Hrun & _ & _ & Hr) _];
      [discriminate|discriminate|vm_compute; reflexivity..|].
    exists st'. rewrite Hrun. f_equal. exact Hr.
  - destruct (InstallPackage_outcome Demo.factory "lodash" "bun" true
                (Demo.backend "bun" true true) Demo.start)
      as [_ (r & st' & Hrun & _ & _ & Hr)];
      [discriminate|discriminate|vm_compute; reflexivity..|].
    exists st'. rewrite Hrun. f_equal. exact Hr.
Defined.

Lemma InstallPackage_refusals_witness :
  exists e1 e2,
    PackageService.InstallPackage Demo.factory "lodash" "pnpm" false
      Demo.start
    = (Some e1, Build_State (world Demo.start) [("pnpm", OpIsAvailable)] [])
    /\ PackageService.UninstallPackage Demo.factory "lodash" "pnpm" false
         Demo.start
       = (Some e2,
          Build_State (world Demo.start) [("pnpm", OpIsAvailable)] []) /\
    e1 = ManagerError "pnpm" "install" (Predefined ErrManagerNotAvailable).
Proof.
  destruct (InstallPackage_refusals Demo.factory "lodash" "pnpm" false
              Demo.start)
    as (e1 & e2 & st' & Hin & Hun & Hworld & Hlogs & _ & _ & _ & Hprobe).
  { right. right. right. exists (Demo.backend "pnpm" false true).
    split; vm_compute; reflexivity. }
  destruct Hprobe as (Hcalls & He1 & _);
    [discriminate|discriminate|eexists; vm_compute; reflexivity|].
  exists e1, e2.
  assert (st' = Build_State (world Demo.start) [("pnpm", OpIsAvailable)] [])
    as <-.
  { destruct st' as [w c l]. cbn [world calls logs] in *.
    rewrite Hworld, Hcalls, Hlogs. reflexivity. }
  split; [exact Hin|]. split; [exact Hun|exact He1].
Defined.

Lemma GetDirSize_sums_files_witness :
  utils.GetDirSize (world Demo.start) "/work/node_modules" = (1000, None).
Proof.
  destruct (GetDirSize_sums_files (world Demo.start) "/work/node_modules"
              [{| FileInfo.IsDir := true; FileInfo.Size := 4096 |};
               {| FileInfo.IsDir := false; FileInfo.Size := 700 |};
               {| FileInfo.IsDir := false; FileInfo.Size := 300 |}] [])
    as [Hdone _]; [reflexivity|].
  exact (Hdone eq_refl).
Defined.

Lemma AnalyzeProject_lock_file_witness :
  exists analysis st',
    ProjectService.AnalyzeProject Demo.in_order Checkout.factory "/repo"
      Checkout.start = (Ok analysis, st') /\
    Project.Managers (ProjectAnalysis.Project analysis) = ["npm"; "bun"] /\
    Project.LockFile (ProjectAnalysis.Project analysis) = "/repo/bun.lockb".
Proof.
  destruct (AnalyzeProject_lock_file Demo.in_order Checkout.factory "/repo"
              "/repo" Demo.manifest Checkout.start)
    as (analysis & st' & Hrun & _ & _ & Hmanagers & _ & Hlock);
    [discriminate|vm_compute; reflexivity..|].
  exists analysis, st'. split; [exact Hrun|].
  split; [exact Hmanagers|exact Hlock].
Defined.

Lemma AnalyzeProject_counts_witness :
  exists analysis st',
    ProjectService.AnalyzeProject Demo.in_order Checkout.factory "/repo"
      Checkout.start = (Ok analysis, st') /\
    ProjectAnalysis.DevPackageCount analysis = 0 /\
    ProjectAnalysis.TotalSize analysis = 1200.
Proof.
  destruct (AnalyzeProject_counts Demo.in_order Checkout.factory "/repo"
              "/repo" Demo.manifest Checkout.start)
    as (analysis & st' & Hrun & _ & _ & _ & Hdev & _ & _ & _ & _ & _ & Hsize);
    [discriminate|vm_compute; reflexivity..|].
  exists analysis, st'. split; [exact Hrun|]. split; [exact Hdev|].
  apply Hsize; vm_compute; reflexivity.
Defined.

Lemma AnalyzeProject_failures_witness :
  (ProjectService.AnalyzeProject Demo.in_order Checkout.factory "~/repo"
     Checkout.start).2 = Checkout.start.
Proof.
  destruct (AnalyzeProject_failures Demo.in_order Checkout.factory "~/repo"
              Checkout.start
              (ErrorfW "failed to expand path" ""
                 (External "$HOME is not defined")))
    as [Hstate _]; [vm_compute; reflexivity|].
  exact Hstate.
Defined.

Lemma ScanProjects_failures_witness :
  ProjectService.GetProjectStats Demo.in_order Checkout.factory
    "/srv/projects" Checkout.start
  = (Err (ValidationError "rootPath" "/srv/projects"
            "path is not a directory"), Checkout.start).
Proof.
  destruct (ScanProjects_failures Demo.in_order Checkout.factory
              "/srv/projects" Checkout.start
              (ValidationError "rootPath" "/srv/projects"
                 "path is not a directory"))
    as (_ & Hstats & _); [vm_compute; reflexivity|].
  exact Hstats.
Defined.

Lemma GetProjectStats_counts_witness :
  exists projects st' stats,
    ProjectService.ScanProjects Demo.in_order Demo.factory "/work" Demo.start
      = (Ok projects, st') /\
    ProjectService.GetProjectStats Demo.in_order Demo.factory "/work"
      Demo.start = (Ok stats, st') /\
    ProjectService.TotalProjects stats
      = wrap64 (Z.of_nat (length projects)).
Proof.
  pose proof (ScanProjects_run Demo.in_order Demo.factory "/work" "/work"
                Demo.start) as Hscan.
  cbv zeta in Hscan.
  specialize (Hscan ltac:(discriminate) ltac:(vm_compute; reflexivity)
                ltac:(vm_compute; reflexivity) ltac:(vm_compute; reflexivity)).
  destruct (GetProjectStats_counts Demo.in_order Demo.factory "/work"
              Demo.start _ _ Hscan) as (stats & Hstats & Htotal & _).
  eexists _, _, stats.
  split; [exact Hscan|]. split; [exact Hstats|exact Htotal].
Defined.
